(** * Screener: EMA / RSI indicators and the crossover scan

    A shallow embedding of [Screener.py].  The indicator functions
    [calculate_ema] and [calculate_rsi] are written once, over an abstract
    numeric interface [Number], in an exception monad that follows Python's
    control flow (ZeroDivisionError, IndexError, OverflowError).  The
    interface has two instances: IEEE binary64 (what CPython computes
    with, executable inside Rocq) and the real numbers (the arithmetic of
    the specification's formulas).  The scan loop of [handler] is written
    over a state that carries the outside world and a log of the remote
    calls made.

    Facts that depend only on the shape of the code (lengths, positions,
    which branch runs, what is caught) are proved for every number
    system.  Facts of arithmetic are proved on the reals; where IEEE
    doubles behave differently, a run on doubles shows it. *)

From Stdlib Require Import String Floats Reals Lra.
From Stdlib Require Import ZArith List Bool Lia.
From Stdlib Require Import DecimalString.
Import ListNotations.

Local Open Scope Z_scope.

(** ** Exceptions and the exception monad *)

(** Every constructor stands for a subclass of Python's [Exception]:
    the three the indicator code can raise by itself, and whatever the
    collaborators ([requests], [json], [int], [float]) raise. *)
Inductive exn : Type :=
| ZeroDivisionError
| IndexError
| OverflowError
| ExternalError (msg : string).

Inductive result (A : Type) : Type :=
| Normal (a : A)
| Raise (e : exn).

Arguments Normal {A} a.
Arguments Raise {A} e.

Definition bind {A B : Type} (m : result A) (f : A -> result B) : result B :=
  match m with
  | Normal a => f a
  | Raise e => Raise e
  end.

Declare Scope py_scope.
Delimit Scope py_scope with py.
Notation "x <- m ;; k" := (bind m (fun x => k))
  (at level 61, m at next level, right associativity) : py_scope.
Local Open Scope py_scope.

(** [for x in xs: s = body(x, s)], stopping at the first exception. *)
Fixpoint for_each {A S : Type} (xs : list A) (s : S)
         (body : A -> S -> result S) : result S :=
  match xs with
  | [] => Normal s
  | x :: xs' => s' <- body x s ;; for_each xs' s' body
  end.

(** [[f(x) for x in xs]]. *)
Fixpoint list_comp {A B : Type} (f : A -> result B) (xs : list A)
  : result (list B) :=
  match xs with
  | [] => Normal []
  | x :: xs' => y <- f x ;; ys <- list_comp f xs' ;; Normal (y :: ys)
  end.

(** ** Python lists indexed by [int] *)

(** The position a Python index denotes in a list of length [n]:
    negative indices count from the end, anything else is out of range. *)
Definition norm_index (n : nat) (i : Z) : option nat :=
  if (0 <=? i) && (i <? Z.of_nat n) then Some (Z.to_nat i)
  else if (i <? 0) && (- Z.of_nat n <=? i) then Some (Z.to_nat (Z.of_nat n + i))
  else None.

Fixpoint list_set {A : Type} (l : list A) (j : nat) (v : A) : list A :=
  match l, j with
  | [], _ => []
  | _ :: l', O => v :: l'
  | x :: l', S j' => x :: list_set l' j' v
  end.

(** [l[i]] *)
Definition py_getitem {A : Type} (l : list A) (i : Z) : result A :=
  match norm_index (length l) i with
  | Some j => match nth_error l j with
              | Some x => Normal x
              | None => Raise IndexError
              end
  | None => Raise IndexError
  end.

(** [l[i] = v] *)
Definition py_setitem {A : Type} (l : list A) (i : Z) (v : A)
  : result (list A) :=
  match norm_index (length l) i with
  | Some j => Normal (list_set l j v)
  | None => Raise IndexError
  end.

(** [l[:stop]] *)
Definition slice_to {A : Type} (l : list A) (stop : Z) : list A :=
  if stop <? 0 then firstn (Z.to_nat (Z.of_nat (length l) + stop)) l
  else firstn (Z.to_nat stop) l.

(** [range(a, b)] *)
Definition py_range (a b : Z) : list Z :=
  map (fun k => a + Z.of_nat k) (seq 0 (Z.to_nat (b - a))).

(** ** The numeric interface *)

(** The operations the indicator code applies to prices.  [of_int] is the
    promotion of a Python [int] that meets a float in an arithmetic
    expression (the literals 0, 1, 2, 100 and the period); [fits] tells
    whether that promotion exists ([float(n)] raises OverflowError for an
    int beyond the range of a double). *)
Class Number (T : Type) : Type := {
  of_int : Z -> T;
  fits : Z -> bool;
  nadd : T -> T -> T;
  nsub : T -> T -> T;
  nmul : T -> T -> T;
  ndiv : T -> T -> T;
  nneg : T -> T;
  neqb : T -> T -> bool;
  nltb : T -> T -> bool;
  nleb : T -> T -> bool
}.

Infix "+^" := nadd (at level 50, left associativity).
Infix "-^" := nsub (at level 50, left associativity).
Infix "*^" := nmul (at level 40, left associativity).
Infix "/^" := ndiv (at level 40, left associativity).

Section Indicators.

Context {T : Type} {num : Number T}.

(** [a > b] *)
Definition ngtb (a b : T) : bool := nltb b a.

(** [x != 0] *)
Definition nonzero (x : T) : bool := negb (neqb x (of_int 0)).

(** [max(a, b)]: CPython keeps [a] unless [b > a]. *)
Definition py_max (a b : T) : T := if ngtb b a then b else a.

(** [sum(l)]: accumulation from the int 0, left to right.  (CPython 3.12
    and later carry a compensation term through a sum of floats; the two
    agree whenever the running sums are exact, as they are in every
    concrete run of this file.) *)
Definition py_sum (l : list T) : T := fold_left nadd l (of_int 0).

(** [x / y] with [y] a float: raises when [y == 0]. *)
Definition truediv (x y : T) : result T :=
  if nonzero y then Normal (x /^ y) else Raise ZeroDivisionError.

(** [x / n] with [n] an int: raises when [n == 0].  The promotion of [n]
    cannot fail where the code divides: a period beyond the range of a
    double exceeds every list length in magnitude, so by then the
    function has returned [[]], or the numerator is the int 0 of an empty
    slice (int by int, no promotion), or [mul_int] has raised. *)
Definition truediv_int (x : T) (n : Z) : result T :=
  if n =? 0 then Raise ZeroDivisionError else Normal (x /^ of_int n).

(** [x * n] with [x] a float and [n] an int. *)
Definition mul_int (x : T) (n : Z) : result T :=
  if fits n then Normal (x *^ of_int n) else Raise OverflowError.

(** The recurrence of line 14. *)
Definition ema_step (k p e : T) : T := p *^ k +^ e *^ (of_int 1 -^ k).

Definition calculate_ema (prices : list T) (period : Z) : result (list T) :=
  if Z.of_nat (length prices) <? period then Normal []
  else
    k <- truediv_int (of_int 2) (period + 1) ;;
    let ema := repeat (of_int 0) (length prices) in
    seed <- truediv_int (py_sum (slice_to prices period)) period ;;
    ema <- py_setitem ema (period - 1) seed ;;
    for_each (py_range period (Z.of_nat (length prices))) ema
      (fun i ema =>
         p <- py_getitem prices i ;;
         e <- py_getitem ema (i - 1) ;;
         py_setitem ema i (ema_step k p e)).

(** The arithmetic mean of a non-empty list. *)
Definition mean (l : list T) : T :=
  py_sum l /^ of_int (Z.of_nat (length l)).

(** [avg_gain / avg_loss if avg_loss != 0 else 0] *)
Definition rs_of (avg_gain avg_loss : T) : result T :=
  if nonzero avg_loss then truediv avg_gain avg_loss else Normal (of_int 0).

(** [100 - (100 / (1 + rs)) if rs != 0 else 100] *)
Definition rsi_val_of (rs : T) : result T :=
  if nonzero rs then
    q <- truediv (of_int 100) (of_int 1 +^ rs) ;;
    Normal (of_int 100 -^ q)
  else Normal (of_int 100).

(** Wilder's smoothing, [(avg * (period - 1) + xs[i]) / period]. *)
Definition wilder (avg : T) (xs : list T) (i period : Z) : result T :=
  m <- mul_int avg (period - 1) ;;
  x <- py_getitem xs i ;;
  truediv_int (m +^ x) period.

(** The variables the loop of [calculate_rsi] carries from one iteration
    to the next. *)
Record rsi_state : Type := {
  avg_gain : T;
  avg_loss : T;
  rsi : list T
}.

(** One iteration of the loop of lines 28-36. *)
Definition rsi_body (gains losses : list T) (period : Z)
           (i : Z) (st : rsi_state) : result rsi_state :=
  avgs <- (if i <? period then Normal (avg_gain st, avg_loss st)
           else
             ag <- wilder (avg_gain st) gains i period ;;
             al <- wilder (avg_loss st) losses i period ;;
             Normal (ag, al)) ;;
  rs <- rs_of (fst avgs) (snd avgs) ;;
  rsi_val <- rsi_val_of rs ;;
  Normal {| avg_gain := fst avgs; avg_loss := snd avgs;
            rsi := rsi st ++ [rsi_val] |}.

(** [[prices[i] - prices[i-1] for i in range(1, len(prices))]] *)
Definition price_changes (prices : list T) : result (list T) :=
  list_comp (fun i => a <- py_getitem prices i ;;
                      b <- py_getitem prices (i - 1) ;;
                      Normal (a -^ b))
            (py_range 1 (Z.of_nat (length prices))).

(** The state the loop of [calculate_rsi] starts from (lines 20-27). *)
Definition rsi_init (changes : list T) (period : Z)
  : result (list T * list T * rsi_state) :=
  let gains := map (fun c => py_max c (of_int 0)) changes in
  let losses := map (fun c => py_max (nneg c) (of_int 0)) changes in
  ag <- truediv_int (py_sum (slice_to gains period)) period ;;
  al <- truediv_int (py_sum (slice_to losses period)) period ;;
  Normal (gains, losses, {| avg_gain := ag; avg_loss := al; rsi := [] |}).

Definition calculate_rsi (prices : list T) (period : Z) : result (list T) :=
  if Z.of_nat (length prices) <=? period then Normal []
  else
    changes <- price_changes prices ;;
    init <- rsi_init changes period ;;
    let '(gains, losses, st0) := init in
    st <- for_each (py_range 0 (Z.of_nat (length changes))) st0
                   (rsi_body gains losses period) ;;
    Normal (rsi st).

(** The bar-to-bar changes, by position: what [price_changes] computes. *)
Definition changes_of (prices : list T) : list T :=
  map (fun i => nth i prices (of_int 0) -^ nth (i - 1) prices (of_int 0))
      (seq 1 (length prices - 1)).

(** The state of the loop of [calculate_rsi] once the iterations
    [0..i] have run: the averages current at output index [i], and the
    values appended so far. *)
Definition rsi_after (prices : list T) (period : Z) (i : nat)
  : result rsi_state :=
  changes <- price_changes prices ;;
  init <- rsi_init changes period ;;
  let '(gains, losses, st0) := init in
  for_each (py_range 0 (Z.of_nat i + 1)) st0 (rsi_body gains losses period).

End Indicators.

(** ** The two number systems *)

(** Conversion of an int to the nearest binary64 value. *)
Definition float_of_Z (z : Z) : float :=
  match z with
  | Z0 => 0%float
  | Zpos p => SF2Prim (binary_round prec emax false p 0)
  | Zneg p => SF2Prim (binary_round prec emax true p 0)
  end.

(** IEEE binary64, the arithmetic of Python's [float]. *)
#[export] Instance float_number : Number float := {
  of_int := float_of_Z;
  fits := fun n => PrimFloat.ltb (PrimFloat.abs (float_of_Z n)) infinity;
  nadd := PrimFloat.add;
  nsub := PrimFloat.sub;
  nmul := PrimFloat.mul;
  ndiv := PrimFloat.div;
  nneg := PrimFloat.opp;
  neqb := PrimFloat.eqb;
  nltb := PrimFloat.ltb;
  nleb := PrimFloat.leb
}.

Definition Reqb (x y : R) : bool := if Req_dec_T x y then true else false.
Definition Rltb (x y : R) : bool := if Rlt_dec x y then true else false.
Definition Rleb (x y : R) : bool := if Rle_dec x y then true else false.

(** Exact arithmetic on the real numbers. *)
#[export] Instance real_number : Number R := {
  of_int := IZR;
  fits := fun _ => true;
  nadd := Rplus;
  nsub := Rminus;
  nmul := Rmult;
  ndiv := Rdiv;
  nneg := Ropp;
  neqb := Reqb;
  nltb := Rltb;
  nleb := Rleb
}.

(** A strictly decreasing series: every price is below the one before. *)
Fixpoint strictly_decreasing (prices : list R) : Prop :=
  match prices with
  | a :: (b :: _) as rest => (b < a)%R /\ strictly_decreasing rest
  | _ => True
  end.

(** The range of an RSI value. *)
Definition unit_interval_100 (v : R) : Prop := (0 <= v <= 100)%R.

(** What holds of the loop state of [calculate_rsi] after [n] iterations,
    in exact arithmetic. *)
Definition rsi_inv (gains : list R) (n : nat) (st : rsi_state) : Prop :=
  (0 <= avg_gain st)%R /\ (0 <= avg_loss st)%R
  /\ length (rsi st) = n
  /\ Forall unit_interval_100 (rsi st)
  /\ (Forall (fun x => x = 0%R) gains ->
      avg_gain st = 0%R /\ Forall (fun v => v = 100%R) (rsi st)).

(** ** The scan: [handler] and its collaborators *)

(** A Python dict with string keys and values (the query parameters). *)
Definition dict : Type := list (string * string).

Fixpoint dict_get (d : dict) (key : string) : option string :=
  match d with
  | [] => None
  | (k, v) :: d' => if String.eqb k key then Some v else dict_get d' key
  end.

(** [event.get('queryStringParameters') or {}] *)
Definition query_of (event : option dict) : dict :=
  match event with
  | Some d => d
  | None => []
  end.

(** A call to one of the remote collaborators. *)
Inductive call : Type :=
| SymbolList (exchange : string)
| Klines (exchange symbol interval : string) (limit : Z).

Section Scan.

Context {T : Type} {num : Number T}.

(** The outside world (exchanges, clock) and the builtins the handler
    applies to request strings and to floats. *)
Variable World : Type.
Variable py_int : string -> result Z.
Variable round : T -> Z -> T.
Variable utcnow_isoformat : World -> string.
(** Lines 39-57: the symbol lists, an HTTP request each. *)
Variable get_binance_symbols : World -> result (list string) * World.
Variable get_bybit_symbols : World -> result (list string) * World.
(** Lines 61-66 and 70-77: the request for candles and the extraction of
    the closes, per exchange. *)
Variable binance_klines :
  string -> string -> Z -> World -> result (list T) * World.
Variable bybit_klines :
  string -> string -> Z -> World -> result (list T) * World.

Record state : Type := {
  world : World;
  calls : list call
}.

(** Computations that may raise and that act on the world. *)
Definition M (A : Type) : Type := state -> result A * state.

Definition ret {A : Type} (a : A) : M A := fun st => (Normal a, st).

Definition lift {A : Type} (r : result A) : M A := fun st => (r, st).

Definition bindM {A B : Type} (m : M A) (f : A -> M B) : M B :=
  fun st => match m st with
            | (Normal a, st') => f a st'
            | (Raise e, st') => (Raise e, st')
            end.

Notation "x <~ m ;; k" := (bindM m (fun x => k))
  (at level 61, m at next level, right associativity).

(** [try: body  except Exception as e: handler(e)] *)
Definition try_except {A : Type} (body : M A) (handler : exn -> M A) : M A :=
  fun st => match body st with
            | (Normal a, st') => (Normal a, st')
            | (Raise e, st') => handler e st'
            end.

(** A remote call: it is logged, and the world answers. *)
Definition remote {A : Type} (c : call)
           (f : World -> result A * World) : M A :=
  fun st => let (r, w) := f (world st) in
            (r, {| world := w; calls := calls st ++ [c] |}).

Definition bybit_interval_map : dict :=
  [("1m", "1"); ("5m", "5"); ("15m", "15"); ("30m", "30");
   ("1h", "60"); ("4h", "240"); ("1d", "D")]%string.

Definition fetch_klines (exchange symbol interval : string) (limit : Z)
  : M (list T) :=
  if String.eqb exchange "binance" then
    remote (Klines exchange symbol interval limit)
           (binance_klines symbol interval limit)
  else if String.eqb exchange "bybit" then
    let interval := match dict_get bybit_interval_map interval with
                    | Some v => v
                    | None => interval
                    end in
    remote (Klines exchange symbol interval limit)
           (bybit_klines symbol interval limit)
  else ret [].

(** The entries of the [signals] list. *)
Record Signal : Type := {
  s_symbol : string;
  s_price : T;
  s_emaShort : T;
  s_emaLong : T;
  s_rsi : option T;
  s_timeframe : string
}.

(** The test of line 116; [and] evaluates its right operand only when
    the left one holds. *)
Definition fresh_crossover (ema_s ema_l : list T) : result bool :=
  s1 <- py_getitem ema_s (-1) ;;
  l1 <- py_getitem ema_l (-1) ;;
  if ngtb s1 l1 then
    s2 <- py_getitem ema_s (-2) ;;
    l2 <- py_getitem ema_l (-2) ;;
    Normal (nleb s2 l2)
  else Normal false.

(** The dict of lines 117-124. *)
Definition make_signal (symbol timeframe : string)
           (closes ema_s ema_l rsi_vals : list T) : result Signal :=
  price <- py_getitem closes (-1) ;;
  s1 <- py_getitem ema_s (-1) ;;
  l1 <- py_getitem ema_l (-1) ;;
  r <- match rsi_vals with
       | [] => Normal None
       | _ :: _ => v <- py_getitem rsi_vals (-1) ;; Normal (Some (round v 2))
       end ;;
  Normal {| s_symbol := symbol; s_price := price;
            s_emaShort := round s1 4; s_emaLong := round l1 4;
            s_rsi := r; s_timeframe := timeframe |}.

(** Lines 105-124: what the body of the [try] does with the closes it
    fetched; nothing here touches the world.  [continue] hands the list
    of signals back unchanged. *)
Definition analyse_closes (timeframe : string)
           (ema_short ema_long rsi_period : Z)
           (symbol : string) (signals : list Signal) (closes : list T)
  : result (list Signal) :=
  if Z.of_nat (length closes) <? Z.max ema_long rsi_period + 10
  then Normal signals
  else
    ema_s <- calculate_ema closes ema_short ;;
    ema_l <- calculate_ema closes ema_long ;;
    rsi_vals <- calculate_rsi closes rsi_period ;;
    if (length ema_s <? 2)%nat || (length ema_l <? 2)%nat
    then Normal signals
    else
      cross <- fresh_crossover ema_s ema_l ;;
      if cross then
        signal <- make_signal symbol timeframe closes ema_s ema_l rsi_vals ;;
        Normal (signals ++ [signal])
      else Normal signals.

(** Lines 104-124, the body of the [try]. *)
Definition symbol_body (exchange timeframe : string)
           (ema_short ema_long rsi_period : Z)
           (symbol : string) (signals : list Signal) : M (list Signal) :=
  closes <~ fetch_klines exchange symbol timeframe 100 ;;
  lift (analyse_closes timeframe ema_short ema_long rsi_period
                       symbol signals closes).

(** Lines 103-126: one iteration of the loop over the symbols. *)
Definition process_symbol (exchange timeframe : string)
           (ema_short ema_long rsi_period : Z)
           (symbol : string) (signals : list Signal) : M (list Signal) :=
  try_except
    (symbol_body exchange timeframe ema_short ema_long rsi_period
                 symbol signals)
    (fun _ => ret signals).

(** Lines 102-126. *)
Fixpoint scan_loop (exchange timeframe : string)
         (ema_short ema_long rsi_period : Z)
         (symbols : list string) (signals : list Signal)
  : M (list Signal) :=
  match symbols with
  | [] => ret signals
  | symbol :: rest =>
      signals' <~ process_symbol exchange timeframe
                                 ema_short ema_long rsi_period
                                 symbol signals ;;
      scan_loop exchange timeframe ema_short ema_long rsi_period
                rest signals'
  end.

(** The JSON bodies, before serialisation. *)
Inductive body_t : Type :=
| ValidationBody (error : string)
| ScanBody (signals : list Signal) (count : Z) (timestamp : string)
| FailureBody (error : exn).

Record response : Type := {
  statusCode : Z;
  headers : list (string * string);
  body : body_t
}.

(** [int(query.get(key, default))] *)
Definition int_param (query : dict) (key : string) (default : Z)
  : result Z :=
  match dict_get query key with
  | Some v => py_int v
  | None => Normal default
  end.

Definition str_param (query : dict) (key default : string) : string :=
  match dict_get query key with
  | Some v => v
  | None => default
  end.

(** Lines 83-139, the body of the outer [try].  The event is given by its
    [queryStringParameters], absent or a dict. *)
Definition handler_body (event : option dict) : M response :=
  let query := query_of event in
  let exchange := str_param query "exchange" "binance" in
  let timeframe := str_param query "timeframe" "1m" in
  ema_short <~ lift (int_param query "emaShort" 9) ;;
  ema_long <~ lift (int_param query "emaLong" 26) ;;
  rsi_period <~ lift (int_param query "rsiPeriod" 14) ;;
  if ema_long <=? ema_short then
    ret {| statusCode := 400;
           headers := [("Content-Type", "application/json")]%string;
           body := ValidationBody "EMA Short must be < EMA Long" |}
  else
    symbols <~ (if String.eqb exchange "binance"
                then remote (SymbolList "binance") get_binance_symbols
                else remote (SymbolList "bybit") get_bybit_symbols) ;;
    signals <~ scan_loop exchange timeframe ema_short ema_long rsi_period
                         (firstn 50 symbols) [] ;;
    fun st =>
      (Normal {| statusCode := 200;
                 headers := [("Content-Type", "application/json");
                             ("Access-Control-Allow-Origin", "*")]%string;
                 body := ScanBody signals (Z.of_nat (length signals))
                                  (utcnow_isoformat (world st) ++ "Z") |},
       st).

(** Lines 81-146. *)
Definition handler (event : option dict) (st : state) : response * state :=
  match handler_body event st with
  | (Normal r, st') => (r, st')
  | (Raise e, st') =>
      ({| statusCode := 500;
          headers := [("Content-Type", "application/json")]%string;
          body := FailureBody e |}, st')
  end.

End Scan.

Arguments world {World} s.
Arguments calls {World} s.
Arguments ret {World A} a st.
Arguments lift {World A} r st.
Arguments bindM {World A B} m f st.
Arguments try_except {World A} body handler st.
Arguments remote {World A} c f st.

(** ** A synthetic exchange

    Collaborators for running the scan inside Rocq: ["BADUSDT"] cannot be
    fetched, every other symbol has twelve closes that fall and then jump
    on the last bar. *)

Definition synthetic_closes : list float :=
  [10; 9; 8; 7; 6; 5; 4; 3; 2; 1; 1; 5]%float.

Definition synthetic_symbols (w : unit) : result (list string) * unit :=
  (Normal ["BADUSDT"; "ABCUSDT"]%string, w).

Definition synthetic_klines (symbol interval : string) (limit : Z) (w : unit)
  : result (list float) * unit :=
  if String.eqb symbol "BADUSDT"
  then (Raise (ExternalError "connection timed out"), w)
  else (Normal synthetic_closes, w).

(** [int] on the few strings the runs below use. *)
Definition synthetic_int (s : string) : result Z :=
  if String.eqb s "0" then Normal 0
  else if String.eqb s "1" then Normal 1
  else if String.eqb s "2" then Normal 2
  else if String.eqb s "10" then Normal 10
  else if String.eqb s "30" then Normal 30
  else Raise (ExternalError "invalid literal for int()").

(** Rounding is presentation only; the runs below keep every digit. *)
Definition keep_digits (x : float) (ndigits : Z) : float := x.

Definition synthetic_clock (w : unit) : string :=
  "2024-01-01T00:00:00"%string.

Definition synthetic_handler (event : option dict) (st : state unit)
  : response * state unit :=
  handler unit synthetic_int keep_digits synthetic_clock
          synthetic_symbols synthetic_symbols
          synthetic_klines synthetic_klines event st.

Definition fresh_state : state unit := {| world := tt; calls := [] |}.

(** ** Vocabulary for the further properties *)

(** [xs] is [ys] with some entries left out, the order kept. *)
Inductive subsequence {A : Type} : list A -> list A -> Prop :=
| subsequence_nil : subsequence [] []
| subsequence_skip x xs ys : subsequence xs ys -> subsequence xs (x :: ys)
| subsequence_take x xs ys :
    subsequence xs ys -> subsequence (x :: xs) (x :: ys).

(** A series that never falls, and one that never rises. *)
Fixpoint nondecreasing (prices : list R) : Prop :=
  match prices with
  | a :: (b :: _) as rest => (a <= b)%R /\ nondecreasing rest
  | _ => True
  end.

Fixpoint nonincreasing (prices : list R) : Prop :=
  match prices with
  | a :: (b :: _) as rest => (b <= a)%R /\ nonincreasing rest
  | _ => True
  end.

(** [int] on plain decimal literals, with an optional minus sign; the
    runs of the further properties take their periods from it. *)
Definition digit_of (c : Ascii.ascii) : option Z :=
  let n := Z.of_nat (Ascii.nat_of_ascii c) in
  if (48 <=? n) && (n <=? 57) then Some (n - 48) else None.

Fixpoint digits_value (s : string) (acc : Z) : option Z :=
  match s with
  | EmptyString => Some acc
  | String c s' =>
      match digit_of c with
      | Some d => digits_value s' (10 * acc + d)
      | None => None
      end
  end.

Definition decimal_int (s : string) : result Z :=
  let invalid := Raise (ExternalError "invalid literal for int()") in
  match s with
  | EmptyString => invalid
  | String c s' =>
      if Ascii.eqb c (Ascii.ascii_of_nat 45) then
        match s', digits_value s' 0 with
        | String _ _, Some n => Normal (- n)
        | _, _ => invalid
        end
      else
        match digits_value s 0 with
        | Some n => Normal n
        | None => invalid
        end
  end.

Definition decimal_handler (event : option dict) (st : state unit)
  : response * state unit :=
  handler unit decimal_int keep_digits synthetic_clock
          synthetic_symbols synthetic_symbols
          synthetic_klines synthetic_klines event st.

(** ** Decoded JSON and the HTTP client *)

(** The exceptions of the builtin operations on decoded values. *)
Definition KeyError : exn := ExternalError "KeyError".
Definition TypeError : exn := ExternalError "TypeError".
Definition AttributeError : exn := ExternalError "AttributeError".

(** What [resp.json()] hands back: None, a bool, an int, a float, a str,
    a list, or a dict with str keys (its entries in insertion order, the
    keys distinct).  Strings are sequences of one-byte characters. *)
#[local] Unset Elimination Schemes.

Inductive json {T : Type} : Type :=
| JNone
| JBool (b : bool)
| JInt (n : Z)
| JFloat (x : T)
| JStr (s : string)
| JList (items : list json)
| JDict (entries : list (string * json)).

#[local] Set Elimination Schemes.

Arguments json T : clear implicits.

(** A list comprehension with a condition,
    [[f(x) for x in xs if cond(x)]]. *)
Fixpoint list_comp_if {A B : Type} (cond : A -> result bool)
         (f : A -> result B) (xs : list A) : result (list B) :=
  match xs with
  | [] => Normal []
  | x :: xs' =>
      c <- cond x ;;
      if c then
        y <- f x ;; ys <- list_comp_if cond f xs' ;; Normal (y :: ys)
      else list_comp_if cond f xs'
  end.

(** [s.endswith(suffix)] *)
Definition ends_with (s suffix : string) : bool :=
  let n := String.length s in
  let m := String.length suffix in
  (m <=? n)%nat && String.eqb (substring (n - m) m s) suffix.

(** [str(n)] for an int. *)
Definition str_of_int (n : Z) : string :=
  NilZero.string_of_int (Z.to_int n).

Section Json.

Context {T : Type} {num : Number T}.

Fixpoint dict_lookup (d : list (string * json T)) (key : string)
  : option (json T) :=
  match d with
  | [] => None
  | (k, v) :: d' => if String.eqb k key then Some v else dict_lookup d' key
  end.

(** [v[key]] with a str key: only a dict takes one. *)
Definition subscript_str (v : json T) (key : string) : result (json T) :=
  match v with
  | JDict d =>
      match dict_lookup d key with
      | Some x => Normal x
      | None => Raise KeyError
      end
  | _ => Raise TypeError
  end.

(** The characters of a str, each a str of length 1. *)
Definition chars_of (s : string) : list (json T) :=
  map (fun c => JStr (String c EmptyString)) (list_ascii_of_string s).

(** [v[i]] with an int index: a list or a str is indexed, a dict has no
    int key, nothing else can be subscripted. *)
Definition subscript_int (v : json T) (i : Z) : result (json T) :=
  match v with
  | JList l => py_getitem l i
  | JStr s => py_getitem (chars_of s) i
  | JDict _ => Raise KeyError
  | _ => Raise TypeError
  end.

(** The items [for item in v] runs through: those of a list, the keys of
    a dict, the characters of a str. *)
Definition py_iter (v : json T) : result (list (json T)) :=
  match v with
  | JList l => Normal l
  | JDict d => Normal (map (fun kv => JStr (fst kv)) d)
  | JStr s => Normal (chars_of s)
  | _ => Raise TypeError
  end.

(** [v != 0] *)
Definition ne_zero (v : json T) : bool :=
  match v with
  | JInt n => negb (n =? 0)
  | JFloat x => nonzero x
  | JBool b => b
  | _ => true
  end.

(** [v == s] for a str [s] *)
Definition eq_str (v : json T) (s : string) : bool :=
  match v with
  | JStr t => String.eqb t s
  | _ => false
  end.

End Json.

Section Http.

Context {T : Type} {num : Number T}.

(** The HTTP client and the parsing of a float literal. *)
Variable World : Type.
Variable Response : Type.
Variable requests_get : string -> Z -> World -> result Response * World.
Variable raise_for_status : Response -> result unit.
Variable response_json : Response -> result (json T).
Variable float_of_str : string -> result T.

(** [float(v)] *)
Definition py_float (v : json T) : result T :=
  match v with
  | JFloat x => Normal x
  | JInt n => if fits n then Normal (of_int n) else Raise OverflowError
  | JBool b => Normal (of_int (if b then 1 else 0))
  | JStr s => float_of_str s
  | _ => Raise TypeError
  end.

(** The three lines each of the four requests starts with (41-43, 48-50,
    62-64, 71-73): the request, the check of the status, the decoding. *)
Definition http_json (url : string) (timeout : Z) (w : World)
  : result (json T) * World :=
  match requests_get url timeout w with
  | (Normal resp, w') =>
      (_ <- raise_for_status resp ;; response_json resp, w')
  | (Raise e, w') => (Raise e, w')
  end.

(** The comprehension of line 44.  The condition looks up
    [item['symbol']] and asks it [endswith('USDT')], which only a str
    answers; the element expression looks the same key up again and
    finds the same str. *)
Fixpoint usdt_symbols (items : list (json T)) : result (list string) :=
  match items with
  | [] => Normal []
  | item :: rest =>
      v <- subscript_str item "symbol" ;;
      match v with
      | JStr s =>
          if ends_with s "USDT"
          then symbols <- usdt_symbols rest ;; Normal (s :: symbols)
          else usdt_symbols rest
      | _ => Raise AttributeError
      end
  end.

(** Lines 39-44. *)
Definition get_binance_symbols (w : World) : result (list string) * World :=
  let url := "https://fapi.binance.com/fapi/v1/ticker/price"%string in
  let (r, w') := http_json url 5 w in
  (data <- r ;;
   items <- py_iter data ;;
   usdt_symbols items, w').

(** [item['status'] == 'Trading' and item['quoteCoin'] == 'USDT'] *)
Definition is_trading_usdt (item : json T) : result bool :=
  status <- subscript_str item "status" ;;
  if eq_str status "Trading" then
    quote <- subscript_str item "quoteCoin" ;;
    Normal (eq_str quote "USDT")
  else Normal false.

(** Lines 46-57.  The symbols come back as they were decoded. *)
Definition get_bybit_symbols (w : World)
  : result (list (json T)) * World :=
  let url := "https://api.bybit.com/derivatives/v3/public/instruments-info?category=linear"%string in
  let (r, w') := http_json url 5 w in
  (data <- r ;;
   code <- subscript_str data "retCode" ;;
   if ne_zero code then Raise (ExternalError "Bybit API error")
   else
     result <- subscript_str data "result" ;;
     rows <- subscript_str result "list" ;;
     items <- py_iter rows ;;
     list_comp_if is_trading_usdt
                  (fun item => subscript_str item "symbol") items, w').

(** [[float(k[4]) for k in klines]] *)
Definition closes_of (klines : list (json T)) : result (list T) :=
  list_comp (fun k => v <- subscript_int k 4 ;; py_float v) klines.

(** Lines 61-66 of [fetch_klines]. *)
Definition binance_klines (symbol interval : string) (limit : Z) (w : World)
  : result (list T) * World :=
  let url := ("https://fapi.binance.com/fapi/v1/klines?symbol=" ++ symbol
              ++ "&interval=" ++ interval
              ++ "&limit=" ++ str_of_int limit)%string in
  let (r, w') := http_json url 6 w in
  (klines <- r ;;
   items <- py_iter klines ;;
   closes_of items, w').

(** Lines 70-77 of [fetch_klines]; the interval is the one line 69
    looked up. *)
Definition bybit_klines (symbol interval : string) (limit : Z) (w : World)
  : result (list T) * World :=
  let url := ("https://api.bybit.com/derivatives/v3/public/kline?category=linear&symbol="
              ++ symbol ++ "&interval=" ++ interval
              ++ "&limit=" ++ str_of_int limit)%string in
  let (r, w') := http_json url 6 w in
  (data <- r ;;
   code <- subscript_str data "retCode" ;;
   if ne_zero code then Normal []
   else
     result <- subscript_str data "result" ;;
     rows <- subscript_str result "list" ;;
     items <- py_iter rows ;;
     closes_of items, w').

End Http.

(** ** A synthetic HTTP exchange

    Responses are given decoded.  The ticker lists three symbols, one of
    them not quoted in USDT; the candles of ["ABCUSDT"] are those of the
    synthetic exchange above, the only row of ["BADUSDT"] is cut short;
    Bybit answers every request with an error code. *)

Definition synthetic_row (close : string) : json float :=
  JList [JInt 1700000000000; JStr "0"; JStr "0"; JStr "0"; JStr close;
         JStr "0"].

Definition synthetic_rows : json float :=
  JList (map synthetic_row
             ["10"; "9"; "8"; "7"; "6"; "5"; "4"; "3"; "2"; "1"; "1"; "5"]%string).

Definition synthetic_ticker : json float :=
  JList [JDict [("symbol", JStr "BADUSDT"); ("price", JStr "1")]%string;
         JDict [("symbol", JStr "ETHBTC"); ("price", JStr "2")]%string;
         JDict [("symbol", JStr "ABCUSDT"); ("price", JStr "5")]%string].

Definition synthetic_bybit_error : json float :=
  JDict [("retCode", JInt 10001); ("retMsg", JStr "params error")]%string.

Definition synthetic_get (url : string) (timeout : Z) (w : unit)
  : result (json float) * unit :=
  if String.eqb url "https://fapi.binance.com/fapi/v1/ticker/price"
  then (Normal synthetic_ticker, w)
  else if String.eqb url
    "https://fapi.binance.com/fapi/v1/klines?symbol=ABCUSDT&interval=1m&limit=100"
  then (Normal synthetic_rows, w)
  else if String.eqb url
    "https://fapi.binance.com/fapi/v1/klines?symbol=BADUSDT&interval=1m&limit=100"
  then (Normal (JList [JList [JInt 1700000000000; JStr "1"]]), w)
  else if String.prefix "https://api.bybit.com/" url
  then (Normal synthetic_bybit_error, w)
  else (Raise (ExternalError "404 Client Error"), w).

Definition synthetic_status (resp : json float) : result unit := Normal tt.

Definition synthetic_decode (resp : json float) : result (json float) :=
  Normal resp.

(** [float] on the decimal literals of whole numbers. *)
Definition synthetic_float (s : string) : result float :=
  n <- decimal_int s ;; Normal (float_of_Z n).

Definition http_handler (event : option dict) (st : state unit)
  : response * state unit :=
  handler unit decimal_int keep_digits synthetic_clock
          (get_binance_symbols unit (json float) synthetic_get
                               synthetic_status synthetic_decode)
          synthetic_symbols
          (binance_klines unit (json float) synthetic_get
                          synthetic_status synthetic_decode synthetic_float)
          (bybit_klines unit (json float) synthetic_get
                        synthetic_status synthetic_decode synthetic_float)
          event st.

(** The same exchange once it answers the ticker with an error object
    under status 200. *)
Definition synthetic_ban : json float :=
  JDict [("code", JInt (-1003)); ("msg", JStr "Too many requests")]%string.

Definition banned_get (url : string) (timeout : Z) (w : unit)
  : result (json float) * unit :=
  if String.eqb url "https://fapi.binance.com/fapi/v1/ticker/price"
  then (Normal synthetic_ban, w)
  else synthetic_get url timeout w.

Definition banned_handler (event : option dict) (st : state unit)
  : response * state unit :=
  handler unit decimal_int keep_digits synthetic_clock
          (get_binance_symbols unit (json float) banned_get
                               synthetic_status synthetic_decode)
          synthetic_symbols
          (binance_klines unit (json float) banned_get
                          synthetic_status synthetic_decode synthetic_float)
          (bybit_klines unit (json float) banned_get
                        synthetic_status synthetic_decode synthetic_float)
          event st.

(** Bybit once it answers the instrument list: one contract that trades
    against USDT, one that is being settled and has lost its other
    fields, one that trades against USDC. *)
Definition synthetic_instruments : json float :=
  JDict [("retCode", JInt 0);
         ("result",
          JDict [("list",
                  JList [JDict [("symbol", JStr "BTCUSDT");
                                ("status", JStr "Trading");
                                ("quoteCoin", JStr "USDT")]%string;
                         JDict [("status", JStr "Settling")]%string;
                         JDict [("symbol", JStr "BTCPERP");
                                ("status", JStr "Trading");
                                ("quoteCoin", JStr "USDC")]%string])]%string)]%string.

Definition listing_get (url : string) (timeout : Z) (w : unit)
  : result (json float) * unit :=
  if String.eqb url
    "https://api.bybit.com/derivatives/v3/public/instruments-info?category=linear"
  then (Normal synthetic_instruments, w)
  else synthetic_get url timeout w.

(** ** Lists: positions, updates, ranges *)

Section ListFacts.

Context {A : Type}.

Lemma list_set_length (l : list A) j v : length (list_set l j v) = length l.
Proof.
  revert j; induction l as [|x l IH]; intros [|j]; simpl; auto.
Qed.

Lemma nth_error_list_set_same (l : list A) j v :
  (j < length l)%nat -> nth_error (list_set l j v) j = Some v.
Proof.
  revert j; induction l as [|x l IH]; intros [|j] Hj; simpl in *;
    try lia; auto.
  apply IH; lia.
Qed.

Lemma nth_error_list_set_other (l : list A) j i v :
  i <> j -> nth_error (list_set l j v) i = nth_error l i.
Proof.
  revert j i; induction l as [|x l IH]; intros [|j] [|i] Hij; simpl;
    try congruence; auto.
Qed.

Lemma norm_index_nonneg n (j : nat) :
  (j < n)%nat -> norm_index n (Z.of_nat j) = Some j.
Proof.
  intros Hj. unfold norm_index.
  destruct (Z.leb_spec 0 (Z.of_nat j)); [|lia].
  destruct (Z.ltb_spec (Z.of_nat j) (Z.of_nat n)); [|lia].
  simpl. now rewrite Nat2Z.id.
Qed.

Lemma norm_index_from_end n (d : nat) :
  (1 <= d <= n)%nat -> norm_index n (- Z.of_nat d) = Some (n - d)%nat.
Proof.
  intros Hd. unfold norm_index.
  destruct (Z.leb_spec 0 (- Z.of_nat d)); [lia|].
  destruct (Z.ltb_spec (- Z.of_nat d) 0); [|lia].
  destruct (Z.leb_spec (- Z.of_nat n) (- Z.of_nat d)); [|lia].
  simpl. f_equal. lia.
Qed.

Lemma py_getitem_nat (l : list A) (j : nat) x :
  nth_error l j = Some x -> py_getitem l (Z.of_nat j) = Normal x.
Proof.
  intros Hx. unfold py_getitem.
  rewrite norm_index_nonneg by (apply nth_error_Some; congruence).
  now rewrite Hx.
Qed.

Lemma py_setitem_nat (l : list A) (j : nat) v :
  (j < length l)%nat -> py_setitem l (Z.of_nat j) v = Normal (list_set l j v).
Proof.
  intros H. unfold py_setitem. now rewrite norm_index_nonneg.
Qed.

Lemma nth_error_repeat (x : A) n i :
  (i < n)%nat -> nth_error (repeat x n) i = Some x.
Proof.
  revert i; induction n as [|n IH]; intros [|i] Hi; simpl; try lia; auto.
  apply IH; lia.
Qed.

End ListFacts.

Lemma range_shift n a :
  map (fun k => Z.of_nat a + Z.of_nat k) (seq 0 n) = map Z.of_nat (seq a n).
Proof.
  revert a; induction n as [|n IH]; intros a; [reflexivity|].
  simpl. rewrite Z.add_0_r. f_equal.
  rewrite <- seq_shift, map_map, <- IH.
  apply map_ext. intros k. lia.
Qed.

Lemma py_range_nat (a b : nat) :
  py_range (Z.of_nat a) (Z.of_nat b) = map Z.of_nat (seq a (b - a)).
Proof.
  unfold py_range. rewrite range_shift. do 2 f_equal. lia.
Qed.

Lemma py_range_length a b : length (py_range a b) = Z.to_nat (b - a).
Proof. unfold py_range. now rewrite length_map, length_seq. Qed.

(** ** C1: the shape of the EMA series *)

Section EmaShape.

Context {T : Type} {num : Number T}.

(** The loop of lines 13-14, started at position [a] on a series [ema] as
    long as the prices, runs to the end without raising, leaves the
    positions before [a] alone and fills every position from [a] on by
    the recurrence. *)
Lemma ema_loop_spec (prices : list T) (k : T) n : forall a ema,
  (1 <= a)%nat -> (a + n = length prices)%nat ->
  length ema = length prices ->
  exists ema',
    for_each (map Z.of_nat (seq a n)) ema
      (fun i ema => p <- py_getitem prices i ;;
                    e <- py_getitem ema (i - 1) ;;
                    py_setitem ema i (ema_step k p e)) = Normal ema'
    /\ length ema' = length prices
    /\ (forall i, (i < a)%nat -> nth_error ema' i = nth_error ema i)
    /\ (forall i, (a <= i < length prices)%nat ->
          exists p e, nth_error prices i = Some p
                   /\ nth_error ema' (i - 1) = Some e
                   /\ nth_error ema' i = Some (ema_step k p e)).
Proof.
  induction n as [|n IH]; intros a ema Ha Hn Hlen.
  - exists ema. simpl. repeat split; auto. intros i Hi. lia.
  - simpl.
    destruct (nth_error prices a) as [p|] eqn:Hp;
      [|apply nth_error_None in Hp; lia].
    destruct (nth_error ema (a - 1)) as [e|] eqn:He;
      [|apply nth_error_None in He; lia].
    rewrite (py_getitem_nat _ _ _ Hp). simpl.
    replace (Z.of_nat a - 1) with (Z.of_nat (a - 1)) by lia.
    rewrite (py_getitem_nat _ _ _ He). simpl.
    rewrite py_setitem_nat by lia. simpl.
    destruct (IH (S a) (list_set ema a (ema_step k p e)))
      as (ema' & Hrun & Hlen' & Hpre & Hrec);
      [lia | lia | now rewrite list_set_length |].
    exists ema'. split; [exact Hrun|]. split; [exact Hlen'|]. split.
    + intros i Hi. rewrite Hpre by lia.
      apply nth_error_list_set_other. lia.
    + intros i Hi. destruct (Nat.eq_dec i a) as [->|Hne].
      * exists p, e. split; [exact Hp|]. split.
        -- rewrite Hpre by lia.
           rewrite nth_error_list_set_other by lia. exact He.
        -- rewrite Hpre by lia.
           apply nth_error_list_set_same. lia.
      * apply Hrec. lia.
Qed.

End EmaShape.

(** Too few prices for the period: the empty series. *)
Lemma ema_short_series {T : Type} {num : Number T}
      (prices : list T) (P : Z) :
  Z.of_nat (length prices) < P -> calculate_ema prices P = Normal [].
Proof.
  intros Hlt. unfold calculate_ema.
  destruct (Z.ltb_spec (Z.of_nat (length prices)) P); [|lia].
  reflexivity.
Qed.

(** The shape of the series [calculate_ema] returns for a period of at
    least 1 and enough prices, in any number system. *)
Lemma ema_shape {T : Type} {num : Number T}
      (prices : list T) (P : Z) :
  1 <= P -> P <= Z.of_nat (length prices) ->
  let k := of_int 2 /^ of_int (P + 1) in
  exists ema,
    calculate_ema prices P = Normal ema
    /\ length ema = length prices
    /\ nth_error ema (Z.to_nat (P - 1))
       = Some (mean (firstn (Z.to_nat P) prices))
    /\ (forall i, (i < Z.to_nat (P - 1))%nat ->
          nth_error ema i = Some (of_int 0))
    /\ (forall i, (Z.to_nat P <= i < length prices)%nat ->
          exists p e,
            nth_error prices i = Some p
            /\ nth_error ema (i - 1) = Some e
            /\ nth_error ema i = Some (p *^ k +^ e *^ (of_int 1 -^ k))).
Proof.
  intros HP Hle k.
  assert (HPp : P = Z.of_nat (Z.to_nat P)) by lia.
  revert k Hle HP. rewrite HPp. generalize (Z.to_nat P). clear HPp P.
  intros p k Hle HP. rewrite Nat2Z.id.
  replace (Z.to_nat (Z.of_nat p - 1)) with (p - 1)%nat by lia.
  unfold calculate_ema. fold k.
  destruct (Z.ltb_spec (Z.of_nat (length prices)) (Z.of_nat p)); [lia|].
  unfold truediv_int.
  destruct (Z.eqb_spec (Z.of_nat p + 1) 0); [lia|].
  destruct (Z.eqb_spec (Z.of_nat p) 0); [lia|]. simpl.
  set (seed := py_sum (slice_to prices (Z.of_nat p)) /^ of_int (Z.of_nat p)).
  replace (Z.of_nat p - 1) with (Z.of_nat (p - 1)) by lia.
  rewrite py_setitem_nat by (rewrite repeat_length; lia). simpl.
  rewrite py_range_nat.
  destruct (ema_loop_spec prices k (length prices - p) p
              (list_set (repeat (of_int 0) (length prices)) (p - 1) seed))
    as (ema & Hrun & Hlen & Hpre & Hrec);
    [lia | lia | now rewrite list_set_length, repeat_length |].
  exists ema. split; [exact Hrun|]. split; [exact Hlen|].
  split; [|split].
  - rewrite Hpre by lia.
    rewrite nth_error_list_set_same by (rewrite repeat_length; lia).
    f_equal. unfold seed, mean, slice_to.
    destruct (Z.ltb_spec (Z.of_nat p) 0); [lia|].
    rewrite Nat2Z.id, length_firstn. do 2 f_equal. lia.
  - intros i Hi. rewrite Hpre by lia.
    rewrite nth_error_list_set_other by lia.
    apply nth_error_repeat. lia.
  - intros i Hi. apply Hrec. exact Hi.
Qed.

(** ** Exact arithmetic: the EMA of a constant series *)

Lemma real_sum_repeat (V : R) n (a : R) :
  fold_left Rplus (repeat V n) a = (a + INR n * V)%R.
Proof.
  revert a; induction n as [|n IH]; intros a.
  - simpl. lra.
  - change (repeat V (S n)) with (V :: repeat V n).
    cbn [fold_left]. rewrite IH, S_INR. lra.
Qed.

Lemma real_mean_repeat (V : R) n :
  (0 < n)%nat -> mean (repeat V n) = V.
Proof.
  intros Hn. unfold mean, py_sum. cbn [of_int nadd ndiv real_number].
  rewrite real_sum_repeat, repeat_length, <- INR_IZR_INZ.
  assert (0 < INR n)%R by (apply lt_0_INR; lia).
  field. lra.
Qed.

Lemma real_ema_step_fixed (k V : R) : ema_step k V V = V.
Proof. unfold ema_step. cbn [of_int nadd nsub nmul real_number]. ring. Qed.

Lemma firstn_repeat {A : Type} (x : A) n m :
  (n <= m)%nat -> firstn n (repeat x m) = repeat x n.
Proof.
  revert m; induction n as [|n IH]; intros [|m] Hm; simpl; try lia; auto.
  f_equal. apply IH. lia.
Qed.

(** ** Loops and comprehensions over a range *)

Lemma for_each_app {A S : Type} (xs ys : list A) (s : S) body :
  for_each (xs ++ ys) s body
  = (s' <- for_each xs s body ;; for_each ys s' body).
Proof.
  revert s; induction xs as [|x xs IH]; intros s; simpl; [reflexivity|].
  destruct (body x s) as [s1|e]; simpl; auto.
Qed.

(** The invariant rule for a loop over [range(a, a+n)]. *)
Lemma for_each_range_inv {S : Type} (I : nat -> S -> Prop)
      (body : Z -> S -> result S) n : forall a s,
  (forall i s, (a <= i < a + n)%nat -> I i s ->
               exists s', body (Z.of_nat i) s = Normal s' /\ I (Datatypes.S i) s') ->
  I a s ->
  exists s', for_each (map Z.of_nat (seq a n)) s body = Normal s'
             /\ I (a + n)%nat s'.
Proof.
  induction n as [|n IH]; intros a s Hstep Ha.
  - exists s. simpl. rewrite Nat.add_0_r. auto.
  - simpl. destruct (Hstep a s) as (s1 & Hb & H1); [lia | exact Ha |].
    rewrite Hb. simpl.
    destruct (IH (Datatypes.S a) s1) as (s' & Hrun & H'); [|exact H1|].
    + intros i s0 Hi. apply Hstep. lia.
    + exists s'. split; [exact Hrun|].
      now replace (a + Datatypes.S n)%nat with (Datatypes.S a + n)%nat by lia.
Qed.

(** A loop that returns has run every iteration. *)
Lemma for_each_measure {A S : Type} (m : S -> nat)
      (body : A -> S -> result S) xs : forall s s',
  (forall x s s', body x s = Normal s' -> m s' = Datatypes.S (m s)) ->
  for_each xs s body = Normal s' ->
  m s' = (m s + length xs)%nat.
Proof.
  induction xs as [|x xs IH]; intros s s' Hstep Hrun; simpl in *.
  - injection Hrun as <-. lia.
  - destruct (body x s) as [s1|e] eqn:Hb; simpl in Hrun; [|discriminate].
    rewrite (IH s1 s' Hstep Hrun), (Hstep _ _ _ Hb). lia.
Qed.

Lemma list_comp_range {B : Type} (f : Z -> result B) (g : nat -> B) n :
  forall a,
  (forall i, (a <= i < a + n)%nat -> f (Z.of_nat i) = Normal (g i)) ->
  list_comp f (map Z.of_nat (seq a n)) = Normal (map g (seq a n)).
Proof.
  induction n as [|n IH]; intros a Hf; simpl; [reflexivity|].
  rewrite Hf by lia. simpl. rewrite IH; [reflexivity|].
  intros i Hi. apply Hf. lia.
Qed.

(** ** The shape of the RSI series, in any number system *)

Section RsiShape.

Context {T : Type} {num : Number T}.

Lemma price_changes_ok (prices : list T) :
  price_changes prices = Normal (changes_of prices).
Proof.
  unfold price_changes, changes_of.
  change 1 with (Z.of_nat 1). rewrite py_range_nat.
  apply list_comp_range. intros i Hi.
  rewrite (py_getitem_nat prices i (nth i prices (of_int 0)))
    by (apply nth_error_nth'; lia).
  simpl. replace (Z.of_nat i - 1) with (Z.of_nat (i - 1)) by lia.
  rewrite (py_getitem_nat prices (i - 1) (nth (i - 1) prices (of_int 0)))
    by (apply nth_error_nth'; lia).
  reflexivity.
Qed.

Lemma changes_of_length (prices : list T) :
  length (changes_of prices) = (length prices - 1)%nat.
Proof. unfold changes_of. now rewrite length_map, length_seq. Qed.

Lemma rsi_body_appends gains losses period i (st st' : rsi_state) :
  rsi_body gains losses period i st = Normal st' ->
  exists v, rsi st' = rsi st ++ [v].
Proof.
  unfold rsi_body. intros Hrun.
  destruct (if i <? period then _ else _) as [avgs|e];
    simpl in Hrun; [|discriminate].
  destruct (rs_of (fst avgs) (snd avgs)) as [rs|e];
    simpl in Hrun; [|discriminate].
  destruct (rsi_val_of rs) as [v|e]; simpl in Hrun; [|discriminate].
  injection Hrun as <-. simpl. now exists v.
Qed.

(** A returned RSI series has one value per change. *)
Lemma calculate_rsi_length (prices : list T) (period : Z) r :
  calculate_rsi prices period = Normal r ->
  period < Z.of_nat (length prices) ->
  length r = (length prices - 1)%nat.
Proof.
  unfold calculate_rsi. intros Hrun Hlen.
  destruct (Z.leb_spec (Z.of_nat (length prices)) period); [lia|].
  rewrite price_changes_ok in Hrun. simpl in Hrun.
  destruct (rsi_init (changes_of prices) period) as [[[gains losses] st0]|e]
    eqn:Hinit; simpl in Hrun; [|discriminate].
  destruct (for_each _ st0 _) as [st|e] eqn:Hloop;
    simpl in Hrun; [|discriminate].
  injection Hrun as <-.
  apply (for_each_measure (fun s => length (rsi s))) in Hloop.
  - rewrite Hloop, py_range_length, changes_of_length.
    unfold rsi_init in Hinit.
    destruct (truediv_int _ period) as [ag|e]; simpl in Hinit; [|discriminate].
    destruct (truediv_int _ period) as [al|e]; simpl in Hinit; [|discriminate].
    injection Hinit as _ _ <-. simpl. lia.
  - intros x s s' Hb. apply rsi_body_appends in Hb as (v & ->).
    rewrite length_app. simpl. lia.
Qed.

End RsiShape.

(** ** Exact arithmetic: the RSI loop *)

Section RsiReal.

Local Open Scope R_scope.

Lemma Rltb_true x y : x < y -> Rltb x y = true.
Proof. intros. unfold Rltb. destruct (Rlt_dec x y); [reflexivity|lra]. Qed.

Lemma real_nonzero_true (x : R) : x <> 0 -> nonzero x = true.
Proof.
  intros. unfold nonzero. cbn [neqb of_int real_number]. unfold Reqb.
  destruct (Req_dec_T x 0); [contradiction|reflexivity].
Qed.

Lemma real_nonzero_false : nonzero 0 = false.
Proof.
  unfold nonzero. cbn [neqb of_int real_number]. unfold Reqb.
  destruct (Req_dec_T 0 0); [reflexivity|contradiction].
Qed.

Lemma real_gain_nonneg (c : R) : 0 <= py_max c (of_int 0).
Proof.
  unfold py_max, ngtb. cbn [nltb of_int real_number]. unfold Rltb.
  destruct (Rlt_dec c 0); lra.
Qed.

Lemma real_gain_of_fall (c : R) : c < 0 -> py_max c (of_int 0) = 0.
Proof.
  intros. unfold py_max, ngtb. cbn [nltb of_int real_number].
  now rewrite Rltb_true.
Qed.

Lemma real_loss_nonneg (c : R) : 0 <= py_max (nneg c) (of_int 0).
Proof. apply real_gain_nonneg. Qed.

Lemma real_sum_nonneg (l : list R) (a : R) :
  Forall (fun x => 0 <= x) l -> 0 <= a -> 0 <= fold_left Rplus l a.
Proof.
  intros Hl. revert a. induction Hl as [|x l Hx _ IH]; intros a Ha; simpl.
  - exact Ha.
  - apply IH. lra.
Qed.

Lemma real_sum_zero (l : list R) :
  Forall (fun x => x = 0) l -> fold_left Rplus l 0 = 0.
Proof.
  induction 1 as [|x l Hx _ IH]; simpl; [reflexivity|].
  subst x. now rewrite Rplus_0_r.
Qed.

Lemma Forall_prefix {A : Type} (Q : A -> Prop) (l : list A) n :
  Forall Q l -> Forall Q (firstn n l).
Proof.
  intros Hl. revert n. induction Hl as [|x l Hx _ IH]; intros [|n]; simpl;
    constructor; auto.
Qed.

Lemma Forall_slice_to {A : Type} (Q : A -> Prop) (l : list A) stop :
  Forall Q l -> Forall Q (slice_to l stop).
Proof.
  intros Hl. unfold slice_to. destruct (stop <? 0)%Z; now apply Forall_prefix.
Qed.

(** The seed averages of lines 24-25. *)
Lemma real_seed (l : list R) (P : Z) :
  (1 <= P)%Z -> Forall (fun x => 0 <= x) l ->
  exists a, truediv_int (py_sum (slice_to l P)) P = Normal a
            /\ 0 <= a
            /\ (Forall (fun x => x = 0) l -> a = 0).
Proof.
  intros HP Hl. unfold truediv_int.
  destruct (Z.eqb_spec P 0); [lia|].
  eexists. split; [reflexivity|].
  assert (HPr : 0 < IZR P) by (apply IZR_lt; lia).
  cbn [ndiv of_int real_number]. unfold py_sum. cbn [nadd of_int real_number].
  split.
  - apply Rmult_le_pos.
    + apply real_sum_nonneg; [now apply Forall_slice_to | lra].
    + apply Rlt_le, Rinv_0_lt_compat, HPr.
  - intros Hz. rewrite real_sum_zero by now apply Forall_slice_to.
    unfold Rdiv. ring.
Qed.

Lemma real_wilder (avg : R) (xs : list R) (i : nat) (x : R) (P : Z) :
  (1 <= P)%Z -> 0 <= avg -> nth_error xs i = Some x -> 0 <= x ->
  exists a, wilder avg xs (Z.of_nat i) P = Normal a
            /\ 0 <= a
            /\ (avg = 0 -> x = 0 -> a = 0).
Proof.
  intros HP Havg Hnth Hx. unfold wilder, mul_int, truediv_int.
  cbn [fits real_number]. simpl bind.
  rewrite (py_getitem_nat _ _ _ Hnth). simpl bind.
  destruct (Z.eqb_spec P 0); [lia|].
  eexists. split; [reflexivity|].
  assert (HPr : 0 < IZR P) by (apply IZR_lt; lia).
  assert (HP1 : 0 <= IZR (P - 1)) by (apply IZR_le; lia).
  cbn [nadd nmul ndiv of_int real_number]. split.
  - apply Rmult_le_pos.
    + apply Rplus_le_le_0_compat; [now apply Rmult_le_pos | exact Hx].
    + apply Rlt_le, Rinv_0_lt_compat, HPr.
  - intros -> ->. unfold Rdiv. ring.
Qed.

(** [RS] is non-negative, and zero when either average is zero. *)
Lemma real_rs_of (ag al : R) :
  0 <= ag -> 0 <= al ->
  exists rs, rs_of ag al = Normal rs
             /\ 0 <= rs
             /\ (al = 0 \/ ag = 0 -> rs = 0).
Proof.
  intros Hag Hal. unfold rs_of.
  destruct (Req_dec_T al 0) as [->|Hne].
  - rewrite real_nonzero_false. exists 0.
    cbn [of_int real_number]. repeat split; auto; lra.
  - rewrite real_nonzero_true by exact Hne.
    unfold truediv. rewrite real_nonzero_true by exact Hne.
    eexists. split; [reflexivity|].
    cbn [ndiv real_number].
    assert (0 < al) by lra. split.
    + apply Rmult_le_pos; [exact Hag|].
      apply Rlt_le, Rinv_0_lt_compat; assumption.
    + intros [->| ->]; [lra|]. unfold Rdiv. ring.
Qed.

(** The value of line 35 for a non-negative [RS]. *)
Lemma real_rsi_val_of (rs : R) :
  0 <= rs ->
  exists v, rsi_val_of rs = Normal v
            /\ 0 <= v <= 100
            /\ (rs = 0 -> v = 100)
            /\ (0 < rs -> 0 < v < 100).
Proof.
  intros Hrs. unfold rsi_val_of.
  destruct (Req_dec_T rs 0) as [->|Hne].
  - rewrite real_nonzero_false. exists 100.
    cbn [of_int real_number]. repeat split; auto; lra.
  - rewrite real_nonzero_true by exact Hne.
    unfold truediv. cbn [nadd of_int real_number].
    rewrite real_nonzero_true by lra. simpl bind.
    eexists. split; [reflexivity|].
    cbn [nsub ndiv of_int real_number].
    assert (Hpos : 0 < rs) by lra.
    assert (Hq : 0 < 100 / (1 + rs) < 100).
    { split.
      - apply Rdiv_lt_0_compat; lra.
      - apply (Rmult_lt_reg_r (1 + rs)); [lra|].
        unfold Rdiv. rewrite Rmult_assoc, Rinv_l by lra. nra. }
    repeat split; try lra.
Qed.

End RsiReal.

Section RsiRealLoop.

Local Open Scope R_scope.

Variable P : Z.
Hypothesis HP : (1 <= P)%Z.

(** One iteration, in exact arithmetic, on non-negative gains and losses
    and non-negative averages: it does not raise, keeps the averages
    non-negative and appends a value of [0, 100], which is 100 when one of
    the current averages is zero. *)
Lemma real_rsi_body (gains losses : list R) (i : nat) (st : rsi_state) :
  Forall (fun x => 0 <= x) gains -> Forall (fun x => 0 <= x) losses ->
  length gains = length losses -> (i < length gains)%nat ->
  0 <= avg_gain st -> 0 <= avg_loss st ->
  exists st' v,
    rsi_body gains losses P (Z.of_nat i) st = Normal st'
    /\ 0 <= avg_gain st' /\ 0 <= avg_loss st'
    /\ rsi st' = rsi st ++ [v]
    /\ unit_interval_100 v
    /\ (avg_loss st' = 0 \/ avg_gain st' = 0 -> v = 100)
    /\ (avg_gain st = 0 -> Forall (fun x => x = 0) gains -> avg_gain st' = 0).
Proof.
  intros Hg Hl Hlen Hi Hag Hal. unfold rsi_body.
  assert (Havgs : exists ag al,
             (if (Z.of_nat i <? P)%Z then Normal (avg_gain st, avg_loss st)
              else
                ag <- wilder (avg_gain st) gains (Z.of_nat i) P ;;
                al <- wilder (avg_loss st) losses (Z.of_nat i) P ;;
                Normal (ag, al)) = Normal (ag, al)
             /\ 0 <= ag /\ 0 <= al
             /\ (avg_gain st = 0 -> Forall (fun x => x = 0) gains -> ag = 0)).
  { destruct (Z.of_nat i <? P)%Z.
    - exists (avg_gain st), (avg_loss st). auto.
    - destruct (nth_error gains i) as [g|] eqn:Hgi;
        [|apply nth_error_None in Hgi; lia].
      destruct (nth_error losses i) as [l|] eqn:Hli;
        [|apply nth_error_None in Hli; lia].
      assert (0 <= g)
        by (eapply (proj1 (Forall_forall _ _) Hg), nth_error_In, Hgi).
      assert (0 <= l)
        by (eapply (proj1 (Forall_forall _ _) Hl), nth_error_In, Hli).
      destruct (real_wilder (avg_gain st) gains i g P)
        as (ag & Hwg & Hag' & Hz); auto.
      destruct (real_wilder (avg_loss st) losses i l P)
        as (al & Hwl & Hal' & _); auto.
      exists ag, al. rewrite Hwg. simpl. rewrite Hwl. simpl.
      repeat split; auto.
      intros Hz0 Hall. apply Hz; [exact Hz0|].
      eapply (proj1 (Forall_forall _ _) Hall), nth_error_In, Hgi. }
  destruct Havgs as (ag & al & -> & Hag' & Hal' & Hz). simpl.
  destruct (real_rs_of ag al Hag' Hal') as (rs & -> & Hrs & Hrs0). simpl.
  destruct (real_rsi_val_of rs Hrs) as (v & -> & Hv & Hv0 & _). simpl.
  eexists. exists v. split; [reflexivity|]. simpl.
  repeat split; auto; try apply Hv.
Qed.

Lemma real_rsi_loop (changes : list R) (n : nat) :
  (n <= length changes)%nat ->
  exists gains losses st0 st,
    rsi_init changes P = Normal (gains, losses, st0)
    /\ rsi st0 = []
    /\ for_each (py_range 0 (Z.of_nat n)) st0 (rsi_body gains losses P)
       = Normal st
    /\ rsi_inv gains n st.
Proof.
  intros Hn. unfold rsi_init.
  set (gains := map (fun c => py_max c (of_int 0)) changes).
  set (losses := map (fun c => py_max (nneg c) (of_int 0)) changes).
  assert (Hg : Forall (fun x => 0 <= x) gains).
  { apply Forall_forall. intros x Hx. apply in_map_iff in Hx as (c & <- & _).
    apply real_gain_nonneg. }
  assert (Hl : Forall (fun x => 0 <= x) losses).
  { apply Forall_forall. intros x Hx. apply in_map_iff in Hx as (c & <- & _).
    apply real_loss_nonneg. }
  assert (Hlen : length gains = length losses)
    by (unfold gains, losses; now rewrite !length_map).
  destruct (real_seed gains P HP Hg) as (ag & -> & Hag & Hag0).
  destruct (real_seed losses P HP Hl) as (al & -> & Hal & _). simpl.
  set (st0 := {| avg_gain := ag; avg_loss := al; rsi := [] |}).
  change 0%Z with (Z.of_nat 0). rewrite py_range_nat, Nat.sub_0_r.
  destruct (for_each_range_inv (rsi_inv gains) (rsi_body gains losses P)
              n 0%nat st0) as (st & Hrun & Hinv).
  - intros i s Hi (Hsg & Hsl & Hsn & Hsall & Hsz).
    destruct (real_rsi_body gains losses i s) as
      (s' & v & Hb & Hg' & Hl' & Happ & Hv & Hv0 & Hz); auto.
    { unfold gains. rewrite length_map. lia. }
    exists s'. split; [exact Hb|]. unfold rsi_inv. rewrite Happ.
    split; [exact Hg'|]. split; [exact Hl'|]. split; [|split].
    + rewrite length_app. simpl. lia.
    + apply Forall_app. split; [exact Hsall|]. now constructor.
    + intros Hall. destruct (Hsz Hall) as [Hs0 Hs100].
      assert (Hag' : avg_gain s' = 0) by (apply Hz; assumption).
      split; [exact Hag'|]. apply Forall_app. split; [exact Hs100|].
      constructor; [|constructor]. apply Hv0. now right.
  - unfold rsi_inv, st0. simpl. repeat split; auto.
  - exists gains, losses, st0, st. auto.
Qed.

End RsiRealLoop.

Lemma rsi_loop_appends {T : Type} {num : Number T} gains losses period xs :
  forall st st' : rsi_state,
  for_each xs st (rsi_body gains losses period) = Normal st' ->
  exists tail, rsi st' = rsi st ++ tail.
Proof.
  induction xs as [|x xs IH]; intros st st' Hrun; simpl in Hrun.
  - injection Hrun as <-. exists []. now rewrite app_nil_r.
  - destruct (rsi_body gains losses period x st) as [st1|e] eqn:Hb;
      simpl in Hrun; [|discriminate].
    apply rsi_body_appends in Hb as (v & Hv).
    apply IH in Hrun as (tail & ->). rewrite Hv, <- app_assoc.
    now exists ([v] ++ tail).
Qed.

Lemma py_range_split (a b : nat) :
  (a <= b)%nat ->
  py_range 0 (Z.of_nat b)
  = py_range 0 (Z.of_nat a) ++ py_range (Z.of_nat a) (Z.of_nat b).
Proof.
  intros Hab. change 0 with (Z.of_nat 0). rewrite !py_range_nat, <- map_app.
  f_equal. rewrite !Nat.sub_0_r.
  replace b with (a + (b - a))%nat at 1 by lia. now rewrite seq_app.
Qed.

Lemma rsi_body_value {T : Type} {num : Number T} gains losses period i
      (st st' : rsi_state) :
  rsi_body gains losses period i st = Normal st' ->
  exists rs v,
    rs_of (avg_gain st') (avg_loss st') = Normal rs
    /\ rsi_val_of rs = Normal v
    /\ rsi st' = rsi st ++ [v].
Proof.
  unfold rsi_body. intros Hrun.
  destruct (if i <? period then _ else _) as [avgs|e];
    simpl in Hrun; [|discriminate].
  destruct (rs_of (fst avgs) (snd avgs)) as [rs|e] eqn:Hrs;
    simpl in Hrun; [|discriminate].
  destruct (rsi_val_of rs) as [v|e] eqn:Hv; simpl in Hrun; [|discriminate].
  injection Hrun as <-. simpl. now exists rs, v.
Qed.

Lemma py_range_snoc (n : nat) :
  py_range 0 (Z.of_nat (S n)) = py_range 0 (Z.of_nat n) ++ [Z.of_nat n].
Proof.
  change 0 with (Z.of_nat 0). rewrite !py_range_nat, !Nat.sub_0_r.
  now rewrite seq_S, map_app.
Qed.

(** In any number system: the value a returned RSI series holds at index
    [i] is the value of line 35 for the RS of the averages current at
    iteration [i]. *)
Lemma rsi_values_by_index {T : Type} {num : Number T}
      (prices : list T) (period : Z) out :
  calculate_rsi prices period = Normal out ->
  period < Z.of_nat (length prices) ->
  forall i, (i < length prices - 1)%nat ->
  exists st rs v,
    rsi_after prices period i = Normal st
    /\ rs_of (avg_gain st) (avg_loss st) = Normal rs
    /\ rsi_val_of rs = Normal v
    /\ nth_error out i = Some v.
Proof.
  unfold calculate_rsi, rsi_after. intros Hrun Hlen i Hi.
  destruct (Z.leb_spec (Z.of_nat (length prices)) period); [lia|].
  rewrite price_changes_ok in *. simpl in *.
  destruct (rsi_init (changes_of prices) period) as [[[gains losses] st0]|e]
    eqn:Hinit; simpl in *; [|discriminate].
  assert (Hnil : rsi st0 = []).
  { unfold rsi_init in Hinit.
    destruct (truediv_int _ period); simpl in Hinit; [|discriminate].
    destruct (truediv_int _ period); simpl in Hinit; [|discriminate].
    now injection Hinit as _ _ <-. }
  destruct (for_each _ st0 _) as [st|e] eqn:Hloop;
    simpl in Hrun; [|discriminate].
  injection Hrun as <-.
  rewrite (py_range_split (S i)) in Hloop
    by (rewrite changes_of_length; lia).
  rewrite for_each_app in Hloop.
  replace (Z.of_nat i + 1) with (Z.of_nat (S i)) by lia.
  destruct (for_each (py_range 0 (Z.of_nat (S i))) st0 _) as [sti|e]
    eqn:Hloopi; simpl in Hloop; [|discriminate].
  apply rsi_loop_appends in Hloop as (tail & Htail).
  rewrite py_range_snoc, for_each_app in Hloopi.
  destruct (for_each (py_range 0 (Z.of_nat i)) st0 _) as [stp|e]
    eqn:Hloopp; simpl in Hloopi; [|discriminate].
  destruct (rsi_body gains losses period (Z.of_nat i) stp) as [sti'|e]
    eqn:Hbody; simpl in Hloopi; [|discriminate].
  injection Hloopi as ->.
  apply rsi_body_value in Hbody as (rs & v & Hrs & Hv & Happ).
  apply (for_each_measure (fun s => length (rsi s))) in Hloopp.
  2: { intros x s s' Hb. apply rsi_body_appends in Hb as (w & ->).
       rewrite length_app. simpl. lia. }
  rewrite Hnil, py_range_length in Hloopp. simpl in Hloopp.
  exists sti, rs, v. repeat (split; [auto|]).
  rewrite Htail, Happ, <- app_assoc.
  rewrite nth_error_app2 by lia.
  replace (i - length (rsi stp))%nat with 0%nat by lia. reflexivity.
Qed.

Lemma strictly_decreasing_nth (prices : list R) :
  strictly_decreasing prices ->
  forall i, (1 <= i < length prices)%nat ->
            (nth i prices 0 < nth (i - 1) prices 0)%R.
Proof.
  induction prices as [|a [|b rest] IH]; intros Hdec i Hi;
    simpl in Hi; try lia.
  destruct Hdec as [Hba Hrest].
  destruct i as [|[|i]]; [lia| exact Hba |].
  specialize (IH Hrest (S i)). simpl in IH. rewrite Nat.sub_0_r in IH.
  simpl. apply IH. lia.
Qed.

Lemma real_gains_of_decreasing (prices : list R) :
  strictly_decreasing prices ->
  Forall (fun x => x = 0%R)
         (map (fun c => py_max c (of_int 0)) (changes_of prices)).
Proof.
  intros Hdec. apply Forall_forall. intros x Hx.
  apply in_map_iff in Hx as (c & <- & Hc).
  unfold changes_of in Hc. apply in_map_iff in Hc as (i & <- & Hi).
  apply in_seq in Hi. apply real_gain_of_fall.
  cbn [nsub of_int real_number].
  pose proof (strictly_decreasing_nth prices Hdec i ltac:(lia)). lra.
Qed.

(** [calculate_rsi] in exact arithmetic, for a period of at least 1. *)
Lemma real_rsi_spec (prices : list R) (P : Z) :
  1 <= P ->
  exists out,
    calculate_rsi prices P = Normal out
    /\ Forall unit_interval_100 out
    /\ (P < Z.of_nat (length prices) ->
        length out = (length prices - 1)%nat
        /\ (forall i, (i < length prices - 1)%nat ->
              exists st rs v,
                rsi_after prices P i = Normal st
                /\ rs_of (avg_gain st) (avg_loss st) = Normal rs
                /\ nth_error out i = Some v
                /\ (rs = 0%R -> v = 100%R)
                /\ (avg_loss st = 0%R \/ avg_gain st = 0%R -> rs = 0%R))
        /\ (strictly_decreasing prices -> Forall (fun v => v = 100%R) out)).
Proof.
  intros HP.
  destruct (Z.le_gt_cases (Z.of_nat (length prices)) P) as [Hle|Hlt].
  { exists []. unfold calculate_rsi.
    destruct (Z.leb_spec (Z.of_nat (length prices)) P); [|lia].
    split; [reflexivity|]. split; [constructor|]. lia. }
  destruct (real_rsi_loop P HP (changes_of prices)
              (length (changes_of prices)) (le_n _))
    as (gains & losses & st0 & st & Hinit & Hnil & Hrun & Hinv).
  assert (Hcalc : calculate_rsi prices P = Normal (rsi st)).
  { unfold calculate_rsi.
    destruct (Z.leb_spec (Z.of_nat (length prices)) P); [lia|].
    rewrite price_changes_ok. simpl. rewrite Hinit. simpl.
    now rewrite Hrun. }
  destruct Hinv as (_ & _ & Hlen & Hall & Hzero).
  exists (rsi st). split; [exact Hcalc|]. split; [exact Hall|].
  intros _. rewrite changes_of_length in Hlen. split; [exact Hlen|]. split.
  - intros i Hi.
    destruct (rsi_values_by_index prices P (rsi st) Hcalc Hlt i Hi)
      as (sti & rs & v & Hafter & Hrs & Hv & Hnth).
    destruct (real_rsi_loop P HP (changes_of prices) (S i))
      as (gains' & losses' & st0' & sti' & Hinit' & _ & Hruni & Hinvi);
      [rewrite changes_of_length; lia|].
    assert (sti' = sti) as ->.
    { unfold rsi_after in Hafter. rewrite price_changes_ok in Hafter.
      simpl in Hafter. rewrite Hinit' in Hafter. simpl in Hafter.
      replace (Z.of_nat i + 1) with (Z.of_nat (S i)) in Hafter by lia.
      rewrite Hruni in Hafter. now injection Hafter. }
    destruct Hinvi as (Hag & Hal & _).
    destruct (real_rs_of _ _ Hag Hal) as (rs' & Hrs' & Hpos & Hrs0).
    rewrite Hrs in Hrs'. injection Hrs' as <-.
    destruct (real_rsi_val_of rs Hpos) as (v' & Hv' & _ & Hv0 & _).
    rewrite Hv in Hv'. injection Hv' as <-.
    exists sti, rs, v. auto.
  - intros Hdec. apply Hzero.
    unfold rsi_init in Hinit.
    destruct (truediv_int _ P) as [ag|e]; simpl in Hinit; [|discriminate].
    destruct (truediv_int _ P) as [al|e]; simpl in Hinit; [|discriminate].
    injection Hinit as <- _ _. now apply real_gains_of_decreasing.
Qed.

(** ** The length of an EMA series, for any period *)

Lemma for_each_preserve {A S : Type} (m : S -> nat)
      (body : A -> S -> result S) xs : forall s s',
  (forall x s s', body x s = Normal s' -> m s' = m s) ->
  for_each xs s body = Normal s' ->
  m s' = m s.
Proof.
  induction xs as [|x xs IH]; intros s s' Hstep Hrun; simpl in *.
  - now injection Hrun as <-.
  - destruct (body x s) as [s1|e] eqn:Hb; simpl in Hrun; [|discriminate].
    rewrite (IH s1 s' Hstep Hrun). now apply (Hstep x).
Qed.

Lemma py_setitem_length {A : Type} (l l' : list A) i v :
  py_setitem l i v = Normal l' -> length l' = length l.
Proof.
  unfold py_setitem. destruct (norm_index (length l) i); [|discriminate].
  intros Hs. injection Hs as <-. apply list_set_length.
Qed.

(** Whatever the period, a returned EMA series is empty or as long as
    the prices. *)
Lemma calculate_ema_length {T : Type} {num : Number T}
      (prices : list T) (period : Z) ema :
  calculate_ema prices period = Normal ema ->
  ema = [] \/ length ema = length prices.
Proof.
  unfold calculate_ema.
  destruct (Z.of_nat (length prices) <? period).
  - intros Hr. injection Hr as <-. now left.
  - destruct (truediv_int _ (period + 1)) as [k|e]; simpl; [|discriminate].
    destruct (truediv_int _ period) as [seed|e]; simpl; [|discriminate].
    destruct (py_setitem _ (period - 1) seed) as [ema0|e] eqn:Hset;
      simpl; [|discriminate].
    intros Hrun. right.
    apply (for_each_preserve (@length T)) in Hrun.
    + rewrite Hrun. apply py_setitem_length in Hset.
      now rewrite Hset, repeat_length.
    + intros i s s' Hb.
      destruct (py_getitem prices i); simpl in Hb; [|discriminate].
      destruct (py_getitem s (i - 1)); simpl in Hb; [|discriminate].
      now apply py_setitem_length in Hb.
Qed.

Lemma py_getitem_last {A : Type} (l : list A) (d : nat) :
  (1 <= d <= length l)%nat ->
  exists x, nth_error l (length l - d) = Some x
            /\ py_getitem l (- Z.of_nat d) = Normal x.
Proof.
  intros Hd. unfold py_getitem. rewrite norm_index_from_end by exact Hd.
  destruct (nth_error l (length l - d)) as [x|] eqn:Hx.
  - now exists x.
  - apply nth_error_None in Hx. lia.
Qed.

(** ** The per-symbol analysis *)

Section AnalyseFacts.

Context {T : Type} {num : Number T}.
Variable round : T -> Z -> T.

Lemma fresh_crossover_ok (ema_s ema_l : list T) :
  (2 <= length ema_s)%nat -> (2 <= length ema_l)%nat ->
  exists s1 l1 s2 l2,
    nth_error ema_s (length ema_s - 1) = Some s1
    /\ nth_error ema_l (length ema_l - 1) = Some l1
    /\ nth_error ema_s (length ema_s - 2) = Some s2
    /\ nth_error ema_l (length ema_l - 2) = Some l2
    /\ fresh_crossover ema_s ema_l = Normal (ngtb s1 l1 && nleb s2 l2).
Proof.
  intros Hs Hl.
  destruct (py_getitem_last ema_s 1) as (s1 & Hs1 & Gs1); [lia|].
  destruct (py_getitem_last ema_l 1) as (l1 & Hl1 & Gl1); [lia|].
  destruct (py_getitem_last ema_s 2) as (s2 & Hs2 & Gs2); [lia|].
  destruct (py_getitem_last ema_l 2) as (l2 & Hl2 & Gl2); [lia|].
  exists s1, l1, s2, l2. repeat (split; [assumption|]).
  unfold fresh_crossover.
  change (- Z.of_nat 1) with (-1) in Gs1, Gl1.
  change (- Z.of_nat 2) with (-2) in Gs2, Gl2.
  rewrite Gs1, Gl1. simpl bind.
  destruct (ngtb s1 l1); [|reflexivity].
  rewrite Gs2, Gl2. reflexivity.
Qed.

Lemma make_signal_ok symbol timeframe (closes ema_s ema_l rsi_vals : list T) :
  (1 <= length closes)%nat -> (1 <= length ema_s)%nat ->
  (1 <= length ema_l)%nat ->
  exists price s1 l1 r,
    nth_error closes (length closes - 1) = Some price
    /\ nth_error ema_s (length ema_s - 1) = Some s1
    /\ nth_error ema_l (length ema_l - 1) = Some l1
    /\ (rsi_vals = [] -> r = None)
    /\ (rsi_vals <> [] ->
        exists v, nth_error rsi_vals (length rsi_vals - 1) = Some v
                  /\ r = Some (round v 2))
    /\ make_signal round symbol timeframe closes ema_s ema_l rsi_vals
       = Normal {| s_symbol := symbol; s_price := price;
                   s_emaShort := round s1 4; s_emaLong := round l1 4;
                   s_rsi := r; s_timeframe := timeframe |}.
Proof.
  intros Hc Hs Hl.
  destruct (py_getitem_last closes 1) as (price & Hp & Gp); [lia|].
  destruct (py_getitem_last ema_s 1) as (s1 & Hs1 & Gs1); [lia|].
  destruct (py_getitem_last ema_l 1) as (l1 & Hl1 & Gl1); [lia|].
  unfold make_signal.
  change (- Z.of_nat 1) with (-1) in Gp, Gs1, Gl1.
  rewrite Gp, Gs1, Gl1. simpl bind.
  destruct rsi_vals as [|x rest].
  - exists price, s1, l1, None. repeat (split; [assumption|]).
    split; [reflexivity|]. split; [congruence|]. reflexivity.
  - destruct (py_getitem_last (x :: rest) 1) as (v & Hv & Gv);
      [simpl; lia|].
    change (- Z.of_nat 1) with (-1) in Gv.
    rewrite Gv. simpl bind.
    exists price, s1, l1, (Some (round v 2)). repeat (split; [assumption|]).
    split; [discriminate|]. split; [|reflexivity].
    intros _. now exists v.
Qed.

(** A symbol that passes both gates: the analysis does not raise, and it
    appends a signal exactly when the test of line 116 holds. *)
Lemma analyse_closes_crossover timeframe es el rp symbol
      (signals : list Signal) (closes ema_s ema_l rsi_vals : list T) :
  (Z.of_nat (length closes) <? Z.max el rp + 10) = false ->
  calculate_ema closes es = Normal ema_s ->
  calculate_ema closes el = Normal ema_l ->
  calculate_rsi closes rp = Normal rsi_vals ->
  (2 <= length ema_s)%nat -> (2 <= length ema_l)%nat ->
  exists s1 l1 s2 l2 signal,
    nth_error ema_s (length ema_s - 1) = Some s1
    /\ nth_error ema_l (length ema_l - 1) = Some l1
    /\ nth_error ema_s (length ema_s - 2) = Some s2
    /\ nth_error ema_l (length ema_l - 2) = Some l2
    /\ make_signal round symbol timeframe closes ema_s ema_l rsi_vals
       = Normal signal
    /\ analyse_closes round timeframe es el rp symbol signals closes
       = Normal (if ngtb s1 l1 && nleb s2 l2
                 then signals ++ [signal] else signals).
Proof.
  intros Hgate Hes Hel Hrsi Hs Hl.
  destruct (fresh_crossover_ok ema_s ema_l Hs Hl)
    as (s1 & l1 & s2 & l2 & H1 & H2 & H3 & H4 & Hcross).
  assert (Hc : (1 <= length closes)%nat).
  { destruct (calculate_ema_length closes es ema_s Hes) as [->|<-];
      simpl in *; lia. }
  destruct (make_signal_ok symbol timeframe closes ema_s ema_l rsi_vals)
    as (price & s1' & l1' & r & _ & _ & _ & _ & _ & Hsig); try lia.
  exists s1, l1, s2, l2. eexists. repeat (split; [eassumption|]).
  unfold analyse_closes. rewrite Hgate, Hes, Hel, Hrsi. simpl bind.
  destruct (Nat.ltb_spec (length ema_s) 2); [lia|].
  destruct (Nat.ltb_spec (length ema_l) 2); [lia|]. simpl orb.
  rewrite Hcross. simpl bind.
  destruct (ngtb s1 l1 && nleb s2 l2); [|reflexivity].
  rewrite Hsig. reflexivity.
Qed.

(** With a period of at least 1 for the RSI, whatever the analysis
    appends carries a rounded RSI value. *)
Lemma analyse_closes_rsi timeframe es el rp symbol
      (signals signals' : list Signal) (closes : list T) :
  1 <= rp ->
  analyse_closes round timeframe es el rp symbol signals closes
  = Normal signals' ->
  signals' = signals
  \/ exists signal v, signals' = signals ++ [signal]
                      /\ s_rsi signal = Some (round v 2).
Proof.
  intros Hrp. unfold analyse_closes.
  destruct (Z.ltb_spec (Z.of_nat (length closes)) (Z.max el rp + 10))
    as [|Hgate].
  { intros Hr. injection Hr as <-. now left. }
  destruct (calculate_ema closes es) as [ema_s|e] eqn:Hes;
    simpl bind; [|discriminate].
  destruct (calculate_ema closes el) as [ema_l|e] eqn:Hel;
    simpl bind; [|discriminate].
  destruct (calculate_rsi closes rp) as [rsi_vals|e] eqn:Hrsi;
    simpl bind; [|discriminate].
  destruct (Nat.ltb_spec (length ema_s) 2).
  { intros Hr. injection Hr as <-. now left. }
  destruct (Nat.ltb_spec (length ema_l) 2).
  { intros Hr. injection Hr as <-. now left. }
  simpl orb. cbv iota.
  destruct (fresh_crossover ema_s ema_l) as [[|]|e];
    simpl bind; cbv iota; try discriminate.
  2: { intros Hr. injection Hr as <-. now left. }
  apply calculate_rsi_length in Hrsi; [|lia].
  destruct (make_signal_ok symbol timeframe closes ema_s ema_l rsi_vals)
    as (price & s1 & l1 & r & _ & _ & _ & _ & Hr & ->); try lia.
  simpl bind. intros Hres. injection Hres as <-. right.
  destruct Hr as (v & _ & ->).
  { intros ->. simpl in Hrsi. lia. }
  eexists. exists v. split; reflexivity.
Qed.

End AnalyseFacts.

(** ** The scan loop and the handler *)

Section ScanFacts.

Context {T : Type} {num : Number T}.
Variable World : Type.
Variable py_int : string -> result Z.
Variable round : T -> Z -> T.
Variable utcnow_isoformat : World -> string.
Variable get_binance_symbols : World -> result (list string) * World.
Variable get_bybit_symbols : World -> result (list string) * World.
Variable binance_klines :
  string -> string -> Z -> World -> result (list T) * World.
Variable bybit_klines :
  string -> string -> Z -> World -> result (list T) * World.

Local Abbreviation fetch := (fetch_klines World binance_klines bybit_klines).
Local Abbreviation try_body := (symbol_body World round binance_klines bybit_klines).
Local Abbreviation process :=
  (process_symbol World round binance_klines bybit_klines).
Local Abbreviation scan := (scan_loop World round binance_klines bybit_klines).
Local Abbreviation handle :=
  (handler World py_int round utcnow_isoformat get_binance_symbols
           get_bybit_symbols binance_klines bybit_klines).

(** One iteration: the fetch runs, and the signals are those of the
    analysis when it returns, the old ones when anything raised. *)
Lemma process_symbol_eq exchange timeframe es el rp symbol
      (signals : list Signal) (st : state World) :
  process exchange timeframe es el rp symbol signals st
  = (Normal
       match fst (fetch exchange symbol timeframe 100 st) with
       | Normal closes =>
           match analyse_closes round timeframe es el rp
                                symbol signals closes with
           | Normal signals' => signals'
           | Raise _ => signals
           end
       | Raise _ => signals
       end,
     snd (fetch exchange symbol timeframe 100 st)).
Proof.
  unfold process_symbol, try_except, symbol_body, bindM, lift, ret.
  destruct (fetch exchange symbol timeframe 100 st) as [[closes|e] st1];
    simpl; [|reflexivity].
  destruct (analyse_closes round timeframe es el rp symbol signals closes);
    reflexivity.
Qed.


(** An iteration whose body raises hands the signals on unchanged. *)
Lemma process_symbol_skips exchange timeframe es el rp symbol
      (signals : list Signal) (st st1 : state World) e :
  try_body exchange timeframe es el rp symbol signals st = (Raise e, st1) ->
  process exchange timeframe es el rp symbol signals st
  = (Normal signals, st1).
Proof.
  unfold process_symbol, try_except. now intros ->.
Qed.

Lemma scan_loop_total exchange timeframe es el rp symbols :
  forall (signals : list Signal) (st : state World),
  exists signals' st',
    scan exchange timeframe es el rp symbols signals st
    = (Normal signals', st').
Proof.
  induction symbols as [|x rest IH]; intros signals st; simpl.
  - unfold ret. eauto.
  - unfold bindM. rewrite process_symbol_eq. apply IH.
Qed.

(** A property that every iteration preserves holds of the whole scan. *)
Lemma scan_loop_preserves (Q : list Signal -> Prop)
      exchange timeframe es el rp :
  (forall symbol signals closes signals',
      Q signals ->
      analyse_closes round timeframe es el rp symbol signals closes
      = Normal signals' -> Q signals') ->
  forall symbols signals (st : state World) signals' st',
    Q signals ->
    scan exchange timeframe es el rp symbols signals st
    = (Normal signals', st') ->
    Q signals'.
Proof.
  intros Hstep. induction symbols as [|x rest IH];
    intros signals st signals' st' HQ Hrun; simpl in Hrun.
  - unfold ret in Hrun. injection Hrun as <- _. exact HQ.
  - unfold bindM in Hrun. rewrite process_symbol_eq in Hrun.
    eapply IH; [|exact Hrun].
    destruct (fst (fetch exchange x timeframe 100 st)) as [closes|e];
      [|exact HQ].
    destruct (analyse_closes round timeframe es el rp x signals closes)
      as [s'|e] eqn:Ha; [|exact HQ].
    eapply Hstep; eassumption.
Qed.

(** The response of a request whose parameters parse. *)
Lemma handler_eq event (st : state World) es el rp :
  int_param py_int (query_of event) "emaShort" 9 = Normal es ->
  int_param py_int (query_of event) "emaLong" 26 = Normal el ->
  int_param py_int (query_of event) "rsiPeriod" 14 = Normal rp ->
  let exchange := str_param (query_of event) "exchange" "binance" in
  let timeframe := str_param (query_of event) "timeframe" "1m" in
  handle event st
  = if el <=? es then
      ({| statusCode := 400;
          headers := [("Content-Type", "application/json")]%string;
          body := ValidationBody "EMA Short must be < EMA Long" |}, st)
    else
      let source := if String.eqb exchange "binance"
                    then get_binance_symbols else get_bybit_symbols in
      let name := if String.eqb exchange "binance"
                  then "binance"%string else "bybit"%string in
      let st1 := {| world := snd (source (world st));
                    calls := calls st ++ [SymbolList name] |} in
      match fst (source (world st)) with
      | Raise e =>
          ({| statusCode := 500;
              headers := [("Content-Type", "application/json")]%string;
              body := FailureBody e |}, st1)
      | Normal symbols =>
          match scan exchange timeframe es el rp (firstn 50 symbols) [] st1
          with
          | (Normal signals, st2) =>
              ({| statusCode := 200;
                  headers := [("Content-Type", "application/json");
                              ("Access-Control-Allow-Origin", "*")]%string;
                  body := ScanBody signals (Z.of_nat (length signals))
                                   (utcnow_isoformat (world st2) ++ "Z") |},
               st2)
          | (Raise e, st2) =>
              ({| statusCode := 500;
                  headers := [("Content-Type", "application/json")]%string;
                  body := FailureBody e |}, st2)
          end
      end.
Proof.
  intros Hes Hel Hrp exchange timeframe.
  unfold handler, handler_body. fold exchange timeframe.
  unfold bindM at 1. unfold lift at 1. rewrite Hes.
  unfold bindM at 1. unfold lift at 1. rewrite Hel.
  unfold bindM at 1. unfold lift at 1. rewrite Hrp.
  destruct (el <=? es); [reflexivity|].
  unfold bindM at 1.
  destruct (String.eqb exchange "binance"); unfold remote.
  - destruct (get_binance_symbols (world st)) as [[symbols|e] w1];
      cbv beta iota; cbn [fst snd]; [|reflexivity].
    unfold bindM.
    match goal with
    | |- context [scan exchange timeframe es el rp (firstn 50 symbols) [] ?s]
      => destruct (scan exchange timeframe es el rp (firstn 50 symbols) [] s)
        as [[signals|e] st2]; reflexivity
    end.
  - destruct (get_bybit_symbols (world st)) as [[symbols|e] w1];
      cbv beta iota; cbn [fst snd]; [|reflexivity].
    unfold bindM.
    match goal with
    | |- context [scan exchange timeframe es el rp (firstn 50 symbols) [] ?s]
      => destruct (scan exchange timeframe es el rp (firstn 50 symbols) [] s)
        as [[signals|e] st2]; reflexivity
    end.
Qed.

End ScanFacts.

(** ** Period 0 *)

Lemma calculate_ema_zero {T : Type} {num : Number T} (prices : list T) :
  calculate_ema prices 0 = Raise ZeroDivisionError.
Proof.
  unfold calculate_ema.
  destruct (Z.ltb_spec (Z.of_nat (length prices)) 0); [lia|].
  reflexivity.
Qed.


(** ** IEEE doubles: a zero numerator *)



(** * Runs

    The embedding evaluates; these runs can be compared with CPython. *)

Example ema_run :
  calculate_ema [1; 2; 3; 4; 5]%float 3 = Normal [0; 0; 2; 3; 4]%float.
Proof. vm_compute. reflexivity. Qed.

Example ema_too_short : calculate_ema [1; 2]%float 3 = Normal [].
Proof. vm_compute. reflexivity. Qed.

(** A negative period is taken as it comes: the slice, the indices and
    the range all count from the end. *)
Example ema_negative_period :
  calculate_ema [1; 2; 3; 4]%float (-2)
  = Normal [-120.5; -365.5; -1102.5; -3315.5]%float.
Proof. vm_compute. reflexivity. Qed.

Example ema_period_minus_one :
  calculate_ema [1; 2; 3; 4]%float (-1) = Raise ZeroDivisionError.
Proof. vm_compute. reflexivity. Qed.

Example rsi_run :
  calculate_rsi [1; 2; 1; 2]%float 2 = Normal [50; 50; 75]%float.
Proof. vm_compute. reflexivity. Qed.

Example rsi_period_zero :
  calculate_rsi [1; 2; 3]%float 0 = Raise ZeroDivisionError.
Proof. vm_compute. reflexivity. Qed.

Example rsi_period_out_of_range :
  calculate_rsi [1; 2; 3]%float (- 2 ^ 1030) = Raise OverflowError.
Proof. vm_compute. reflexivity. Qed.

(** One symbol cannot be fetched, the other shows a fresh crossover. *)
Example scan_run :
  let (resp, st) :=
    synthetic_handler
      (Some [("emaShort", "1"); ("emaLong", "2"); ("rsiPeriod", "1")]%string)
      fresh_state in
  statusCode resp = 200
  /\ match body resp with
     | ScanBody signals count _ =>
         map s_symbol signals = ["ABCUSDT"%string]
         /\ map s_price signals = [5%float]
         /\ map s_rsi signals = [Some 100%float]
         /\ count = 1
     | _ => False
     end
  /\ calls st = [SymbolList "binance";
                 Klines "binance" "BADUSDT" "1m" 100;
                 Klines "binance" "ABCUSDT" "1m" 100].
Proof. vm_compute. repeat split. Qed.

(** * The claims *)

(** C1. For a period [P >= 1] and prices of length [L]: when [L < P]
    [calculate_ema] returns the empty series; otherwise it returns a
    series of length [L] whose entry at index [P-1] is the arithmetic
    mean of the first [P] prices, whose entries at indices [0..P-2] are
    the sentinel 0, and whose entries at [P <= i < L] satisfy
    [ema[i] = price[i]*k + ema[i-1]*(1-k)] with [k = 2/(P+1)].  It holds
    in every number system, IEEE doubles included. *)
Theorem calculate_ema_series {T : Type} {num : Number T}
        (prices : list T) (P : Z) :
  1 <= P ->
  (Z.of_nat (length prices) < P -> calculate_ema prices P = Normal [])
  /\ (P <= Z.of_nat (length prices) ->
      let k := of_int 2 /^ of_int (P + 1) in
      exists ema,
        calculate_ema prices P = Normal ema
        /\ length ema = length prices
        /\ nth_error ema (Z.to_nat (P - 1))
           = Some (mean (firstn (Z.to_nat P) prices))
        /\ (forall i, (i < Z.to_nat (P - 1))%nat ->
              nth_error ema i = Some (of_int 0))
        /\ (forall i, (Z.to_nat P <= i < length prices)%nat ->
              exists p e,
                nth_error prices i = Some p
                /\ nth_error ema (i - 1) = Some e
                /\ nth_error ema i = Some (p *^ k +^ e *^ (of_int 1 -^ k)))).
Proof.
  intros HP. split.
  - apply ema_short_series.
  - intros Hle. now apply ema_shape.
Qed.

Lemma calculate_ema_series_witness :
  exists ema,
    calculate_ema [1; 2; 4; 8]%float 2 = Normal ema
    /\ length ema = 4%nat
    /\ nth_error ema 1 = Some (mean [1; 2]%float).
Proof.
  destruct (calculate_ema_series [1; 2; 4; 8]%float 2) as [_ H]; [lia|].
  destruct H as (ema & H1 & H2 & H3 & _); [simpl; lia|].
  exists ema. auto.
Defined.
(** C6, as stated, fails in IEEE double arithmetic: for ten prices 3.0 and
    period 9 the seed is 3.0 but the next entry, 3.0*0.2 + 3.0*(1-0.2),
    is not equal to 3.0. *)
Lemma ema_constant_float_counterexample :
  ~ (forall ema,
        calculate_ema (repeat 3%float 10) 9 = Normal ema ->
        forall i v, (8 <= i < 10)%nat -> nth_error ema i = Some v ->
                    PrimFloat.eqb v 3 = true).
Proof.
  intros H.
  assert (Hrun : exists ema, calculate_ema (repeat 3%float 10) 9 = Normal ema
                             /\ exists v, nth_error ema 9 = Some v
                                          /\ PrimFloat.eqb v 3 = false).
  { eexists. split; [vm_compute; reflexivity|].
    eexists. split; [vm_compute; reflexivity|]. vm_compute. reflexivity. }
  destruct Hrun as (ema & Hrun & v & Hv & Hne).
  specialize (H ema Hrun 9%nat v ltac:(lia) Hv). congruence.
Qed.

(** C6, amended. In exact (real-number) arithmetic, for every period
    [P >= 1] and every constant price series of value [V] and length
    [L >= P], [calculate_ema] returns a series of length [L] whose every
    entry at index [>= P-1] equals [V]. *)
Theorem ema_constant_exact (V : R) (P : Z) (L : nat) :
  1 <= P -> P <= Z.of_nat L ->
  exists ema,
    calculate_ema (repeat V L) P = Normal ema
    /\ length ema = L
    /\ forall i, (Z.to_nat (P - 1) <= i < L)%nat -> nth_error ema i = Some V.
Proof.
  intros HP HL.
  destruct (ema_shape (repeat V L) P HP) as
    (ema & Hrun & Hlen & Hseed & _ & Hrec);
    [now rewrite repeat_length|].
  rewrite repeat_length in Hlen, Hrec.
  exists ema. split; [exact Hrun|]. split; [exact Hlen|].
  rewrite firstn_repeat, real_mean_repeat in Hseed by lia.
  intros i. induction i as [|i IH]; intros Hi.
  - replace (Z.to_nat (P - 1)) with 0%nat in Hseed by lia. exact Hseed.
  - destruct (Nat.eq_dec (S i) (Z.to_nat (P - 1))) as [Heq|Hne].
    + rewrite Heq. exact Hseed.
    + destruct (Hrec (S i)) as (p & e & Hp & He & Hv); [lia|].
      rewrite nth_error_repeat in Hp by lia.
      replace (S i - 1)%nat with i in He by lia.
      rewrite IH in He by lia.
      injection Hp as <-. injection He as <-.
      rewrite Hv. f_equal. apply real_ema_step_fixed.
Qed.

Lemma ema_constant_exact_witness :
  exists ema,
    calculate_ema (repeat 3%R 10) 9 = Normal ema
    /\ length ema = 10%nat
    /\ forall i, (Z.to_nat (9 - 1) <= i < 10)%nat ->
                 nth_error ema i = Some 3%R.
Proof. apply (ema_constant_exact 3%R 9 10); simpl; lia. Defined.







Section ScanClaims.

Context {T : Type} {num : Number T}.
Variable World : Type.
Variable py_int : string -> result Z.
Variable round : T -> Z -> T.
Variable utcnow_isoformat : World -> string.
Variable get_binance_symbols : World -> result (list string) * World.
Variable get_bybit_symbols : World -> result (list string) * World.
Variable binance_klines :
  string -> string -> Z -> World -> result (list T) * World.
Variable bybit_klines :
  string -> string -> Z -> World -> result (list T) * World.

Local Abbreviation fetch := (fetch_klines World binance_klines bybit_klines).
Local Abbreviation try_body :=
  (symbol_body World round binance_klines bybit_klines).
Local Abbreviation process :=
  (process_symbol World round binance_klines bybit_klines).
Local Abbreviation scan :=
  (scan_loop World round binance_klines bybit_klines).
Local Abbreviation handle :=
  (handler World py_int round utcnow_isoformat get_binance_symbols
           get_bybit_symbols binance_klines bybit_klines).

(** C3. For a symbol that passes the data-length gate and the
    series-length gate, the iteration appends a Signal if and only if
    [ema_short[-1] > ema_long[-1] and ema_short[-2] <= ema_long[-2]];
    the test gives True on short=[1,1,3], long=[2,2,2] and False on
    short=[3,3,3], long=[2,2,2]. *)
Theorem crossover_decides_signal :
  (forall exchange timeframe es el rp symbol (signals : list Signal)
          (st : state World) (closes ema_s ema_l rsi_vals : list T),
      fst (fetch exchange symbol timeframe 100 st) = Normal closes ->
      (Z.of_nat (length closes) <? Z.max el rp + 10) = false ->
      calculate_ema closes es = Normal ema_s ->
      calculate_ema closes el = Normal ema_l ->
      calculate_rsi closes rp = Normal rsi_vals ->
      (2 <= length ema_s)%nat -> (2 <= length ema_l)%nat ->
      exists s1 l1 s2 l2,
        nth_error ema_s (length ema_s - 1) = Some s1
        /\ nth_error ema_l (length ema_l - 1) = Some l1
        /\ nth_error ema_s (length ema_s - 2) = Some s2
        /\ nth_error ema_l (length ema_l - 2) = Some l2
        /\ ((exists signal,
               fst (process exchange timeframe es el rp symbol signals st)
               = Normal (signals ++ [signal]))
            <-> ngtb s1 l1 && nleb s2 l2 = true)
        /\ (ngtb s1 l1 && nleb s2 l2 = false ->
            fst (process exchange timeframe es el rp symbol signals st)
            = Normal signals))
  /\ fresh_crossover [1; 1; 3]%float [2; 2; 2]%float = Normal true
  /\ fresh_crossover [3; 3; 3]%float [2; 2; 2]%float = Normal false.
Proof.
  split; [|split; vm_compute; reflexivity].
  intros exchange timeframe es el rp symbol signals st closes ema_s ema_l
         rsi_vals Hfetch Hgate Hes Hel Hrsi Hs Hl.
  destruct (analyse_closes_crossover round timeframe es el rp symbol signals
              closes ema_s ema_l rsi_vals Hgate Hes Hel Hrsi Hs Hl)
    as (s1 & l1 & s2 & l2 & signal & H1 & H2 & H3 & H4 & _ & Hrun).
  exists s1, l1, s2, l2. repeat (split; [assumption|]).
  rewrite process_symbol_eq. cbn [fst]. rewrite Hfetch, Hrun.
  destruct (ngtb s1 l1 && nleb s2 l2); split.
  - split; [reflexivity|]. intros _. now exists signal.
  - discriminate.
  - split; [|discriminate]. intros (sig & Hsig).
    injection Hsig as Hsig. apply (f_equal (@length _)) in Hsig.
    rewrite length_app in Hsig. simpl in Hsig. lia.
  - reflexivity.
Qed.

(** C4. A symbol whose candle fetch raises, or whose analysis raises, is
    skipped: the iteration returns normally with the signals it was
    given; no iteration and no scan ever raises; a scan goes on with the
    remaining symbols after a failure; and once the parameters are valid
    and the symbol list is fetched, the response is the 200 one with the
    signals of the scan. *)
Theorem symbol_failures_are_skipped exchange timeframe es el rp :
  (forall symbol (signals : list Signal) (st : state World) e,
      fst (fetch exchange symbol timeframe 100 st) = Raise e ->
      process exchange timeframe es el rp symbol signals st
      = (Normal signals, snd (fetch exchange symbol timeframe 100 st)))
  /\ (forall symbol (signals : list Signal) (st : state World) closes e,
        fst (fetch exchange symbol timeframe 100 st) = Normal closes ->
        analyse_closes round timeframe es el rp symbol signals closes
        = Raise e ->
        process exchange timeframe es el rp symbol signals st
        = (Normal signals, snd (fetch exchange symbol timeframe 100 st)))
  /\ (forall symbol rest (signals : list Signal) (st st1 : state World) e,
        try_body exchange timeframe es el rp symbol signals st
        = (Raise e, st1) ->
        scan exchange timeframe es el rp (symbol :: rest) signals st
        = scan exchange timeframe es el rp rest signals st1)
  /\ (forall symbols (signals : list Signal) (st : state World),
        exists signals' st',
          scan exchange timeframe es el rp symbols signals st
          = (Normal signals', st'))
  /\ (forall event (st : state World) symbols,
        exchange = str_param (query_of event) "exchange" "binance" ->
        timeframe = str_param (query_of event) "timeframe" "1m" ->
        int_param py_int (query_of event) "emaShort" 9 = Normal es ->
        int_param py_int (query_of event) "emaLong" 26 = Normal el ->
        int_param py_int (query_of event) "rsiPeriod" 14 = Normal rp ->
        es < el ->
        fst ((if String.eqb exchange "binance"
              then get_binance_symbols else get_bybit_symbols) (world st))
        = Normal symbols ->
        exists signals st1 st2,
          scan exchange timeframe es el rp (firstn 50 symbols) [] st1
          = (Normal signals, st2)
          /\ statusCode (fst (handle event st)) = 200
          /\ body (fst (handle event st))
             = ScanBody signals (Z.of_nat (length signals))
                        (utcnow_isoformat (world st2) ++ "Z")).
Proof.
  split; [|split; [|split; [|split]]].
  - intros symbol signals st e He. rewrite process_symbol_eq. now rewrite He.
  - intros symbol signals st closes e Hc He.
    rewrite process_symbol_eq. now rewrite Hc, He.
  - intros symbol rest signals st st1 e Hb. simpl. unfold bindM.
    erewrite process_symbol_skips; [reflexivity | exact Hb].
  - apply scan_loop_total.
  - intros event st symbols -> -> Hes Hel Hrp Hlt Hsym.
    pose proof (handler_eq World py_int round utcnow_isoformat
                  get_binance_symbols get_bybit_symbols binance_klines
                  bybit_klines event st es el rp Hes Hel Hrp) as Heq.
    cbv zeta in Heq. rewrite Heq. clear Heq.
    destruct (Z.leb_spec el es); [lia|].
    rewrite Hsym.
    match goal with
    | |- context [scan ?ex ?tf es el rp (firstn 50 symbols) [] ?s] =>
        destruct (scan_loop_total World round binance_klines bybit_klines
                    ex tf es el rp (firstn 50 symbols) [] s)
          as (signals & st2 & Hscan);
        exists signals, s, st2
    end.
    rewrite Hscan. auto.
Qed.



(** C9. With [rsiPeriod >= 1], every Signal in a scan response has an
    [rsi] field that is a rounded number, never null. *)
Theorem emitted_signals_carry_rsi event (st : state World) rp :
  int_param py_int (query_of event) "rsiPeriod" 14 = Normal rp ->
  1 <= rp ->
  forall signals count timestamp,
    body (fst (handle event st)) = ScanBody signals count timestamp ->
    Forall (fun s => exists v, s_rsi s = Some (round v 2)) signals.
Proof.
  intros Hrp Hge signals count timestamp Hbody.
  destruct (int_param py_int (query_of event) "emaShort" 9) as [es|e] eqn:Hes.
  2: { unfold handler, handler_body, bindM, lift in Hbody.
       rewrite Hes in Hbody. discriminate. }
  destruct (int_param py_int (query_of event) "emaLong" 26) as [el|e] eqn:Hel.
  2: { unfold handler, handler_body, bindM, lift in Hbody.
       rewrite Hes, Hel in Hbody. discriminate. }
  pose proof (handler_eq World py_int round utcnow_isoformat
                get_binance_symbols get_bybit_symbols binance_klines
                bybit_klines event st es el rp Hes Hel Hrp) as Heq.
  cbv zeta in Heq. rewrite Heq in Hbody. clear Heq.
  destruct (el <=? es); [discriminate|].
  match type of Hbody with
  | context [fst (?src (world st))] =>
      destruct (fst (src (world st))) as [symbols|e]; [|discriminate]
  end.
  match type of Hbody with
  | context [scan ?ex ?tf es el rp (firstn 50 symbols) [] ?s] =>
      destruct (scan ex tf es el rp (firstn 50 symbols) [] s)
        as [[sigs|e] st2] eqn:Hscan; [|discriminate]
  end.
  injection Hbody as <- _ _.
  eapply (scan_loop_preserves World round binance_klines bybit_klines
            (Forall (fun s => exists v, s_rsi s = Some (round v 2))));
    [| |exact Hscan]; [|constructor].
  intros symbol sg closes sg' HQ Ha.
  apply analyse_closes_rsi in Ha as [->|(signal & v & -> & Hv)];
    [exact HQ | | exact Hge].
  apply Forall_app. split; [exact HQ|]. constructor; [|constructor].
  now exists v.
Qed.


End ScanClaims.

(** *** Runs on the synthetic exchange *)

Lemma crossover_decides_signal_witness :
  exists signal,
    fst (process_symbol unit keep_digits synthetic_klines synthetic_klines
                        "binance" "1m" 1 2 1 "ABCUSDT" [] fresh_state)
    = Normal ([] ++ [signal]).
Proof.
  destruct (crossover_decides_signal (T:=float) (num:=float_number)
              unit keep_digits synthetic_klines synthetic_klines)
    as [Hgen _].
  edestruct (Hgen "binance"%string "1m"%string 1 2 1 "ABCUSDT"%string
                  [] fresh_state)
    as (s1 & l1 & s2 & l2 & H1 & H2 & H3 & H4 & Hiff & _).
  - vm_compute. reflexivity.
  - vm_compute. reflexivity.
  - vm_compute. reflexivity.
  - vm_compute. reflexivity.
  - vm_compute. reflexivity.
  - simpl. lia.
  - simpl. lia.
  - apply Hiff.
    vm_compute in H1, H2, H3, H4.
    injection H1 as <-. injection H2 as <-.
    injection H3 as <-. injection H4 as <-.
    vm_compute. reflexivity.
Defined.

Lemma symbol_failures_are_skipped_witness :
  process_symbol unit keep_digits synthetic_klines synthetic_klines
                 "binance" "1m" 1 2 1 "BADUSDT" [] fresh_state
  = (Normal [],
     snd (fetch_klines unit synthetic_klines synthetic_klines
                       "binance" "BADUSDT" "1m" 100 fresh_state))
  /\ exists signal timestamp,
       s_symbol signal = "ABCUSDT"%string
       /\ fst (synthetic_handler
                 (Some [("emaShort", "1"); ("emaLong", "2");
                        ("rsiPeriod", "1")]%string) fresh_state)
          = {| statusCode := 200;
               headers := [("Content-Type", "application/json");
                           ("Access-Control-Allow-Origin", "*")]%string;
               body := ScanBody [signal] 1 timestamp |}.
Proof.
  destruct (symbol_failures_are_skipped (T:=float) (num:=float_number)
              unit synthetic_int keep_digits synthetic_clock
              synthetic_symbols synthetic_symbols
              synthetic_klines synthetic_klines "binance" "1m" 1 2 1)
    as (Hfetch & _ & _ & _ & Hresp).
  split.
  - eapply Hfetch. vm_compute. reflexivity.
  - destruct (Hresp (Some [("emaShort", "1"); ("emaLong", "2");
                           ("rsiPeriod", "1")]%string) fresh_state
                    ["BADUSDT"; "ABCUSDT"]%string)
      as (signals & st1 & st2 & Hscan & Hstatus & Hbody);
      [reflexivity | reflexivity | reflexivity | reflexivity | reflexivity
      | lia | reflexivity |].
    eexists. eexists. split; [|vm_compute; reflexivity]. reflexivity.
Defined.



Lemma emitted_signals_carry_rsi_witness :
  exists signals count timestamp,
    body (fst (synthetic_handler
                 (Some [("emaShort", "1"); ("emaLong", "2");
                        ("rsiPeriod", "1")]%string) fresh_state))
    = ScanBody signals count timestamp
    /\ signals <> []
    /\ Forall (fun s => exists v, s_rsi s = Some (keep_digits v 2)) signals.
Proof.
  eexists. eexists. eexists.
  split; [vm_compute; reflexivity|]. split; [discriminate|].
  eapply (emitted_signals_carry_rsi (T:=float) (num:=float_number)
            unit synthetic_int keep_digits synthetic_clock
            synthetic_symbols synthetic_symbols
            synthetic_klines synthetic_klines
            (Some [("emaShort", "1"); ("emaLong", "2");
                   ("rsiPeriod", "1")]%string) fresh_state 1);
    [reflexivity | lia | vm_compute; reflexivity].
Defined.


(** * Further properties of the code *)

(** ** More on lists and loops *)

Lemma norm_index_in_range n i :
  - Z.of_nat n <= i < Z.of_nat n ->
  exists j, norm_index n i = Some j /\ (j < n)%nat.
Proof.
  intros Hi. unfold norm_index.
  destruct (Z.leb_spec 0 i) as [Hpos|Hneg]; simpl.
  - destruct (Z.ltb_spec i (Z.of_nat n)); [|lia].
    exists (Z.to_nat i). split; [reflexivity|lia].
  - destruct (Z.ltb_spec i 0); [|lia].
    destruct (Z.leb_spec (- Z.of_nat n) i); [|lia]. simpl.
    exists (Z.to_nat (Z.of_nat n + i)). split; [reflexivity|lia].
Qed.

Lemma norm_index_out_of_range n i :
  i < - Z.of_nat n \/ Z.of_nat n <= i -> norm_index n i = None.
Proof.
  intros Hi. unfold norm_index.
  destruct (Z.leb_spec 0 i), (Z.ltb_spec i (Z.of_nat n)),
    (Z.ltb_spec i 0), (Z.leb_spec (- Z.of_nat n) i);
    simpl; try reflexivity; lia.
Qed.

Lemma py_getitem_in_range {A : Type} (l : list A) i :
  - Z.of_nat (length l) <= i < Z.of_nat (length l) ->
  exists x, py_getitem l i = Normal x.
Proof.
  intros Hi. unfold py_getitem.
  destruct (norm_index_in_range _ _ Hi) as (j & -> & Hj).
  destruct (nth_error l j) as [x|] eqn:Hx; [now exists x|].
  apply nth_error_None in Hx. lia.
Qed.

Lemma py_setitem_in_range {A : Type} (l : list A) i v :
  - Z.of_nat (length l) <= i < Z.of_nat (length l) ->
  exists l', py_setitem l i v = Normal l' /\ length l' = length l.
Proof.
  intros Hi. unfold py_setitem.
  destruct (norm_index_in_range _ _ Hi) as (j & -> & Hj).
  eexists. split; [reflexivity|]. apply list_set_length.
Qed.

Lemma in_py_range a b x : In x (py_range a b) <-> a <= x < b.
Proof.
  unfold py_range. rewrite in_map_iff. split.
  - intros (k & <- & Hk). apply in_seq in Hk. lia.
  - intros Hx. exists (Z.to_nat (x - a)). split; [lia|].
    apply in_seq. lia.
Qed.

(** The invariant rule for a loop over any list. *)
Lemma for_each_inv {A S : Type} (I : S -> Prop)
      (body : A -> S -> result S) xs : forall s,
  (forall x s, In x xs -> I s -> exists s', body x s = Normal s' /\ I s') ->
  I s ->
  exists s', for_each xs s body = Normal s' /\ I s'.
Proof.
  induction xs as [|x xs IH]; intros s Hstep Hs; simpl.
  - now exists s.
  - destruct (Hstep x s) as (s1 & -> & H1); [now left | exact Hs |].
    simpl. apply IH; [|exact H1].
    intros y s0 Hy. apply Hstep. now right.
Qed.

(** ** [calculate_ema] for every period *)

Section EmaOutcomes.

Context {T : Type} {num : Number T}.

(** With [1 - period] prices or more, a period of -2 or less runs to the
    end: the seed lands on a position counted from the end, and so do
    the first [- period] iterations of the loop. *)
Lemma ema_negative_period_runs (prices : list T) (P : Z) :
  P <= -2 -> 1 - P <= Z.of_nat (length prices) ->
  exists ema, calculate_ema prices P = Normal ema
              /\ length ema = length prices.
Proof.
  intros HP HL. unfold calculate_ema.
  destruct (Z.ltb_spec (Z.of_nat (length prices)) P); [lia|].
  unfold truediv_int.
  destruct (Z.eqb_spec (P + 1) 0); [lia|].
  destruct (Z.eqb_spec P 0); [lia|]. simpl bind.
  destruct (py_setitem_in_range (repeat (of_int 0) (length prices)) (P - 1)
              (py_sum (slice_to prices P) /^ of_int P))
    as (ema0 & -> & Hlen0); [rewrite repeat_length; lia|].
  rewrite repeat_length in Hlen0. simpl bind.
  apply (for_each_inv (fun ema => length ema = length prices));
    [|exact Hlen0].
  intros i ema Hi Hlen. apply in_py_range in Hi.
  destruct (py_getitem_in_range prices i) as (p & ->); [lia|].
  destruct (py_getitem_in_range ema (i - 1)) as (e & ->); [lia|].
  simpl bind.
  destruct (py_setitem_in_range ema i (ema_step (of_int 2 /^ of_int (P + 1))
                                                p e))
    as (ema' & -> & Hlen'); [lia|].
  exists ema'. split; [reflexivity|]. congruence.
Qed.

Lemma ema_negative_period_short (prices : list T) (P : Z) :
  P <= -2 -> Z.of_nat (length prices) < 1 - P ->
  calculate_ema prices P = Raise IndexError.
Proof.
  intros HP HL. unfold calculate_ema.
  destruct (Z.ltb_spec (Z.of_nat (length prices)) P); [lia|].
  unfold truediv_int.
  destruct (Z.eqb_spec (P + 1) 0); [lia|].
  destruct (Z.eqb_spec P 0); [lia|]. simpl bind.
  unfold py_setitem. rewrite norm_index_out_of_range; [reflexivity|].
  rewrite repeat_length. lia.
Qed.

Lemma ema_period_minus_one_raises (prices : list T) :
  calculate_ema prices (-1) = Raise ZeroDivisionError.
Proof.
  unfold calculate_ema.
  destruct (Z.ltb_spec (Z.of_nat (length prices)) (-1)); [lia|].
  reflexivity.
Qed.

End EmaOutcomes.

(** X1. Every outcome of [calculate_ema], by period and number of prices:
    the empty series when the prices are fewer than the period; a series
    as long as the prices for a period of at least 1; ZeroDivisionError
    for the periods 0 and -1, whatever the prices; for a period of -2 or
    less, IndexError with fewer than [1 - period] prices and a series as
    long as the prices otherwise. *)
Theorem calculate_ema_outcomes {T : Type} {num : Number T}
        (prices : list T) (P : Z) :
  let L := Z.of_nat (length prices) in
  (L < P -> calculate_ema prices P = Normal [])
  /\ (1 <= P <= L ->
      exists ema, calculate_ema prices P = Normal ema
                  /\ length ema = length prices)
  /\ (P = 0 \/ P = -1 -> calculate_ema prices P = Raise ZeroDivisionError)
  /\ (P <= -2 -> L < 1 - P -> calculate_ema prices P = Raise IndexError)
  /\ (P <= -2 -> 1 - P <= L ->
      exists ema, calculate_ema prices P = Normal ema
                  /\ length ema = length prices).
Proof.
  intros L. subst L. split; [|split; [|split; [|split]]].
  - apply ema_short_series.
  - intros [H1 HL].
    destruct (ema_shape prices P H1 HL) as (ema & Hrun & Hlen & _).
    now exists ema.
  - intros [-> | ->];
      [apply calculate_ema_zero | apply ema_period_minus_one_raises].
  - apply ema_negative_period_short.
  - apply ema_negative_period_runs.
Qed.

Lemma calculate_ema_outcomes_witness :
  calculate_ema [1; 2; 3]%float 4 = Normal []
  /\ calculate_ema [1; 2]%float (-2) = Raise IndexError
  /\ exists ema, calculate_ema [1; 2; 3; 4]%float (-2) = Normal ema
                 /\ length ema = 4%nat.
Proof.
  destruct (calculate_ema_outcomes [1; 2; 3]%float 4) as (H1 & _).
  destruct (calculate_ema_outcomes [1; 2]%float (-2)) as (_ & _ & _ & H4 & _).
  destruct (calculate_ema_outcomes [1; 2; 3; 4]%float (-2))
    as (_ & _ & _ & _ & H5).
  split; [apply H1; simpl; lia|].
  split; [apply H4; simpl; lia|].
  apply H5; simpl; lia.
Defined.

(** ** Later prices do not reach back *)

Lemma ema_prefix_pointwise {T : Type} {num : Number T}
      (prices more : list T) (P : Z) ema ema' :
  1 <= P -> P <= Z.of_nat (length prices) ->
  calculate_ema prices P = Normal ema ->
  calculate_ema (prices ++ more) P = Normal ema' ->
  forall i, (i < length prices)%nat -> nth_error ema' i = nth_error ema i.
Proof.
  intros HP HL Hshort Hlong.
  destruct (ema_shape prices P HP HL)
    as (e0 & He0 & _ & Hseed & Hzero & Hrec).
  rewrite Hshort in He0. injection He0 as <-.
  destruct (ema_shape (prices ++ more) P HP)
    as (e1 & He1 & _ & Hseed' & Hzero' & Hrec');
    [rewrite length_app; lia|].
  rewrite Hlong in He1. injection He1 as <-.
  induction i as [i IH] using lt_wf_ind. intros Hi.
  destruct (Nat.lt_ge_cases i (Z.to_nat (P - 1))) as [Hlow|Hhigh].
  { now rewrite Hzero, Hzero'. }
  destruct (Nat.eq_dec i (Z.to_nat (P - 1))) as [->|Hne].
  { rewrite Hseed, Hseed'. do 2 f_equal.
    rewrite firstn_app.
    replace (Z.to_nat P - length prices)%nat with 0%nat by lia.
    simpl. apply app_nil_r. }
  destruct (Hrec i) as (p & e & Hp & He & ->); [lia|].
  destruct (Hrec' i) as (p' & e' & Hp' & He' & ->);
    [rewrite length_app; lia|].
  rewrite nth_error_app1 in Hp' by lia.
  rewrite IH in He' by lia. congruence.
Qed.

(** X2. For a period of at least 1 and at least that many prices, the
    series [calculate_ema] returns for the prices followed by any later
    ones starts with the series it returns for the prices alone: a value
    once computed is never revised by later candles. *)
Theorem calculate_ema_prefix_stable {T : Type} {num : Number T}
        (prices more : list T) (P : Z) :
  1 <= P -> P <= Z.of_nat (length prices) ->
  exists ema ema',
    calculate_ema prices P = Normal ema
    /\ calculate_ema (prices ++ more) P = Normal ema'
    /\ firstn (length prices) ema' = ema.
Proof.
  intros HP HL.
  destruct (ema_shape prices P HP HL) as (ema & Hs & Hlen & _).
  destruct (ema_shape (prices ++ more) P HP)
    as (ema' & Hl & Hlen' & _); [rewrite length_app; lia|].
  exists ema, ema'. split; [exact Hs|]. split; [exact Hl|].
  apply nth_error_ext. intros i. rewrite nth_error_firstn.
  destruct (Nat.ltb_spec i (length prices)) as [Hi|Hi].
  - now apply (ema_prefix_pointwise prices more P).
  - symmetry. apply nth_error_None. lia.
Qed.

Lemma calculate_ema_prefix_stable_witness :
  exists ema ema',
    calculate_ema [1; 2; 3; 4; 5]%float 3 = Normal ema
    /\ calculate_ema ([1; 2; 3; 4; 5] ++ [100; 0.5])%float 3 = Normal ema'
    /\ firstn 5 ema' = ema.
Proof.
  apply (calculate_ema_prefix_stable (T:=float) (num:=float_number)
           [1; 2; 3; 4; 5]%float [100; 0.5]%float 3);
    simpl; lia.
Defined.

(** ** The EMA stays within the prices, in exact arithmetic *)

Section EmaBounds.

Local Open Scope R_scope.

Lemma real_sum_between (lo hi : R) (l : list R) : forall a,
  Forall (fun p => lo <= p <= hi) l ->
  a + INR (length l) * lo <= fold_left Rplus l a <= a + INR (length l) * hi.
Proof.
  induction l as [|x l IH]; intros a Hl.
  - simpl. lra.
  - inversion Hl as [|? ? Hx Hl']; subst.
    specialize (IH (a + x) Hl').
    change (fold_left Rplus (x :: l) a) with (fold_left Rplus l (a + x)).
    change (length (x :: l)) with (S (length l)). rewrite S_INR. lra.
Qed.

Lemma real_mean_between (lo hi : R) (l : list R) :
  l <> [] -> Forall (fun p => lo <= p <= hi) l -> lo <= mean l <= hi.
Proof.
  intros Hne Hl. unfold mean, py_sum.
  cbn [nadd ndiv of_int real_number].
  pose proof (real_sum_between lo hi l 0 Hl) as Hs.
  rewrite <- INR_IZR_INZ.
  assert (Hn : 0 < INR (length l)).
  { apply lt_0_INR. destruct l; [contradiction|simpl; lia]. }
  set (n := INR (length l)) in *. set (s := fold_left Rplus l 0) in *.
  split.
  - apply (Rmult_le_reg_r n); [exact Hn|].
    unfold Rdiv. rewrite Rmult_assoc, Rinv_l by lra. lra.
  - apply (Rmult_le_reg_r n); [exact Hn|].
    unfold Rdiv. rewrite Rmult_assoc, Rinv_l by lra. lra.
Qed.

Lemma real_ema_step_between (lo hi k p e : R) :
  0 <= k <= 1 -> lo <= p <= hi -> lo <= e <= hi ->
  lo <= ema_step k p e <= hi.
Proof.
  intros Hk Hp He. unfold ema_step.
  cbn [nadd nsub nmul of_int real_number].
  assert (0 <= (p - lo) * k) by (apply Rmult_le_pos; lra).
  assert (0 <= (e - lo) * (1 - k)) by (apply Rmult_le_pos; lra).
  assert (0 <= (hi - p) * k) by (apply Rmult_le_pos; lra).
  assert (0 <= (hi - e) * (1 - k)) by (apply Rmult_le_pos; lra).
  lra.
Qed.

Lemma real_smoothing_factor (P : Z) :
  (1 <= P)%Z -> 0 <= 2 / IZR (P + 1) <= 1.
Proof.
  intros HP.
  assert (H2 : 2 <= IZR (P + 1)) by (apply IZR_le; lia).
  split.
  - apply Rmult_le_pos; [lra|].
    apply Rlt_le, Rinv_0_lt_compat. lra.
  - apply (Rmult_le_reg_r (IZR (P + 1))); [lra|].
    unfold Rdiv. rewrite Rmult_assoc, Rinv_l by lra. lra.
Qed.

End EmaBounds.

(** X3. In exact (real-number) arithmetic, for a period of at least 1:
    when every price lies between [lo] and [hi], so does every entry of
    the returned series from position [period - 1] on (the entries before
    it are the placeholder 0). *)
Theorem calculate_ema_between_extremes (prices : list R) (P : Z) (lo hi : R) :
  1 <= P -> P <= Z.of_nat (length prices) ->
  Forall (fun p => (lo <= p <= hi)%R) prices ->
  exists ema,
    calculate_ema prices P = Normal ema
    /\ forall i v, (Z.to_nat (P - 1) <= i)%nat ->
                   nth_error ema i = Some v -> (lo <= v <= hi)%R.
Proof.
  intros HP HL Hall.
  destruct (ema_shape prices P HP HL)
    as (ema & Hrun & Hlen & Hseed & _ & Hrec).
  exists ema. split; [exact Hrun|].
  induction i as [i IH] using lt_wf_ind. intros v Hi Hv.
  destruct (Nat.eq_dec i (Z.to_nat (P - 1))) as [->|Hne].
  - rewrite Hseed in Hv. injection Hv as <-.
    apply real_mean_between.
    + intros Hnil. apply (f_equal (@length R)) in Hnil.
      rewrite length_firstn in Hnil. simpl in Hnil. lia.
    + now apply Forall_prefix.
  - assert (Hi' : (i < length prices)%nat).
    { rewrite <- Hlen. apply nth_error_Some. congruence. }
    destruct (Hrec i) as (p & e & Hp & He & Hstep); [lia|].
    rewrite Hstep in Hv. injection Hv as <-.
    apply real_ema_step_between.
    + apply real_smoothing_factor, HP.
    + eapply (proj1 (Forall_forall _ _) Hall), nth_error_In, Hp.
    + apply (IH (i - 1)%nat); [lia | lia | exact He].
Qed.

Lemma calculate_ema_between_extremes_witness :
  exists ema,
    calculate_ema [3; 1; 2; 5; 4]%R 2 = Normal ema
    /\ forall i v, (Z.to_nat (2 - 1) <= i)%nat ->
                   nth_error ema i = Some v -> (1 <= v <= 5)%R.
Proof.
  apply (calculate_ema_between_extremes [3; 1; 2; 5; 4]%R 2 1 5).
  - lia.
  - simpl. lia.
  - repeat constructor; lra.
Defined.

(** ** The RSI of a longer series *)

Lemma for_each_ext_in {A S : Type} (f g : A -> S -> result S) xs :
  forall s,
  (forall x s, In x xs -> f x s = g x s) ->
  for_each xs s f = for_each xs s g.
Proof.
  induction xs as [|x xs IH]; intros s Hfg; simpl; [reflexivity|].
  rewrite Hfg by now left.
  destruct (g x s) as [s1|e]; simpl; [|reflexivity].
  apply IH. intros y s0 Hy. apply Hfg. now right.
Qed.

Lemma py_getitem_app1 {A : Type} (l more : list A) (i : Z) :
  0 <= i < Z.of_nat (length l) ->
  py_getitem (l ++ more) i = py_getitem l i.
Proof.
  intros Hi.
  destruct (nth_error l (Z.to_nat i)) as [x|] eqn:Hx;
    [|apply nth_error_None in Hx; lia].
  replace i with (Z.of_nat (Z.to_nat i)) by lia.
  rewrite (py_getitem_nat l _ x Hx).
  apply py_getitem_nat. rewrite nth_error_app1 by lia. exact Hx.
Qed.

Lemma slice_to_app1 {A : Type} (l more : list A) (stop : Z) :
  0 <= stop <= Z.of_nat (length l) ->
  slice_to (l ++ more) stop = slice_to l stop.
Proof.
  intros Hs. unfold slice_to.
  destruct (Z.ltb_spec stop 0); [lia|].
  rewrite firstn_app.
  replace (Z.to_nat stop - length l)%nat with 0%nat by lia.
  simpl. apply app_nil_r.
Qed.

Section RsiPrefix.

Context {T : Type} {num : Number T}.

Lemma changes_of_app (prices more : list T) :
  (1 <= length prices)%nat ->
  exists rest, changes_of (prices ++ more) = changes_of prices ++ rest.
Proof.
  intros Hne. unfold changes_of. rewrite length_app.
  replace (length prices + length more - 1)%nat
    with ((length prices - 1) + length more)%nat by lia.
  rewrite seq_app, map_app. eexists. f_equal.
  apply map_ext_in. intros i Hi. apply in_seq in Hi.
  rewrite !app_nth1 by lia. reflexivity.
Qed.

Lemma wilder_app1 (avg : T) (xs more : list T) (i period : Z) :
  0 <= i < Z.of_nat (length xs) ->
  wilder avg (xs ++ more) i period = wilder avg xs i period.
Proof.
  intros Hi. unfold wilder. now rewrite py_getitem_app1.
Qed.

Lemma rsi_body_app1 (gains losses gmore lmore : list T) period i st :
  0 <= i < Z.of_nat (length gains) -> length gains = length losses ->
  rsi_body (gains ++ gmore) (losses ++ lmore) period i st
  = rsi_body gains losses period i st.
Proof.
  intros Hi Hlen. unfold rsi_body.
  rewrite !wilder_app1 by lia. reflexivity.
Qed.

Lemma rsi_init_app1 (changes more : list T) (period : Z) :
  0 <= period <= Z.of_nat (length changes) ->
  rsi_init (changes ++ more) period
  = match rsi_init changes period with
    | Normal (gains, losses, st0) =>
        Normal (gains ++ map (fun c => py_max c (of_int 0)) more,
                losses ++ map (fun c => py_max (nneg c) (of_int 0)) more,
                st0)
    | Raise e => Raise e
    end.
Proof.
  intros HP. unfold rsi_init. rewrite !map_app.
  rewrite !slice_to_app1 by (rewrite length_map; lia).
  destruct (truediv_int _ period) as [ag|e]; simpl; [|reflexivity].
  destruct (truediv_int _ period) as [al|e]; reflexivity.
Qed.

Lemma rsi_init_lengths (changes : list T) period gains losses st0 :
  rsi_init changes period = Normal (gains, losses, st0) ->
  length gains = length changes /\ length losses = length changes
  /\ rsi st0 = [].
Proof.
  unfold rsi_init.
  destruct (truediv_int _ period) as [ag|e]; simpl; [|discriminate].
  destruct (truediv_int _ period) as [al|e]; simpl; [|discriminate].
  intros Hr. injection Hr as <- <- <-. now rewrite !length_map.
Qed.

(** The values [calculate_rsi] returns for the prices followed by later
    ones begin with the values it returns for the prices alone. *)
Lemma rsi_prefix (prices more : list T) (P : Z) out' :
  1 <= P -> P < Z.of_nat (length prices) ->
  calculate_rsi (prices ++ more) P = Normal out' ->
  calculate_rsi prices P = Normal (firstn (length prices - 1) out').
Proof.
  intros HP HL. unfold calculate_rsi. rewrite length_app.
  destruct (Z.leb_spec (Z.of_nat (length prices + length more)) P); [lia|].
  destruct (Z.leb_spec (Z.of_nat (length prices)) P); [lia|].
  rewrite !price_changes_ok. simpl bind.
  destruct (changes_of_app prices more) as (rest & ->); [lia|].
  rewrite rsi_init_app1 by (rewrite changes_of_length; lia).
  destruct (rsi_init (changes_of prices) P) as [[[gains losses] st0]|e]
    eqn:Hinit; simpl bind; [|discriminate].
  apply rsi_init_lengths in Hinit as (Hg & Hl & Hnil).
  set (gains' := gains ++ _). set (losses' := losses ++ _).
  rewrite length_app, Nat2Z.inj_add.
  set (n := length (changes_of prices)) in *.
  replace (py_range 0 (Z.of_nat n + Z.of_nat (length rest)))
    with (py_range 0 (Z.of_nat n)
          ++ py_range (Z.of_nat n) (Z.of_nat (n + length rest)))
    by (rewrite <- py_range_split by lia; f_equal; lia).
  rewrite for_each_app.
  rewrite (for_each_ext_in (rsi_body gains' losses' P)
                           (rsi_body gains losses P)).
  2: { intros i s Hi. apply in_py_range in Hi.
       apply rsi_body_app1; lia. }
  destruct (for_each (py_range 0 (Z.of_nat n)) st0 (rsi_body gains losses P))
    as [st|e] eqn:Hloop; simpl bind; [|discriminate].
  destruct (for_each _ st (rsi_body gains' losses' P)) as [st'|e] eqn:Hrest;
    simpl bind; [|discriminate].
  intros Hout. injection Hout as <-.
  apply rsi_loop_appends in Hrest as (tail & ->).
  apply (for_each_measure (fun s => length (rsi s))) in Hloop.
  2: { intros x s s' Hb. apply rsi_body_appends in Hb as (w & ->).
       rewrite length_app. simpl. lia. }
  rewrite Hnil, py_range_length in Hloop. simpl in Hloop.
  f_equal. unfold n in Hloop. rewrite changes_of_length in Hloop.
  replace (length prices - 1)%nat with (length (rsi st) + 0)%nat by lia.
  rewrite firstn_app_2. simpl. now rewrite app_nil_r.
Qed.

End RsiPrefix.

(** X4. For a period of at least 1 and more prices than the period:
    when [calculate_rsi] returns on the prices followed by later ones, it
    returns on the prices alone, and what it returns there is the
    beginning of the longer result; later candles never revise an RSI
    value. *)
Theorem calculate_rsi_prefix_stable {T : Type} {num : Number T}
        (prices more : list T) (P : Z) out' :
  1 <= P -> P < Z.of_nat (length prices) ->
  calculate_rsi (prices ++ more) P = Normal out' ->
  exists out,
    calculate_rsi prices P = Normal out
    /\ length out = (length prices - 1)%nat
    /\ out = firstn (length prices - 1) out'.
Proof.
  intros HP HL Hlong.
  pose proof (rsi_prefix prices more P out' HP HL Hlong) as Hshort.
  exists (firstn (length prices - 1) out').
  split; [exact Hshort|]. split; [|reflexivity].
  apply (calculate_rsi_length prices P); [exact Hshort | lia].
Qed.

Lemma calculate_rsi_prefix_stable_witness :
  exists out,
    calculate_rsi [1; 2; 1; 2]%float 2 = Normal out
    /\ length out = 3%nat
    /\ out = firstn 3 [50; 50; 75; 37.5; 68.75]%float.
Proof.
  apply (calculate_rsi_prefix_stable (T:=float) (num:=float_number)
           [1; 2; 1; 2]%float [1; 2]%float 2).
  - lia.
  - simpl. lia.
  - vm_compute. reflexivity.
Defined.

(** ** One-sided series, in exact arithmetic *)

Section RsiOneSided.

Local Open Scope R_scope.

Lemma nondecreasing_nth (prices : list R) :
  nondecreasing prices ->
  forall i, (1 <= i < length prices)%nat ->
            nth (i - 1) prices 0 <= nth i prices 0.
Proof.
  induction prices as [|a [|b rest] IH]; intros Hmon i Hi;
    simpl in Hi; try lia.
  destruct Hmon as [Hab Hrest].
  destruct i as [|[|i]]; [lia| exact Hab |].
  specialize (IH Hrest (S i)). simpl in IH. rewrite Nat.sub_0_r in IH.
  simpl. apply IH. lia.
Qed.

Lemma nonincreasing_nth (prices : list R) :
  nonincreasing prices ->
  forall i, (1 <= i < length prices)%nat ->
            nth i prices 0 <= nth (i - 1) prices 0.
Proof.
  induction prices as [|a [|b rest] IH]; intros Hmon i Hi;
    simpl in Hi; try lia.
  destruct Hmon as [Hab Hrest].
  destruct i as [|[|i]]; [lia| exact Hab |].
  specialize (IH Hrest (S i)). simpl in IH. rewrite Nat.sub_0_r in IH.
  simpl. apply IH. lia.
Qed.

Lemma real_max_of_nonpositive (c : R) : c <= 0 -> py_max c (of_int 0) = 0.
Proof.
  intros Hc. unfold py_max, ngtb. cbn [nltb of_int real_number].
  unfold Rltb. destruct (Rlt_dec c 0); [reflexivity|lra].
Qed.

Lemma real_losses_of_nondecreasing (prices : list R) :
  nondecreasing prices ->
  Forall (fun x => x = 0)
         (map (fun c => py_max (nneg c) (of_int 0)) (changes_of prices)).
Proof.
  intros Hmon. apply Forall_forall. intros x Hx.
  apply in_map_iff in Hx as (c & <- & Hc).
  unfold changes_of in Hc. apply in_map_iff in Hc as (i & <- & Hi).
  apply in_seq in Hi. apply real_max_of_nonpositive.
  cbn [nneg nsub of_int real_number].
  pose proof (nondecreasing_nth prices Hmon i ltac:(lia)). lra.
Qed.

Lemma real_gains_of_nonincreasing (prices : list R) :
  nonincreasing prices ->
  Forall (fun x => x = 0)
         (map (fun c => py_max c (of_int 0)) (changes_of prices)).
Proof.
  intros Hmon. apply Forall_forall. intros x Hx.
  apply in_map_iff in Hx as (c & <- & Hc).
  unfold changes_of in Hc. apply in_map_iff in Hc as (i & <- & Hi).
  apply in_seq in Hi. apply real_max_of_nonpositive.
  cbn [nsub of_int real_number].
  pose proof (nonincreasing_nth prices Hmon i ltac:(lia)). lra.
Qed.

Lemma Forall_all_repeat {A : Type} (v : A) (l : list A) :
  Forall (fun x => x = v) l -> l = repeat v (length l).
Proof.
  induction 1 as [|x l Hx _ IH]; simpl; [reflexivity|]. now f_equal.
Qed.

Variable P : Z.
Hypothesis HP : (1 <= P)%Z.

(** One iteration when no bar closed lower: the average loss stays 0 and
    the value appended is 100. *)
Lemma real_rsi_body_no_loss (gains losses : list R) (i : nat)
      (st : rsi_state) :
  Forall (fun x => 0 <= x) gains -> Forall (fun x => x = 0) losses ->
  length gains = length losses -> (i < length gains)%nat ->
  0 <= avg_gain st -> avg_loss st = 0 ->
  exists st',
    rsi_body gains losses P (Z.of_nat i) st = Normal st'
    /\ 0 <= avg_gain st' /\ avg_loss st' = 0
    /\ rsi st' = rsi st ++ [100].
Proof.
  intros Hg Hl Hlen Hi Hag Hal.
  assert (Hl' : Forall (fun x => 0 <= x) losses).
  { eapply Forall_impl; [|exact Hl]. intros x ->. simpl. lra. }
  destruct (real_rsi_body P HP gains losses i st)
    as (st' & v & Hb & Hg' & _ & Happ & _ & Hv & _); auto; [lra|].
  assert (Hz : avg_loss st' = 0).
  { revert Hb. unfold rsi_body.
    destruct (Z.of_nat i <? P)%Z.
    - simpl bind.
      destruct (rs_of _ _) as [rs|e]; simpl bind; [|discriminate].
      destruct (rsi_val_of rs) as [w|e]; simpl bind; [|discriminate].
      intros Hr. injection Hr as <-. exact Hal.
    - destruct (wilder (avg_gain st) gains (Z.of_nat i) P) as [ag|e];
        simpl bind; [|discriminate].
      destruct (nth_error losses i) as [l|] eqn:Hli;
        [|apply nth_error_None in Hli; lia].
      assert (Hl0 : l = 0)
        by (eapply (proj1 (Forall_forall _ _) Hl), nth_error_In, Hli).
      destruct (real_wilder (avg_loss st) losses i l P)
        as (al & -> & _ & Hal0); auto; [lra | lra |].
      simpl bind.
      destruct (rs_of _ _) as [rs|e]; simpl bind; [|discriminate].
      destruct (rsi_val_of rs) as [w|e]; simpl bind; [|discriminate].
      intros Hr. injection Hr as <-. simpl. now apply Hal0. }
  exists st'. split; [exact Hb|]. split; [exact Hg'|]. split; [exact Hz|].
  rewrite Happ, Hv by now left. reflexivity.
Qed.

Lemma real_rsi_loop_no_loss (changes : list R) :
  Forall (fun x => x = 0)
         (map (fun c => py_max (nneg c) (of_int 0)) changes) ->
  exists gains losses st0 st,
    rsi_init changes P = Normal (gains, losses, st0)
    /\ for_each (py_range 0 (Z.of_nat (length changes))) st0
                (rsi_body gains losses P) = Normal st
    /\ Forall (fun v => v = 100) (rsi st).
Proof.
  intros Hzero. unfold rsi_init.
  set (gains := map (fun c => py_max c (of_int 0)) changes).
  set (losses := map (fun c => py_max (nneg c) (of_int 0)) changes) in *.
  assert (Hg : Forall (fun x => 0 <= x) gains).
  { apply Forall_forall. intros x Hx. apply in_map_iff in Hx as (c & <- & _).
    apply real_gain_nonneg. }
  assert (Hl : Forall (fun x => 0 <= x) losses).
  { eapply Forall_impl; [|exact Hzero]. intros x ->. simpl. lra. }
  assert (Hlen : length gains = length losses)
    by (unfold gains, losses; now rewrite !length_map).
  destruct (real_seed gains P HP Hg) as (ag & -> & Hag & _).
  destruct (real_seed losses P HP Hl) as (al & -> & _ & Hal0). simpl.
  set (st0 := {| avg_gain := ag; avg_loss := al; rsi := [] |}).
  change 0%Z with (Z.of_nat 0). rewrite py_range_nat, Nat.sub_0_r.
  destruct (for_each_range_inv
              (fun (n : nat) (s : rsi_state) =>
                 0 <= avg_gain s /\ avg_loss s = 0
                 /\ Forall (fun v => v = 100) (rsi s))
              (rsi_body gains losses P) (length changes) 0%nat st0)
    as (st & Hrun & _ & _ & Hall).
  - intros i s Hi (Hsg & Hsl & Hsall).
    destruct (real_rsi_body_no_loss gains losses i s)
      as (s' & Hb & Hg' & Hl' & Happ); auto.
    { unfold gains. rewrite length_map. lia. }
    exists s'. split; [exact Hb|]. split; [exact Hg'|]. split; [exact Hl'|].
    rewrite Happ. apply Forall_app. split; [exact Hsall|].
    now repeat constructor.
  - unfold st0. simpl. split; [exact Hag|]. split; [now apply Hal0|].
    constructor.
  - exists gains, losses, st0, st. auto.
Qed.

End RsiOneSided.

(** X5. In exact (real-number) arithmetic, for a period of at least 1 and
    more prices than the period: on a series that never falls, and on one
    that never rises (a flat one among them), every value
    [calculate_rsi] returns is 100, so the indicator does not tell a
    rising market from a falling one. *)
Theorem calculate_rsi_one_sided_is_100 (prices : list R) (P : Z) :
  1 <= P -> P < Z.of_nat (length prices) ->
  nondecreasing prices \/ nonincreasing prices ->
  calculate_rsi prices P = Normal (repeat 100%R (length prices - 1)).
Proof.
  intros HP HL Hmon.
  destruct (real_rsi_spec prices P HP) as (out & Hrun & _ & Hrest).
  destruct (Hrest HL) as (Hlen & _ & _).
  rewrite Hrun. f_equal. rewrite <- Hlen. apply Forall_all_repeat.
  revert Hrun. unfold calculate_rsi.
  destruct (Z.leb_spec (Z.of_nat (length prices)) P); [lia|].
  rewrite price_changes_ok. simpl bind.
  destruct Hmon as [Hup|Hdown].
  - destruct (real_rsi_loop_no_loss P HP (changes_of prices))
      as (gains & losses & st0 & st & -> & Hloop & Hall);
      [now apply real_losses_of_nondecreasing|].
    simpl bind. rewrite Hloop. simpl bind.
    intros Hr. now injection Hr as <-.
  - destruct (real_rsi_loop P HP (changes_of prices)
                (length (changes_of prices)) (le_n _))
      as (gains & losses & st0 & st & Hinit & _ & Hloop & Hinv).
    rewrite Hinit. simpl bind. rewrite Hloop. simpl bind.
    intros Hr. injection Hr as <-.
    destruct Hinv as (_ & _ & _ & _ & Hzero). apply Hzero.
    unfold rsi_init in Hinit.
    destruct (truediv_int _ P) as [ag|e]; simpl in Hinit; [|discriminate].
    destruct (truediv_int _ P) as [al|e]; simpl in Hinit; [|discriminate].
    injection Hinit as <- _ _. now apply real_gains_of_nonincreasing.
Qed.

Lemma calculate_rsi_one_sided_is_100_witness :
  calculate_rsi [1; 2; 2; 5]%R 2 = Normal (repeat 100%R 3)
  /\ calculate_rsi [4; 4; 4]%R 1 = Normal (repeat 100%R 2).
Proof.
  split.
  - apply (calculate_rsi_one_sided_is_100 [1; 2; 2; 5]%R 2);
      [lia | simpl; lia | left; simpl; repeat split; lra].
  - apply (calculate_rsi_one_sided_is_100 [4; 4; 4]%R 1);
      [lia | simpl; lia | right; simpl; repeat split; lra].
Defined.

(** ** More on the scan *)

Lemma subsequence_length {A : Type} (xs ys : list A) :
  subsequence xs ys -> (length xs <= length ys)%nat.
Proof. induction 1; simpl; lia. Qed.

Lemma flat_map_single {A B : Type} (f : A -> B) (l : list A) :
  flat_map (fun x => [f x]) l = map f l.
Proof. induction l as [|x l IH]; simpl; [reflexivity|]. now rewrite IH. Qed.

Lemma flat_map_none {A B : Type} (l : list A) :
  flat_map (fun _ : A => @nil B) l = [].
Proof. induction l as [|x l IH]; simpl; auto. Qed.

Lemma calculate_rsi_zero {T : Type} {num : Number T} (prices : list T) :
  (1 <= length prices)%nat ->
  calculate_rsi prices 0 = Raise ZeroDivisionError.
Proof.
  intros Hne. unfold calculate_rsi.
  destruct (Z.leb_spec (Z.of_nat (length prices)) 0); [lia|].
  rewrite price_changes_ok. reflexivity.
Qed.

Section ScanMore.

Context {T : Type} {num : Number T}.
Variable World : Type.
Variable py_int : string -> result Z.
Variable round : T -> Z -> T.
Variable utcnow_isoformat : World -> string.
Variable get_binance_symbols : World -> result (list string) * World.
Variable get_bybit_symbols : World -> result (list string) * World.
Variable binance_klines :
  string -> string -> Z -> World -> result (list T) * World.
Variable bybit_klines :
  string -> string -> Z -> World -> result (list T) * World.

Local Abbreviation fetch := (fetch_klines World binance_klines bybit_klines).
Local Abbreviation process :=
  (process_symbol World round binance_klines bybit_klines).
Local Abbreviation scan :=
  (scan_loop World round binance_klines bybit_klines).
Local Abbreviation handle :=
  (handler World py_int round utcnow_isoformat get_binance_symbols
           get_bybit_symbols binance_klines bybit_klines).

(** What the analysis can do to the list of signals: nothing, or append
    one entry for the symbol at hand, and that only on closes that passed
    the gate of line 105. *)
Lemma analyse_closes_appends timeframe es el rp symbol
      (signals signals' : list Signal) (closes : list T) :
  analyse_closes round timeframe es el rp symbol signals closes
  = Normal signals' ->
  signals' = signals
  \/ exists signal,
       signals' = signals ++ [signal]
       /\ s_symbol signal = symbol
       /\ s_timeframe signal = timeframe
       /\ Z.max el rp + 10 <= Z.of_nat (length closes)
       /\ (2 <= length closes)%nat
       /\ (exists ema_s ema_l rsi_vals,
             calculate_ema closes es = Normal ema_s
             /\ calculate_ema closes el = Normal ema_l
             /\ calculate_rsi closes rp = Normal rsi_vals
             /\ length ema_s = length closes
             /\ length ema_l = length closes
             /\ fresh_crossover ema_s ema_l = Normal true
             /\ make_signal round symbol timeframe closes ema_s ema_l
                            rsi_vals = Normal signal).
Proof.
  unfold analyse_closes.
  destruct (Z.ltb_spec (Z.of_nat (length closes)) (Z.max el rp + 10))
    as [|Hgate].
  { intros Hr. injection Hr as <-. now left. }
  destruct (calculate_ema closes es) as [ema_s|e] eqn:Hes;
    simpl bind; [|discriminate].
  destruct (calculate_ema closes el) as [ema_l|e] eqn:Hel;
    simpl bind; [|discriminate].
  destruct (calculate_rsi closes rp) as [rsi_vals|e] eqn:Hrsi;
    simpl bind; [|discriminate].
  destruct (Nat.ltb_spec (length ema_s) 2).
  { intros Hr. injection Hr as <-. now left. }
  destruct (Nat.ltb_spec (length ema_l) 2).
  { intros Hr. injection Hr as <-. now left. }
  simpl orb. cbv iota.
  destruct (fresh_crossover ema_s ema_l) as [[|]|e] eqn:Hcross;
    simpl bind; cbv iota; try discriminate.
  2: { intros Hr. injection Hr as <-. now left. }
  assert (Hls : length ema_s = length closes).
  { destruct (calculate_ema_length closes es ema_s Hes) as [->|Hs];
      [simpl in *; lia | exact Hs]. }
  assert (Hll : length ema_l = length closes).
  { destruct (calculate_ema_length closes el ema_l Hel) as [->|Hl];
      [simpl in *; lia | exact Hl]. }
  destruct (make_signal_ok round symbol timeframe closes ema_s ema_l rsi_vals)
    as (price & s1 & l1 & r & _ & _ & _ & _ & _ & Hmake); try lia.
  rewrite Hmake. simpl bind. intros Hres. injection Hres as <-. right.
  eexists. split; [reflexivity|]. simpl.
  repeat (split; [auto; lia|]). exists ema_s, ema_l, rsi_vals.
  repeat (split; [first [reflexivity | assumption]|]). exact Hmake.
Qed.

(** What one call of [fetch_klines] asks of the exchange. *)
Lemma fetch_klines_calls exchange symbol interval limit (st : state World) :
  calls (snd (fetch exchange symbol interval limit st))
  = calls st ++
    (if String.eqb exchange "binance"
     then [Klines exchange symbol interval limit]
     else if String.eqb exchange "bybit"
     then [Klines exchange symbol
                  match dict_get bybit_interval_map interval with
                  | Some v => v
                  | None => interval
                  end limit]
     else []).
Proof.
  unfold fetch_klines. destruct (String.eqb exchange "binance").
  - unfold remote.
    destruct (binance_klines symbol interval limit (world st)); reflexivity.
  - destruct (String.eqb exchange "bybit").
    + cbv zeta. unfold remote.
      destruct (bybit_klines symbol _ limit (world st)); reflexivity.
    + unfold ret. simpl. now rewrite app_nil_r.
Qed.

(** What one call of [fetch_klines] returns. *)
Lemma fetch_klines_result exchange symbol interval limit (st : state World) :
  fst (fetch exchange symbol interval limit st)
  = if String.eqb exchange "binance"
    then fst (binance_klines symbol interval limit (world st))
    else if String.eqb exchange "bybit"
    then fst (bybit_klines symbol
                match dict_get bybit_interval_map interval with
                | Some v => v
                | None => interval
                end limit (world st))
    else Normal [].
Proof.
  unfold fetch_klines. destruct (String.eqb exchange "binance").
  - unfold remote.
    destruct (binance_klines symbol interval limit (world st)); reflexivity.
  - destruct (String.eqb exchange "bybit").
    + cbv zeta. unfold remote.
      destruct (bybit_klines symbol _ limit (world st)); reflexivity.
    + reflexivity.
Qed.

Lemma scan_loop_calls exchange timeframe es el rp symbols :
  forall (signals : list Signal) (st : state World),
  calls (snd (scan exchange timeframe es el rp symbols signals st))
  = calls st ++
    flat_map (fun symbol =>
                if String.eqb exchange "binance"
                then [Klines exchange symbol timeframe 100]
                else if String.eqb exchange "bybit"
                then [Klines exchange symbol
                             match dict_get bybit_interval_map timeframe with
                             | Some v => v
                             | None => timeframe
                             end 100]
                else []) symbols.
Proof.
  induction symbols as [|x rest IH]; intros signals st; simpl.
  - now rewrite app_nil_r.
  - unfold bindM. rewrite process_symbol_eq, IH. cbn [snd].
    rewrite fetch_klines_calls. now rewrite <- app_assoc.
Qed.

(** The signals a scan adds name symbols of its list, in the order of the
    list and at most one each, with the timeframe of the scan. *)
Lemma scan_loop_symbols exchange timeframe es el rp symbols :
  forall (signals signals' : list Signal) (st st' : state World),
  scan exchange timeframe es el rp symbols signals st
  = (Normal signals', st') ->
  exists new,
    signals' = signals ++ new
    /\ subsequence (map s_symbol new) symbols
    /\ Forall (fun s => s_timeframe s = timeframe) new.
Proof.
  induction symbols as [|x rest IH]; intros signals signals' st st' Hrun;
    simpl in Hrun.
  - unfold ret in Hrun. injection Hrun as <- _. exists [].
    rewrite app_nil_r. repeat split; constructor.
  - unfold bindM in Hrun. rewrite process_symbol_eq in Hrun.
    apply IH in Hrun as (new & -> & Hsub & Hall).
    destruct (fst (fetch exchange x timeframe 100 st)) as [closes|e].
    2: { exists new. repeat split; auto. now constructor. }
    destruct (analyse_closes round timeframe es el rp x signals closes)
      as [s1|e] eqn:Ha.
    2: { exists new. repeat split; auto. now constructor. }
    apply analyse_closes_appends in Ha
      as [->|(signal & -> & Hsym & Htf & _)].
    + exists new. repeat split; auto. now constructor.
    + exists (signal :: new). rewrite <- app_assoc. split; [reflexivity|].
      split; [|now constructor].
      simpl. rewrite Hsym. now constructor.
Qed.

(** A property of the signals that every iteration preserves, given the
    closes its fetch returned, holds of the whole scan. *)
Lemma scan_loop_preserves_fetched (Q : list Signal -> Prop)
      exchange timeframe es el rp :
  (forall symbol signals (st : state World) closes signals',
      Q signals ->
      fst (fetch exchange symbol timeframe 100 st) = Normal closes ->
      analyse_closes round timeframe es el rp symbol signals closes
      = Normal signals' -> Q signals') ->
  forall symbols signals (st : state World),
    Q signals ->
    exists signals' st',
      scan exchange timeframe es el rp symbols signals st
      = (Normal signals', st')
      /\ Q signals'.
Proof.
  intros Hstep. induction symbols as [|x rest IH]; intros signals st HQ;
    simpl.
  - exists signals, st. now split.
  - unfold bindM. rewrite process_symbol_eq. apply IH.
    destruct (fst (fetch exchange x timeframe 100 st)) as [closes|e] eqn:Hf;
      [|exact HQ].
    destruct (analyse_closes round timeframe es el rp x signals closes)
      as [s'|e] eqn:Ha; [|exact HQ].
    eapply Hstep; eassumption.
Qed.

(** The response to a request with a parameter that [int] rejects. *)
Lemma handler_bad_parameter event (st : state World) e :
  int_param py_int (query_of event) "emaShort" 9 = Raise e
  \/ (exists es,
        int_param py_int (query_of event) "emaShort" 9 = Normal es
        /\ int_param py_int (query_of event) "emaLong" 26 = Raise e)
  \/ (exists es el,
        int_param py_int (query_of event) "emaShort" 9 = Normal es
        /\ int_param py_int (query_of event) "emaLong" 26 = Normal el
        /\ int_param py_int (query_of event) "rsiPeriod" 14 = Raise e) ->
  handle event st
  = ({| statusCode := 500;
        headers := [("Content-Type", "application/json")]%string;
        body := FailureBody e |}, st).
Proof.
  unfold handler, handler_body.
  intros [Hes | [(es & Hes & Hel) | (es & el & Hes & Hel & Hrp)]].
  - unfold bindM at 1. unfold lift at 1. now rewrite Hes.
  - unfold bindM at 1. unfold lift at 1. rewrite Hes.
    unfold bindM at 1. unfold lift at 1. now rewrite Hel.
  - unfold bindM at 1. unfold lift at 1. rewrite Hes.
    unfold bindM at 1. unfold lift at 1. rewrite Hel.
    unfold bindM at 1. unfold lift at 1. now rewrite Hrp.
Qed.

(** The response of a request that passed the validation and got its
    symbol list, from what the scan of the list returns. *)
Lemma handler_scan event (st : state World) es el rp symbols :
  int_param py_int (query_of event) "emaShort" 9 = Normal es ->
  int_param py_int (query_of event) "emaLong" 26 = Normal el ->
  int_param py_int (query_of event) "rsiPeriod" 14 = Normal rp ->
  es < el ->
  let exchange := str_param (query_of event) "exchange" "binance" in
  let timeframe := str_param (query_of event) "timeframe" "1m" in
  let source := if String.eqb exchange "binance"
                then get_binance_symbols else get_bybit_symbols in
  let name := if String.eqb exchange "binance"
              then "binance"%string else "bybit"%string in
  let st1 := {| world := snd (source (world st));
                calls := calls st ++ [SymbolList name] |} in
  fst (source (world st)) = Normal symbols ->
  exists signals st2,
    scan exchange timeframe es el rp (firstn 50 symbols) [] st1
    = (Normal signals, st2)
    /\ handle event st
       = ({| statusCode := 200;
             headers := [("Content-Type", "application/json");
                         ("Access-Control-Allow-Origin", "*")]%string;
             body := ScanBody signals (Z.of_nat (length signals))
                              (utcnow_isoformat (world st2) ++ "Z") |},
          st2).
Proof.
  intros Hes Hel Hrp Hlt exchange timeframe source name st1 Hsym.
  pose proof (handler_eq World py_int round utcnow_isoformat
                get_binance_symbols get_bybit_symbols binance_klines
                bybit_klines event st es el rp Hes Hel Hrp) as Heq.
  cbv zeta in Heq. fold exchange timeframe source name st1 in Heq.
  rewrite Heq. clear Heq.
  destruct (Z.leb_spec el es); [lia|].
  rewrite Hsym.
  destruct (scan_loop_total World round binance_klines bybit_klines
              exchange timeframe es el rp (firstn 50 symbols) [] st1)
    as (signals & st2 & Hscan).
  exists signals, st2. split; [exact Hscan|]. now rewrite Hscan.
Qed.

(** A response with a scan body comes from parameters that parsed and
    passed the validation, a symbol list that was fetched, and the scan
    of its first 50 entries. *)
Lemma scan_body_inversion event (st : state World) signals count timestamp :
  body (fst (handle event st)) = ScanBody signals count timestamp ->
  let exchange := str_param (query_of event) "exchange" "binance" in
  let timeframe := str_param (query_of event) "timeframe" "1m" in
  let source := if String.eqb exchange "binance"
                then get_binance_symbols else get_bybit_symbols in
  let name := if String.eqb exchange "binance"
              then "binance"%string else "bybit"%string in
  let st1 := {| world := snd (source (world st));
                calls := calls st ++ [SymbolList name] |} in
  exists es el rp symbols st2,
    int_param py_int (query_of event) "emaShort" 9 = Normal es
    /\ int_param py_int (query_of event) "emaLong" 26 = Normal el
    /\ int_param py_int (query_of event) "rsiPeriod" 14 = Normal rp
    /\ es < el
    /\ fst (source (world st)) = Normal symbols
    /\ scan exchange timeframe es el rp (firstn 50 symbols) [] st1
       = (Normal signals, st2)
    /\ statusCode (fst (handle event st)) = 200
    /\ count = Z.of_nat (length signals).
Proof.
  intros Hbody exchange timeframe source name st1.
  destruct (int_param py_int (query_of event) "emaShort" 9) as [es|e]
    eqn:Hes.
  2: { rewrite (handler_bad_parameter event st e) in Hbody by now left.
       discriminate. }
  destruct (int_param py_int (query_of event) "emaLong" 26) as [el|e]
    eqn:Hel.
  2: { rewrite (handler_bad_parameter event st e) in Hbody
         by (right; left; eauto).
       discriminate. }
  destruct (int_param py_int (query_of event) "rsiPeriod" 14) as [rp|e]
    eqn:Hrp.
  2: { rewrite (handler_bad_parameter event st e) in Hbody
         by (right; right; eauto).
       discriminate. }
  pose proof (handler_eq World py_int round utcnow_isoformat
                get_binance_symbols get_bybit_symbols binance_klines
                bybit_klines event st es el rp Hes Hel Hrp) as Heq.
  cbv zeta in Heq. fold exchange timeframe source name st1 in Heq.
  rewrite Heq in Hbody |- *. clear Heq.
  destruct (Z.leb_spec el es); [discriminate|].
  destruct (fst (source (world st))) as [symbols|e]; [|discriminate].
  destruct (scan exchange timeframe es el rp (firstn 50 symbols) [] st1)
    as [[sigs|e] st2] eqn:Hscan; [|discriminate].
  cbn [fst body statusCode] in Hbody |- *.
  injection Hbody as -> <- _.
  exists es, el, rp, symbols, st2. repeat split; auto.
Qed.

End ScanMore.

Section ScanProperties.

Context {T : Type} {num : Number T}.
Variable World : Type.
Variable py_int : string -> result Z.
Variable round : T -> Z -> T.
Variable utcnow_isoformat : World -> string.
Variable get_binance_symbols : World -> result (list string) * World.
Variable get_bybit_symbols : World -> result (list string) * World.
Variable binance_klines :
  string -> string -> Z -> World -> result (list T) * World.
Variable bybit_klines :
  string -> string -> Z -> World -> result (list T) * World.

Local Abbreviation fetch := (fetch_klines World binance_klines bybit_klines).
Local Abbreviation scan :=
  (scan_loop World round binance_klines bybit_klines).
Local Abbreviation handle :=
  (handler World py_int round utcnow_isoformat get_binance_symbols
           get_bybit_symbols binance_klines bybit_klines).

(** X6. The remote calls of a request that passed the validation.  The
    symbol list is asked for once, of Binance when the exchange is
    ["binance"] and of Bybit otherwise.  When that call raises, the
    response is the 500 one with its exception and nothing else was
    requested.  When it returns, candles are requested once for each of
    the first 50 symbols, in the order of the list, with limit 100 and,
    on Bybit, the interval of the Bybit table, whether or not earlier
    symbols failed; for an exchange that is neither, no candles are
    requested.  A request makes 51 remote calls at most. *)
Theorem handler_requests event (st : state World) es el rp :
  int_param py_int (query_of event) "emaShort" 9 = Normal es ->
  int_param py_int (query_of event) "emaLong" 26 = Normal el ->
  int_param py_int (query_of event) "rsiPeriod" 14 = Normal rp ->
  es < el ->
  let exchange := str_param (query_of event) "exchange" "binance" in
  let timeframe := str_param (query_of event) "timeframe" "1m" in
  let source := if String.eqb exchange "binance"
                then get_binance_symbols else get_bybit_symbols in
  let name := if String.eqb exchange "binance"
              then "binance"%string else "bybit"%string in
  let interval := match dict_get bybit_interval_map timeframe with
                  | Some v => v
                  | None => timeframe
                  end in
  (forall e,
      fst (source (world st)) = Raise e ->
      handle event st
      = ({| statusCode := 500;
            headers := [("Content-Type", "application/json")]%string;
            body := FailureBody e |},
         {| world := snd (source (world st));
            calls := calls st ++ [SymbolList name] |}))
  /\ (forall symbols,
        fst (source (world st)) = Normal symbols ->
        calls (snd (handle event st))
        = calls st ++ SymbolList name ::
          (if String.eqb exchange "binance"
           then map (fun symbol => Klines exchange symbol timeframe 100)
                    (firstn 50 symbols)
           else if String.eqb exchange "bybit"
           then map (fun symbol => Klines exchange symbol interval 100)
                    (firstn 50 symbols)
           else []))
  /\ (length (calls (snd (handle event st))) <= length (calls st) + 51)%nat.
Proof.
  intros Hes Hel Hrp Hlt exchange timeframe source name interval.
  assert (Hfail : forall e,
             fst (source (world st)) = Raise e ->
             handle event st
             = ({| statusCode := 500;
                   headers := [("Content-Type", "application/json")]%string;
                   body := FailureBody e |},
                {| world := snd (source (world st));
                   calls := calls st ++ [SymbolList name] |})).
  { intros e He.
    pose proof (handler_eq World py_int round utcnow_isoformat
                  get_binance_symbols get_bybit_symbols binance_klines
                  bybit_klines event st es el rp Hes Hel Hrp) as Heq.
    cbv zeta in Heq. fold exchange timeframe source name in Heq.
    rewrite Heq. destruct (Z.leb_spec el es); [lia|]. now rewrite He. }
  assert (Hok : forall symbols,
             fst (source (world st)) = Normal symbols ->
             calls (snd (handle event st))
             = calls st ++ SymbolList name ::
               (if String.eqb exchange "binance"
                then map (fun symbol => Klines exchange symbol timeframe 100)
                         (firstn 50 symbols)
                else if String.eqb exchange "bybit"
                then map (fun symbol => Klines exchange symbol interval 100)
                         (firstn 50 symbols)
                else [])).
  { intros symbols Hsym.
    destruct (handler_scan World py_int round utcnow_isoformat
                get_binance_symbols get_bybit_symbols binance_klines
                bybit_klines event st es el rp symbols Hes Hel Hrp Hlt Hsym)
      as (signals & st2 & Hscan & ->).
    fold exchange timeframe source name in Hscan.
    cbn [snd]. apply (f_equal (fun r => calls (snd r))) in Hscan.
    rewrite scan_loop_calls in Hscan. cbn [snd calls] in Hscan.
    rewrite <- Hscan, <- app_assoc. f_equal. simpl. f_equal.
    destruct (String.eqb exchange "binance"); [apply flat_map_single|].
    destruct (String.eqb exchange "bybit");
      [apply flat_map_single | apply flat_map_none]. }
  split; [exact Hfail|]. split; [exact Hok|].
  destruct (fst (source (world st))) as [symbols|e] eqn:Hsrc.
  - rewrite (Hok symbols eq_refl), length_app.
    assert (Hfirst : (length (firstn 50 symbols) <= 50)%nat)
      by (rewrite length_firstn; lia).
    set (first50 := firstn 50 symbols) in *. cbn [length].
    destruct (String.eqb exchange "binance"); [rewrite length_map; lia|].
    destruct (String.eqb exchange "bybit");
      [rewrite length_map; lia | simpl; lia].
  - rewrite (Hfail e eq_refl). cbn [snd calls].
    rewrite length_app. simpl. lia.
Qed.

(** X7. Whenever the response carries a scan body, the symbol list was
    fetched, the status is 200, [count] is the number of signals, there
    are at most 50 of them, their symbols are symbols of the first 50 of
    the list, in the order of the list and each at most as often as the
    list has it, and each signal carries the timeframe of the request. *)
Theorem signals_follow_symbol_list event (st : state World)
        signals count timestamp :
  body (fst (handle event st)) = ScanBody signals count timestamp ->
  let exchange := str_param (query_of event) "exchange" "binance" in
  let timeframe := str_param (query_of event) "timeframe" "1m" in
  let source := if String.eqb exchange "binance"
                then get_binance_symbols else get_bybit_symbols in
  exists symbols,
    fst (source (world st)) = Normal symbols
    /\ statusCode (fst (handle event st)) = 200
    /\ count = Z.of_nat (length signals)
    /\ (length signals <= 50)%nat
    /\ subsequence (map s_symbol signals) (firstn 50 symbols)
    /\ Forall (fun s => s_timeframe s = timeframe) signals.
Proof.
  intros Hbody exchange timeframe source.
  destruct (scan_body_inversion World py_int round utcnow_isoformat
              get_binance_symbols get_bybit_symbols binance_klines
              bybit_klines event st signals count timestamp Hbody)
    as (es & el & rp & symbols & st2 & _ & _ & _ & _ & Hsym & Hscan
        & Hstatus & Hcount).
  fold exchange timeframe source in Hsym, Hscan.
  exists symbols. split; [exact Hsym|]. split; [exact Hstatus|].
  split; [exact Hcount|].
  apply scan_loop_symbols in Hscan as (new & -> & Hsub & Hall).
  simpl app. split; [|split; assumption].
  apply subsequence_length in Hsub.
  rewrite length_map, length_firstn in Hsub. lia.
Qed.

(** X8. A request with a numeric parameter that [int] rejects gets the
    500 response with the exception of the first such parameter, in the
    order emaShort, emaLong, rsiPeriod, and the state comes back
    untouched: nothing was requested from an exchange.  This comes before
    the comparison of the two EMA periods, so a request that would also
    fail the validation gets 500, not 400. *)
Theorem bad_parameter_is_500 event (st : state World) e :
  let failure := ({| statusCode := 500;
                     headers := [("Content-Type", "application/json")]%string;
                     body := FailureBody e |}, st) in
  (int_param py_int (query_of event) "emaShort" 9 = Raise e ->
   handle event st = failure)
  /\ (forall es,
        int_param py_int (query_of event) "emaShort" 9 = Normal es ->
        int_param py_int (query_of event) "emaLong" 26 = Raise e ->
        handle event st = failure)
  /\ (forall es el,
        int_param py_int (query_of event) "emaShort" 9 = Normal es ->
        int_param py_int (query_of event) "emaLong" 26 = Normal el ->
        int_param py_int (query_of event) "rsiPeriod" 14 = Raise e ->
        handle event st = failure).
Proof.
  intros failure. unfold failure. split; [|split].
  - intros Hes. apply handler_bad_parameter. now left.
  - intros es Hes Hel. apply handler_bad_parameter. right. left. eauto.
  - intros es el Hes Hel Hrp. apply handler_bad_parameter.
    right. right. eauto.
Qed.

(** X9. A request for an exchange that is neither ["binance"] nor
    ["bybit"], once it passed the validation: the symbol list of Bybit
    is fetched, [fetch_klines] hands back an empty list for every symbol
    without asking anyone, and the response is the 200 one with no
    signals and count 0, whatever the list held. *)
Theorem unknown_exchange_scans_nothing event (st : state World)
        es el rp symbols w1 :
  int_param py_int (query_of event) "emaShort" 9 = Normal es ->
  int_param py_int (query_of event) "emaLong" 26 = Normal el ->
  int_param py_int (query_of event) "rsiPeriod" 14 = Normal rp ->
  es < el ->
  let exchange := str_param (query_of event) "exchange" "binance" in
  String.eqb exchange "binance" = false ->
  String.eqb exchange "bybit" = false ->
  get_bybit_symbols (world st) = (Normal symbols, w1) ->
  handle event st
  = ({| statusCode := 200;
        headers := [("Content-Type", "application/json");
                    ("Access-Control-Allow-Origin", "*")]%string;
        body := ScanBody [] 0 (utcnow_isoformat w1 ++ "Z") |},
     {| world := w1; calls := calls st ++ [SymbolList "bybit"] |}).
Proof.
  intros Hes Hel Hrp Hlt exchange Hbin Hbyb Hsym.
  destruct (handler_scan World py_int round utcnow_isoformat
              get_binance_symbols get_bybit_symbols binance_klines
              bybit_klines event st es el rp symbols Hes Hel Hrp Hlt)
    as (signals & st2 & Hscan & ->).
  { fold exchange. rewrite Hbin, Hsym. reflexivity. }
  fold exchange in Hscan. rewrite Hbin, Hsym in Hscan. cbn [snd] in Hscan.
  set (timeframe := str_param (query_of event) "timeframe" "1m") in *.
  set (st1 := {| world := w1; calls := calls st ++ [SymbolList "bybit"] |})
    in *.
  assert (Hidle : forall l sigs (s : state World),
             scan exchange timeframe es el rp l sigs s = (Normal sigs, s)).
  { induction l as [|x l IH]; intros sigs s; simpl; [reflexivity|].
    unfold bindM. rewrite process_symbol_eq.
    assert (Hf : fetch exchange x timeframe 100 s = (Normal [], s)).
    { unfold fetch_klines. now rewrite Hbin, Hbyb. }
    rewrite Hf. cbn [fst snd].
    destruct (analyse_closes round timeframe es el rp x sigs [])
      as [s'|e] eqn:Ha; [|apply IH].
    apply analyse_closes_appends in Ha
      as [->|(signal & _ & _ & _ & _ & Hlen & _)]; [apply IH|].
    simpl in Hlen. lia. }
  rewrite Hidle in Hscan. injection Hscan as <- <-. reflexivity.
Qed.

(** X10. Candles are asked for with limit 100.  If the exchange honours
    it, answering with 100 closes at most, then a request whose
    [emaLong] or [rsiPeriod] is 91 or more finds no symbol with the
    [max(emaLong, rsiPeriod) + 10] closes it wants: once it passed the
    validation and got its symbol list, the response is the 200 one with
    no signals and count 0. *)
Theorem long_periods_scan_nothing event (st : state World) es el rp symbols :
  (forall symbol interval w closes,
      fst (binance_klines symbol interval 100 w) = Normal closes ->
      (length closes <= 100)%nat) ->
  (forall symbol interval w closes,
      fst (bybit_klines symbol interval 100 w) = Normal closes ->
      (length closes <= 100)%nat) ->
  int_param py_int (query_of event) "emaShort" 9 = Normal es ->
  int_param py_int (query_of event) "emaLong" 26 = Normal el ->
  int_param py_int (query_of event) "rsiPeriod" 14 = Normal rp ->
  es < el ->
  91 <= Z.max el rp ->
  let exchange := str_param (query_of event) "exchange" "binance" in
  fst ((if String.eqb exchange "binance"
        then get_binance_symbols else get_bybit_symbols) (world st))
  = Normal symbols ->
  exists timestamp,
    fst (handle event st)
    = {| statusCode := 200;
         headers := [("Content-Type", "application/json");
                     ("Access-Control-Allow-Origin", "*")]%string;
         body := ScanBody [] 0 timestamp |}.
Proof.
  intros Hbin Hbyb Hes Hel Hrp Hlt Hlong exchange Hsym.
  destruct (handler_scan World py_int round utcnow_isoformat
              get_binance_symbols get_bybit_symbols binance_klines
              bybit_klines event st es el rp symbols Hes Hel Hrp Hlt Hsym)
    as (signals & st2 & Hscan & ->).
  fold exchange in Hscan.
  match type of Hscan with
  | scan _ ?tf _ _ _ ?l _ ?s = _ =>
      destruct (scan_loop_preserves_fetched World round binance_klines
                  bybit_klines (fun sg => sg = []) exchange tf es el rp)
        with (symbols := l) (signals := @nil (@Signal T)) (st := s)
        as (signals' & st' & Hscan' & ->); [|reflexivity|]
  end.
  - intros symbol sg s closes sg' -> Hf Ha.
    apply analyse_closes_appends in Ha
      as [->|(signal & _ & _ & _ & Hgate & _)]; [reflexivity|].
    rewrite fetch_klines_result in Hf.
    assert (length closes <= 100)%nat; [|lia].
    destruct (String.eqb exchange "binance"); [eapply Hbin, Hf|].
    destruct (String.eqb exchange "bybit"); [eapply Hbyb, Hf|].
    injection Hf as <-. simpl. lia.
  - rewrite Hscan in Hscan'. injection Hscan' as -> _.
    eexists. reflexivity.
Qed.

(** X11. The periods that make an indicator divide by zero, besides
    [emaShort = 0]: with [emaShort = -1], with [emaLong] 0 or -1, or with
    [rsiPeriod = 0], every symbol that has enough closes raises in the
    computation and is skipped, so a request that passed the validation
    and got its symbol list gets the 200 response with no signals and
    count 0, whatever the market data. *)
Theorem dividing_periods_scan_nothing event (st : state World)
        es el rp symbols :
  int_param py_int (query_of event) "emaShort" 9 = Normal es ->
  int_param py_int (query_of event) "emaLong" 26 = Normal el ->
  int_param py_int (query_of event) "rsiPeriod" 14 = Normal rp ->
  es < el ->
  es = -1 \/ el = 0 \/ el = -1 \/ rp = 0 ->
  let exchange := str_param (query_of event) "exchange" "binance" in
  fst ((if String.eqb exchange "binance"
        then get_binance_symbols else get_bybit_symbols) (world st))
  = Normal symbols ->
  (forall (closes : list T),
      Z.max el rp + 10 <= Z.of_nat (length closes) ->
      forall timeframe symbol signals,
      exists e, analyse_closes round timeframe es el rp symbol signals closes
                = Raise e)
  /\ exists timestamp,
       fst (handle event st)
       = {| statusCode := 200;
            headers := [("Content-Type", "application/json");
                        ("Access-Control-Allow-Origin", "*")]%string;
            body := ScanBody [] 0 timestamp |}.
Proof.
  intros Hes Hel Hrp Hlt Hzero exchange Hsym.
  assert (Hraise : forall closes : list T,
             (1 <= length closes)%nat ->
             (exists e, calculate_ema closes es = Raise e)
             \/ (exists e, calculate_ema closes el = Raise e)
             \/ (exists e, calculate_rsi closes rp = Raise e)).
  { intros closes Hne.
    destruct Hzero as [-> | [-> | [-> | ->]]].
    - left. eexists. apply ema_period_minus_one_raises.
    - right. left. eexists. apply calculate_ema_zero.
    - right. left. eexists. apply ema_period_minus_one_raises.
    - right. right. eexists. now apply calculate_rsi_zero. }
  assert (Hgate10 : forall closes : list T,
             Z.max el rp + 10 <= Z.of_nat (length closes) ->
             (1 <= length closes)%nat).
  { intros closes Hg. destruct Hzero as [-> | [-> | [-> | ->]]]; lia. }
  split.
  - intros closes Hg timeframe symbol signals.
    destruct (analyse_closes round timeframe es el rp symbol signals closes)
      as [sg|e] eqn:Ha; [|now exists e].
    exfalso.
    assert (Hcalc : exists ema_s ema_l rsi_vals,
               calculate_ema closes es = Normal ema_s
               /\ calculate_ema closes el = Normal ema_l
               /\ calculate_rsi closes rp = Normal rsi_vals).
    { revert Ha. unfold analyse_closes.
      destruct (Z.ltb_spec (Z.of_nat (length closes)) (Z.max el rp + 10));
        [lia|].
      destruct (calculate_ema closes es) as [ema_s|e]; simpl bind;
        [|discriminate].
      destruct (calculate_ema closes el) as [ema_l|e]; simpl bind;
        [|discriminate].
      destruct (calculate_rsi closes rp) as [rsi_vals|e]; simpl bind;
        [|discriminate].
      intros _. now exists ema_s, ema_l, rsi_vals. }
    destruct Hcalc as (ema_s & ema_l & rsi_vals & H1 & H2 & H3).
    destruct (Hraise closes (Hgate10 closes Hg))
      as [(e & He) | [(e & He) | (e & He)]]; congruence.
  - destruct (handler_scan World py_int round utcnow_isoformat
                get_binance_symbols get_bybit_symbols binance_klines
                bybit_klines event st es el rp symbols Hes Hel Hrp Hlt Hsym)
      as (signals & st2 & Hscan & ->).
    apply (scan_loop_preserves World round binance_klines bybit_klines
             (fun sg => sg = [])) in Hscan; [|clear Hscan|reflexivity].
    + subst signals. eexists. reflexivity.
    + intros symbol sg closes sg' -> Ha.
      apply analyse_closes_appends in Ha
        as [->|(signal & _ & _ & _ & Hg & _ & Hcalc)]; [reflexivity|].
      destruct Hcalc as (ema_s & ema_l & rsi_vals & H1 & H2 & H3 & _).
      destruct (Hraise closes (Hgate10 closes Hg))
        as [(e & He) | [(e & He) | (e & He)]]; congruence.
Qed.

End ScanProperties.

(** *** Runs of the further scan properties *)

Lemma handler_requests_witness :
  calls (snd (decimal_handler
                (Some [("exchange", "bybit"); ("timeframe", "1h");
                       ("emaShort", "1"); ("emaLong", "2")]%string)
                fresh_state))
  = [SymbolList "bybit";
     Klines "bybit" "BADUSDT" "60" 100;
     Klines "bybit" "ABCUSDT" "60" 100]%string.
Proof.
  destruct (handler_requests (T:=float) (num:=float_number)
              unit decimal_int keep_digits synthetic_clock
              synthetic_symbols synthetic_symbols
              synthetic_klines synthetic_klines
              (Some [("exchange", "bybit"); ("timeframe", "1h");
                     ("emaShort", "1"); ("emaLong", "2")]%string)
              fresh_state 1 2 14 eq_refl eq_refl eq_refl eq_refl)
    as (_ & Hok & _).
  apply (Hok ["BADUSDT"; "ABCUSDT"]%string). reflexivity.
Defined.

Lemma signals_follow_symbol_list_witness :
  exists signals count timestamp symbols,
    body (fst (decimal_handler
                 (Some [("emaShort", "1"); ("emaLong", "2");
                        ("rsiPeriod", "1")]%string) fresh_state))
    = ScanBody signals count timestamp
    /\ signals <> []
    /\ fst (synthetic_symbols tt) = Normal symbols
    /\ count = Z.of_nat (length signals)
    /\ subsequence (map s_symbol signals) (firstn 50 symbols).
Proof.
  assert (Hb : exists signals count timestamp,
             body (fst (decimal_handler
                          (Some [("emaShort", "1"); ("emaLong", "2");
                                 ("rsiPeriod", "1")]%string) fresh_state))
             = ScanBody signals count timestamp
             /\ signals <> []).
  { do 3 eexists. split; [vm_compute; reflexivity | discriminate]. }
  destruct Hb as (signals & count & timestamp & Hb & Hne).
  destruct (signals_follow_symbol_list (T:=float) (num:=float_number)
              unit decimal_int keep_digits synthetic_clock
              synthetic_symbols synthetic_symbols
              synthetic_klines synthetic_klines
              (Some [("emaShort", "1"); ("emaLong", "2");
                     ("rsiPeriod", "1")]%string)
              fresh_state signals count timestamp Hb)
    as (symbols & Hsym & _ & Hcount & _ & Hsub & _).
  exists signals, count, timestamp, symbols. auto.
Defined.

Lemma bad_parameter_is_500_witness :
  decimal_handler (Some [("emaShort", "20"); ("emaLong", "10");
                         ("rsiPeriod", "14.5")]%string) fresh_state
  = ({| statusCode := 500;
        headers := [("Content-Type", "application/json")]%string;
        body := FailureBody (ExternalError "invalid literal for int()") |},
     fresh_state).
Proof.
  destruct (bad_parameter_is_500 (T:=float) (num:=float_number)
              unit decimal_int keep_digits synthetic_clock
              synthetic_symbols synthetic_symbols
              synthetic_klines synthetic_klines
              (Some [("emaShort", "20"); ("emaLong", "10");
                     ("rsiPeriod", "14.5")]%string)
              fresh_state (ExternalError "invalid literal for int()"))
    as (_ & _ & Hrp).
  apply (Hrp 20 10); reflexivity.
Defined.

Lemma unknown_exchange_scans_nothing_witness :
  decimal_handler (Some [("exchange", "kraken")]%string) fresh_state
  = ({| statusCode := 200;
        headers := [("Content-Type", "application/json");
                    ("Access-Control-Allow-Origin", "*")]%string;
        body := ScanBody [] 0 "2024-01-01T00:00:00Z" |},
     {| world := tt; calls := [SymbolList "bybit"] |}).
Proof.
  apply (unknown_exchange_scans_nothing (T:=float) (num:=float_number)
           unit decimal_int keep_digits synthetic_clock
           synthetic_symbols synthetic_symbols
           synthetic_klines synthetic_klines
           (Some [("exchange", "kraken")]%string) fresh_state
           9 26 14 ["BADUSDT"; "ABCUSDT"]%string tt);
    reflexivity.
Defined.

Lemma synthetic_klines_within_limit symbol interval w closes :
  fst (synthetic_klines symbol interval 100 w) = Normal closes ->
  (length closes <= 100)%nat.
Proof.
  unfold synthetic_klines.
  destruct (String.eqb symbol "BADUSDT"); simpl; [discriminate|].
  intros Hc. injection Hc as <-. simpl. lia.
Defined.

Lemma long_periods_scan_nothing_witness :
  exists timestamp,
    fst (decimal_handler (Some [("emaLong", "95")]%string) fresh_state)
    = {| statusCode := 200;
         headers := [("Content-Type", "application/json");
                     ("Access-Control-Allow-Origin", "*")]%string;
         body := ScanBody [] 0 timestamp |}.
Proof.
  apply (long_periods_scan_nothing (T:=float) (num:=float_number)
           unit decimal_int keep_digits synthetic_clock
           synthetic_symbols synthetic_symbols
           synthetic_klines synthetic_klines
           (Some [("emaLong", "95")]%string) fresh_state
           9 95 14 ["BADUSDT"; "ABCUSDT"]%string);
    try reflexivity; try apply synthetic_klines_within_limit; lia.
Defined.

Lemma dividing_periods_scan_nothing_witness :
  (exists e,
      analyse_closes keep_digits "1m" 1 2 0 "ABCUSDT" [] synthetic_closes
      = Raise e)
  /\ exists timestamp,
       fst (decimal_handler
              (Some [("emaShort", "1"); ("emaLong", "2");
                     ("rsiPeriod", "0")]%string) fresh_state)
       = {| statusCode := 200;
            headers := [("Content-Type", "application/json");
                        ("Access-Control-Allow-Origin", "*")]%string;
            body := ScanBody [] 0 timestamp |}.
Proof.
  destruct (dividing_periods_scan_nothing (T:=float) (num:=float_number)
              unit decimal_int keep_digits synthetic_clock
              synthetic_symbols synthetic_symbols
              synthetic_klines synthetic_klines
              (Some [("emaShort", "1"); ("emaLong", "2");
                     ("rsiPeriod", "0")]%string) fresh_state
              1 2 0 ["BADUSDT"; "ABCUSDT"]%string)
    as (Hraise & Hresp); try reflexivity; auto.
  split; [|exact Hresp].
  apply (Hraise synthetic_closes). simpl. lia.
Defined.

(** ** Strings: suffixes *)

Lemma substring_whole (s : string) : substring 0 (String.length s) s = s.
Proof. induction s as [|c s IH]; simpl; [reflexivity | now rewrite IH]. Qed.

Lemma substring_after_append (base suffix : string) :
  substring (String.length base) (String.length suffix) (base ++ suffix)
  = suffix.
Proof.
  induction base as [|c base IH]; simpl; [apply substring_whole | exact IH].
Qed.

Lemma string_length_append (a b : string) :
  String.length (a ++ b) = (String.length a + String.length b)%nat.
Proof. induction a as [|c a IH]; simpl; [reflexivity | now rewrite IH]. Qed.

Lemma string_split_at (s : string) : forall k,
  (k <= String.length s)%nat ->
  s = (substring 0 k s ++ substring k (String.length s - k) s)%string.
Proof.
  induction s as [|c s IH]; intros k Hk.
  - simpl in Hk. replace k with 0%nat by lia. reflexivity.
  - destruct k as [|k].
    + simpl. now rewrite substring_whole.
    + simpl. f_equal. apply IH. simpl in Hk. lia.
Qed.

(** [s.endswith(suffix)] holds exactly of the strings that are something
    followed by the suffix. *)
Lemma ends_with_spec (s suffix : string) :
  ends_with s suffix = true <-> exists base, s = (base ++ suffix)%string.
Proof.
  unfold ends_with. split.
  - intros H. apply andb_true_iff in H as [Hlen Heq].
    apply Nat.leb_le in Hlen. apply String.eqb_eq in Heq.
    remember (String.length suffix) as m eqn:Hm.
    exists (substring 0 (String.length s - m) s).
    pose proof (string_split_at s (String.length s - m)) as Hsplit.
    replace (String.length s - (String.length s - m))%nat with m
      in Hsplit by lia.
    rewrite Heq in Hsplit. apply Hsplit. lia.
  - intros (base & ->). rewrite string_length_append.
    apply andb_true_iff. split; [apply Nat.leb_le; lia|].
    replace (String.length base + String.length suffix
             - String.length suffix)%nat
      with (String.length base) by lia.
    rewrite substring_after_append. apply String.eqb_refl.
Qed.

(** ** The symbol lists and the candles, from what the exchange sent *)

Lemma list_comp_Forall2 {A B : Type} (f : A -> result B) xs : forall ys,
  list_comp f xs = Normal ys <-> Forall2 (fun x y => f x = Normal y) xs ys.
Proof.
  induction xs as [|x xs IH]; intros ys; simpl.
  - split.
    + intros H. injection H as <-. constructor.
    + intros H. inversion H. reflexivity.
  - split.
    + destruct (f x) as [y|e] eqn:Hx; simpl; [|discriminate].
      destruct (list_comp f xs) as [ys'|e] eqn:Hxs; simpl; [|discriminate].
      intros H. injection H as <-. constructor; [exact Hx|].
      now apply IH.
    + intros H. inversion H as [|? y ? ys' Hx Hrest]; subst.
      rewrite Hx. simpl. apply IH in Hrest. now rewrite Hrest.
Qed.

Lemma list_comp_raises {A B : Type} (f : A -> result B) xs x e :
  In x xs -> f x = Raise e -> exists e', list_comp f xs = Raise e'.
Proof.
  intros Hin Hx.
  destruct (list_comp f xs) as [ys|e'] eqn:Hrun; [|now exists e'].
  apply list_comp_Forall2 in Hrun. exfalso.
  induction Hrun as [|x0 y xs ys Hx0 _ IH]; [contradiction|].
  destruct Hin as [->|Hin]; [congruence | now apply IH].
Qed.

Section HttpFacts.

Context {T : Type} {num : Number T}.
Variable World : Type.
Variable Response : Type.
Variable requests_get : string -> Z -> World -> result Response * World.
Variable raise_for_status : Response -> result unit.
Variable response_json : Response -> result (json T).
Variable float_of_str : string -> result T.

Local Abbreviation get_json :=
  (http_json World Response requests_get raise_for_status response_json).
Local Abbreviation binance_symbols :=
  (get_binance_symbols World Response requests_get raise_for_status
                       response_json).
Local Abbreviation bybit_symbols :=
  (get_bybit_symbols World Response requests_get raise_for_status
                     response_json).
Local Abbreviation to_float := (py_float float_of_str).
Local Abbreviation closes := (closes_of float_of_str).

(** The comprehension of line 44 returns exactly when every item, kept
    or not, is a dict whose ['symbol'] is a str; what it returns are the
    ones among these strings that end with USDT, in the order of the
    items. *)
Lemma usdt_symbols_spec (items : list (json T)) : forall symbols,
  usdt_symbols items = Normal symbols
  <-> exists names,
        Forall2 (fun item s => subscript_str item "symbol" = Normal (JStr s))
                items names
        /\ symbols = filter (fun s => ends_with s "USDT") names.
Proof.
  induction items as [|item rest IH]; intros symbols; simpl.
  - split.
    + intros H. injection H as <-. exists []. split; [constructor|reflexivity].
    + intros (names & HF & ->). inversion HF. reflexivity.
  - split.
    + destruct (subscript_str item "symbol") as [v|e] eqn:Hv; simpl;
        [|discriminate].
      destruct v as [| | | |s| |]; try discriminate.
      destruct (ends_with s "USDT") eqn:Hs.
      * destruct (usdt_symbols rest) as [syms|e] eqn:Hrest; simpl;
          [|discriminate].
        intros H. injection H as <-.
        destruct (proj1 (IH syms) eq_refl) as (names & HF & ->).
        exists (s :: names). split; [now constructor|].
        simpl. now rewrite Hs.
      * intros Hrest. apply IH in Hrest as (names & HF & ->).
        exists (s :: names). split; [now constructor|].
        simpl. now rewrite Hs.
    + intros (names & HF & ->).
      inversion HF as [|? s ? names' Hitem Hrest]; subst.
      rewrite Hitem. simpl.
      assert (Hrec : usdt_symbols rest
                     = Normal (filter (fun s => ends_with s "USDT") names'))
        by (apply IH; now exists names').
      destruct (ends_with s "USDT"); [now rewrite Hrec | exact Hrec].
Qed.

Lemma get_binance_symbols_eq (w : World) :
  binance_symbols w
  = (data <- fst (get_json "https://fapi.binance.com/fapi/v1/ticker/price"
                           5 w) ;;
     items <- py_iter data ;;
     usdt_symbols items,
     snd (get_json "https://fapi.binance.com/fapi/v1/ticker/price" 5 w)).
Proof.
  unfold get_binance_symbols.
  now destruct (get_json _ 5 w) as [r w'].
Qed.

(** A ticker with an entry that is not a dict with a str under
    ['symbol'] makes [get_binance_symbols] raise. *)
Lemma get_binance_symbols_malformed (w w' : World) data items item :
  get_json "https://fapi.binance.com/fapi/v1/ticker/price" 5 w
  = (Normal data, w') ->
  py_iter data = Normal items ->
  In item items ->
  (forall s, subscript_str item "symbol" <> Normal (JStr s)) ->
  exists e, binance_symbols w = (Raise e, w').
Proof.
  intros Hget Hiter Hin Hbad.
  rewrite get_binance_symbols_eq, Hget. cbn [fst snd]. simpl bind.
  rewrite Hiter. simpl bind.
  destruct (usdt_symbols items) as [symbols|e] eqn:Hrun; [|now exists e].
  exfalso. apply usdt_symbols_spec in Hrun as (names & HF & _).
  clear Hiter. induction HF as [|x s xs names Hx _ IH]; [contradiction|].
  destruct Hin as [->|Hin]; [now apply (Hbad s) | now apply IH].
Qed.

Lemma get_binance_symbols_usdt (w : World) symbols :
  fst (binance_symbols w) = Normal symbols ->
  Forall (fun s => exists base, s = (base ++ "USDT")%string) symbols.
Proof.
  rewrite get_binance_symbols_eq. cbn [fst].
  destruct (fst (get_json _ 5 w)) as [data|e]; simpl bind; [|discriminate].
  destruct (py_iter data) as [items|e]; simpl bind; [|discriminate].
  intros Hrun. apply usdt_symbols_spec in Hrun as (names & _ & ->).
  apply Forall_forall. intros s Hs. apply filter_In in Hs as [_ Hs].
  now apply ends_with_spec.
Qed.

(** A row that is a list of fewer than five fields makes line 65, and
    line 76, raise. *)
Lemma closes_of_short_row (rows : list (json T)) fields :
  In (JList fields) rows -> (length fields < 5)%nat ->
  exists e, closes rows = Raise e.
Proof.
  intros Hin Hlen. unfold closes_of.
  eapply (list_comp_raises _ rows (JList fields) IndexError); [exact Hin|].
  simpl. unfold py_getitem.
  rewrite norm_index_out_of_range by lia. reflexivity.
Qed.

Lemma binance_klines_eq symbol interval limit (w : World) :
  let url := ("https://fapi.binance.com/fapi/v1/klines?symbol=" ++ symbol
              ++ "&interval=" ++ interval
              ++ "&limit=" ++ str_of_int limit)%string in
  binance_klines World Response requests_get raise_for_status response_json
                 float_of_str symbol interval limit w
  = (data <- fst (get_json url 6 w) ;;
     rows <- py_iter data ;;
     closes rows,
     snd (get_json url 6 w)).
Proof.
  intros url. unfold binance_klines. fold url.
  now destruct (get_json url 6 w) as [r w'].
Qed.

Lemma bybit_klines_eq symbol interval limit (w : World) :
  let url := ("https://api.bybit.com/derivatives/v3/public/kline?category=linear&symbol="
              ++ symbol ++ "&interval=" ++ interval
              ++ "&limit=" ++ str_of_int limit)%string in
  bybit_klines World Response requests_get raise_for_status response_json
               float_of_str symbol interval limit w
  = (data <- fst (get_json url 6 w) ;;
     code <- subscript_str data "retCode" ;;
     if ne_zero code then Normal []
     else
       result <- subscript_str data "result" ;;
       rows <- subscript_str result "list" ;;
       items <- py_iter rows ;;
       closes items,
     snd (get_json url 6 w)).
Proof.
  intros url. unfold bybit_klines. fold url.
  now destruct (get_json url 6 w) as [r w'].
Qed.

Lemma get_bybit_symbols_eq (w : World) :
  let url := "https://api.bybit.com/derivatives/v3/public/instruments-info?category=linear"%string in
  bybit_symbols w
  = (data <- fst (get_json url 5 w) ;;
     code <- subscript_str data "retCode" ;;
     if ne_zero code then Raise (ExternalError "Bybit API error")
     else
       result <- subscript_str data "result" ;;
       rows <- subscript_str result "list" ;;
       items <- py_iter rows ;;
       list_comp_if is_trading_usdt
                    (fun item => subscript_str item "symbol") items,
     snd (get_json url 5 w)).
Proof.
  intros url. unfold get_bybit_symbols. fold url.
  now destruct (get_json url 5 w) as [r w'].
Qed.

End HttpFacts.

Lemma subsequence_In {A : Type} (xs ys : list A) :
  subsequence xs ys -> forall x, In x xs -> In x ys.
Proof.
  induction 1 as [|y xs ys _ IH|y xs ys _ IH]; intros x Hx.
  - contradiction.
  - right. now apply IH.
  - destruct Hx as [->|Hx]; [now left | right; now apply IH].
Qed.

Lemma In_firstn {A : Type} (l : list A) : forall n x,
  In x (firstn n l) -> In x l.
Proof.
  induction l as [|y l IH]; intros [|n] x Hx; simpl in *; try contradiction.
  destruct Hx as [->|Hx]; [now left | right; now apply (IH n)].
Qed.

Section HttpProperties.

Context {T : Type} {num : Number T}.
Variable World : Type.
Variable Response : Type.
Variable requests_get : string -> Z -> World -> result Response * World.
Variable raise_for_status : Response -> result unit.
Variable response_json : Response -> result (json T).
Variable float_of_str : string -> result T.
Variable py_int : string -> result Z.
Variable round : T -> Z -> T.
Variable utcnow_isoformat : World -> string.
(** The symbols of Bybit, as far as they are of type str. *)
Variable bybit_names : World -> result (list string) * World.

Local Abbreviation get_json :=
  (http_json World Response requests_get raise_for_status response_json).
Local Abbreviation binance_symbols :=
  (get_binance_symbols World Response requests_get raise_for_status
                       response_json).
Local Abbreviation bybit_symbols :=
  (get_bybit_symbols World Response requests_get raise_for_status
                     response_json).
Local Abbreviation binance_candles :=
  (binance_klines World Response requests_get raise_for_status
                  response_json float_of_str).
Local Abbreviation bybit_candles :=
  (bybit_klines World Response requests_get raise_for_status
                response_json float_of_str).
Local Abbreviation to_float := (py_float float_of_str).
Local Abbreviation process :=
  (process_symbol World round binance_candles bybit_candles).
Local Abbreviation handle :=
  (handler World py_int round utcnow_isoformat binance_symbols bybit_names
           binance_candles bybit_candles).

(** X12. [get_binance_symbols] returns exactly when the request
    succeeds, the decoded body can be iterated, and every item of it,
    whether it ends up in the result or not, is a dict whose ['symbol']
    is a str; what it returns are those of these strings that end with
    USDT, in the order of the items, each of them something followed by
    USDT. *)
Theorem get_binance_symbols_filters (w w' : World) symbols :
  (binance_symbols w = (Normal symbols, w')
   <-> exists data items names,
         get_json "https://fapi.binance.com/fapi/v1/ticker/price" 5 w
         = (Normal data, w')
         /\ py_iter data = Normal items
         /\ Forall2 (fun item s =>
                       subscript_str item "symbol" = Normal (JStr s))
                    items names
         /\ symbols = filter (fun s => ends_with s "USDT") names)
  /\ (binance_symbols w = (Normal symbols, w') ->
      Forall (fun s => exists base, s = (base ++ "USDT")%string) symbols).
Proof.
  split.
  - rewrite get_binance_symbols_eq.
    destruct (get_json _ 5 w) as [[data|e] w1]; cbn [fst snd]; simpl bind.
    + split.
      * intros Hrun. injection Hrun as Hrun <-.
        destruct (py_iter data) as [items|e] eqn:Hiter; simpl bind in Hrun;
          [|discriminate].
        apply usdt_symbols_spec in Hrun as (names & HF & ->).
        now exists data, items, names.
      * intros (data' & items & names & Hget & Hiter & HF & ->).
        injection Hget as <- <-. rewrite Hiter. simpl bind.
        f_equal. apply usdt_symbols_spec. now exists names.
    + split; [discriminate|].
      intros (data' & items & names & Hget & _). discriminate.
  - intros Hrun.
    apply (get_binance_symbols_usdt World Response requests_get
             raise_for_status response_json w).
    now rewrite Hrun.
Qed.

(** X13. The two readers of Bybit treat an error code differently.  On
    a decoded body whose ['retCode'] is not 0, [get_bybit_symbols]
    raises [Exception("Bybit API error")], while the Bybit branch of
    [fetch_klines] returns the empty list; in the scan that symbol then
    leaves the signals as they were, after its one request. *)
Theorem bybit_error_code_raises_or_empties data code :
  subscript_str data "retCode" = Normal code ->
  ne_zero code = true ->
  (forall w w',
      get_json "https://api.bybit.com/derivatives/v3/public/instruments-info?category=linear"
               5 w = (Normal data, w') ->
      bybit_symbols w = (Raise (ExternalError "Bybit API error"), w'))
  /\ (forall symbol interval limit w w',
        get_json ("https://api.bybit.com/derivatives/v3/public/kline?category=linear&symbol="
                  ++ symbol ++ "&interval=" ++ interval
                  ++ "&limit=" ++ str_of_int limit) 6 w
        = (Normal data, w') ->
        bybit_candles symbol interval limit w = (Normal [], w'))
  /\ (forall timeframe es el rp symbol (signals : list Signal)
             (st : state World) w',
        let interval := match dict_get bybit_interval_map timeframe with
                        | Some v => v
                        | None => timeframe
                        end in
        get_json ("https://api.bybit.com/derivatives/v3/public/kline?category=linear&symbol="
                  ++ symbol ++ "&interval=" ++ interval
                  ++ "&limit=" ++ str_of_int 100) 6 (world st)
        = (Normal data, w') ->
        process "bybit" timeframe es el rp symbol signals st
        = (Normal signals,
           {| world := w';
              calls := calls st ++ [Klines "bybit" symbol interval 100] |})).
Proof.
  intros Hcode Hne.
  assert (Hklines : forall symbol interval limit w w',
             get_json ("https://api.bybit.com/derivatives/v3/public/kline?category=linear&symbol="
                       ++ symbol ++ "&interval=" ++ interval
                       ++ "&limit=" ++ str_of_int limit) 6 w
             = (Normal data, w') ->
             bybit_candles symbol interval limit w = (Normal [], w')).
  { intros symbol interval limit w w' Hget.
    rewrite bybit_klines_eq. cbv zeta. rewrite Hget. cbn [fst snd].
    simpl bind. rewrite Hcode. simpl bind. now rewrite Hne. }
  split; [|split; [exact Hklines|]].
  - intros w w' Hget. rewrite get_bybit_symbols_eq. cbv zeta.
    rewrite Hget. cbn [fst snd]. simpl bind. rewrite Hcode. simpl bind.
    now rewrite Hne.
  - intros timeframe es el rp symbol signals st w' interval Hget.
    unfold process_symbol, try_except, symbol_body, bindM, fetch_klines.
    cbn [String.eqb Ascii.eqb Bool.eqb]. cbv zeta. fold interval.
    unfold remote. rewrite (Hklines symbol interval 100 (world st) w' Hget).
    unfold lift, ret.
    destruct (analyse_closes round timeframe es el rp symbol signals [])
      as [signals'|e] eqn:Ha; [|reflexivity].
    apply analyse_closes_appends in Ha
      as [->|(signal & _ & _ & _ & _ & Hlen & _)]; [reflexivity|].
    simpl in Hlen. lia.
Qed.

(** X14. The closes [fetch_klines] returns for Binance are the
    [float(k[4])] of the rows of the decoded body, one for each row and
    in their order, so there are as many closes as rows; and a row that
    is a list of fewer than five fields, wherever it stands, makes the
    whole call raise, which costs the symbol its place in the scan. *)
Theorem binance_closes_follow_rows symbol interval limit (w w' : World) :
  let url := ("https://fapi.binance.com/fapi/v1/klines?symbol=" ++ symbol
              ++ "&interval=" ++ interval
              ++ "&limit=" ++ str_of_int limit)%string in
  (forall out,
      binance_candles symbol interval limit w = (Normal out, w') ->
      exists data rows,
        get_json url 6 w = (Normal data, w')
        /\ py_iter data = Normal rows
        /\ Forall2 (fun k c => exists v, subscript_int k 4 = Normal v
                                         /\ to_float v = Normal c) rows out
        /\ length out = length rows)
  /\ (forall data rows fields,
        get_json url 6 w = (Normal data, w') ->
        py_iter data = Normal rows ->
        In (JList fields) rows -> (length fields < 5)%nat ->
        exists e, binance_candles symbol interval limit w = (Raise e, w')).
Proof.
  intros url. split.
  - intros out. rewrite binance_klines_eq. cbv zeta. fold url.
    destruct (get_json url 6 w) as [[data|e] w1]; cbn [fst snd];
      simpl bind; [|discriminate].
    intros Hrun. injection Hrun as Hrun <-.
    destruct (py_iter data) as [rows|e] eqn:Hiter; simpl bind in Hrun;
      [|discriminate].
    exists data, rows. split; [reflexivity|]. split; [exact Hiter|].
    apply list_comp_Forall2 in Hrun.
    split; [|symmetry; eapply Forall2_length, Hrun].
    eapply Forall2_impl; [|exact Hrun].
    intros k c Hk. cbv beta in Hk.
    destruct (subscript_int k 4) as [v|e] eqn:Hv; simpl bind in Hk;
      [|discriminate].
    now exists v.
  - intros data rows fields Hget Hiter Hin Hlen.
    rewrite binance_klines_eq. cbv zeta. fold url. rewrite Hget.
    cbn [fst snd]. simpl bind. rewrite Hiter. simpl bind.
    destruct (closes_of_short_row float_of_str rows fields Hin Hlen)
      as (e & ->).
    now exists e.
Qed.

(** X15. On Binance every signal of a scan names a symbol that ends with
    USDT: the symbols of the scan are those [get_binance_symbols] kept. *)
Theorem binance_signals_end_with_usdt event (st : state World)
        signals count timestamp :
  str_param (query_of event) "exchange" "binance" = "binance"%string ->
  body (fst (handle event st)) = ScanBody signals count timestamp ->
  Forall (fun s => exists base, s_symbol s = (base ++ "USDT")%string)
         signals.
Proof.
  intros Hex Hbody.
  destruct (scan_body_inversion World py_int round utcnow_isoformat
              binance_symbols bybit_names binance_candles bybit_candles
              event st signals count timestamp Hbody)
    as (es & el & rp & symbols & st2 & _ & _ & _ & _ & Hsym & Hscan & _).
  rewrite Hex in Hsym, Hscan. cbn [String.eqb Ascii.eqb Bool.eqb] in Hsym.
  apply scan_loop_symbols in Hscan as (new & -> & Hsub & _).
  simpl app.
  pose proof (get_binance_symbols_usdt World Response requests_get
                raise_for_status response_json (world st) symbols Hsym)
    as Husdt.
  apply Forall_forall. intros s Hs.
  apply (proj1 (Forall_forall _ _) Husdt).
  apply (In_firstn symbols 50).
  apply (subsequence_In _ _ Hsub). now apply in_map.
Qed.

(** X16. On Binance one entry of the ticker that is not a dict with a
    str under ['symbol'] fails the whole request, wherever the entry
    stands and whether or not it would have been kept: a request that
    passed the validation gets the 500 response, and no candles were
    requested. *)
Theorem malformed_ticker_is_500 event (st : state World) es el rp
        data items item w' :
  int_param py_int (query_of event) "emaShort" 9 = Normal es ->
  int_param py_int (query_of event) "emaLong" 26 = Normal el ->
  int_param py_int (query_of event) "rsiPeriod" 14 = Normal rp ->
  es < el ->
  str_param (query_of event) "exchange" "binance" = "binance"%string ->
  get_json "https://fapi.binance.com/fapi/v1/ticker/price" 5 (world st)
  = (Normal data, w') ->
  py_iter data = Normal items ->
  In item items ->
  (forall s, subscript_str item "symbol" <> Normal (JStr s)) ->
  exists e,
    handle event st
    = ({| statusCode := 500;
          headers := [("Content-Type", "application/json")]%string;
          body := FailureBody e |},
       {| world := w'; calls := calls st ++ [SymbolList "binance"] |}).
Proof.
  intros Hes Hel Hrp Hlt Hex Hget Hiter Hin Hbad.
  destruct (get_binance_symbols_malformed World Response requests_get
              raise_for_status response_json (world st) w' data items item
              Hget Hiter Hin Hbad) as (e & Hraise).
  exists e.
  pose proof (handler_eq World py_int round utcnow_isoformat
                binance_symbols bybit_names binance_candles bybit_candles
                event st es el rp Hes Hel Hrp) as Heq.
  cbv zeta in Heq. rewrite Hex in Heq.
  cbn [String.eqb Ascii.eqb Bool.eqb] in Heq. rewrite Heq.
  destruct (Z.leb_spec el es); [lia|].
  now rewrite Hraise.
Qed.

End HttpProperties.

(** *** Runs on the synthetic HTTP exchange *)

Lemma get_binance_symbols_filters_witness :
  get_binance_symbols unit (json float) synthetic_get
                      synthetic_status synthetic_decode tt
  = (Normal ["BADUSDT"; "ABCUSDT"]%string, tt)
  /\ Forall (fun s => exists base, s = (base ++ "USDT")%string)
            ["BADUSDT"; "ABCUSDT"]%string.
Proof.
  destruct (get_binance_symbols_filters (T:=float)
              unit (json float) synthetic_get
              synthetic_status synthetic_decode tt tt
              ["BADUSDT"; "ABCUSDT"]%string) as [Hiff Husdt].
  assert (Hrun : get_binance_symbols unit (json float) synthetic_get
                                     synthetic_status synthetic_decode tt
                 = (Normal ["BADUSDT"; "ABCUSDT"]%string, tt)).
  { apply Hiff.
    exists synthetic_ticker.
    exists [JDict [("symbol", JStr "BADUSDT"); ("price", JStr "1")]%string;
            JDict [("symbol", JStr "ETHBTC"); ("price", JStr "2")]%string;
            JDict [("symbol", JStr "ABCUSDT"); ("price", JStr "5")]%string].
    exists ["BADUSDT"; "ETHBTC"; "ABCUSDT"]%string.
    split; [reflexivity|]. split; [reflexivity|].
    split; [repeat constructor | reflexivity]. }
  split; [exact Hrun | exact (Husdt Hrun)].
Defined.

Lemma bybit_error_code_raises_or_empties_witness :
  get_bybit_symbols unit (json float) synthetic_get
                    synthetic_status synthetic_decode tt
  = (Raise (ExternalError "Bybit API error"), tt)
  /\ bybit_klines unit (json float) synthetic_get synthetic_status
                  synthetic_decode synthetic_float "ABCUSDT" "60" 100 tt
     = (Normal [], tt).
Proof.
  destruct (bybit_error_code_raises_or_empties
              (T:=float) (num:=float_number)
              unit (json float) synthetic_get synthetic_status
              synthetic_decode synthetic_float keep_digits
              synthetic_bybit_error (JInt 10001) eq_refl eq_refl)
    as (Hsymbols & Hklines & _).
  split; [apply Hsymbols | apply Hklines]; reflexivity.
Defined.

Lemma binance_closes_follow_rows_witness :
  (exists e,
      binance_klines unit (json float) synthetic_get synthetic_status
                     synthetic_decode synthetic_float "BADUSDT" "1m" 100 tt
      = (Raise e, tt))
  /\ exists data rows,
       http_json unit (json float) synthetic_get synthetic_status
                 synthetic_decode
                 "https://fapi.binance.com/fapi/v1/klines?symbol=ABCUSDT&interval=1m&limit=100"
                 6 tt = (Normal data, tt)
       /\ py_iter data = Normal rows
       /\ length synthetic_closes = length rows.
Proof.
  split.
  - destruct (binance_closes_follow_rows (T:=float) (num:=float_number)
                unit (json float) synthetic_get synthetic_status
                synthetic_decode synthetic_float "BADUSDT" "1m" 100 tt tt)
      as [_ Hshort].
    apply (Hshort (JList [JList [JInt 1700000000000; JStr "1"]])
                  [JList [JInt 1700000000000; JStr "1"]]
                  [JInt 1700000000000; JStr "1"]);
      [reflexivity | reflexivity | now left | simpl; lia].
  - destruct (binance_closes_follow_rows (T:=float) (num:=float_number)
                unit (json float) synthetic_get synthetic_status
                synthetic_decode synthetic_float "ABCUSDT" "1m" 100 tt tt)
      as [Hrows _].
    destruct (Hrows synthetic_closes)
      as (data & rows & Hget & Hiter & _ & Hlen);
      [vm_compute; reflexivity|].
    now exists data, rows.
Defined.

Lemma binance_signals_end_with_usdt_witness :
  exists signals count timestamp,
    body (fst (http_handler
                 (Some [("emaShort", "1"); ("emaLong", "2");
                        ("rsiPeriod", "1")]%string) fresh_state))
    = ScanBody signals count timestamp
    /\ signals <> []
    /\ Forall (fun s => exists base, s_symbol s = (base ++ "USDT")%string)
              signals.
Proof.
  assert (Hb : exists signals count timestamp,
             body (fst (http_handler
                          (Some [("emaShort", "1"); ("emaLong", "2");
                                 ("rsiPeriod", "1")]%string) fresh_state))
             = ScanBody signals count timestamp
             /\ signals <> []).
  { do 3 eexists. split; [vm_compute; reflexivity | discriminate]. }
  destruct Hb as (signals & count & timestamp & Hb & Hne).
  exists signals, count, timestamp. split; [exact Hb|]. split; [exact Hne|].
  apply (binance_signals_end_with_usdt (T:=float) (num:=float_number)
           unit (json float) synthetic_get synthetic_status
           synthetic_decode synthetic_float decimal_int keep_digits
           synthetic_clock synthetic_symbols
           (Some [("emaShort", "1"); ("emaLong", "2");
                  ("rsiPeriod", "1")]%string)
           fresh_state signals count timestamp);
    [reflexivity | exact Hb].
Defined.

Lemma malformed_ticker_is_500_witness :
  exists e,
    banned_handler None fresh_state
    = ({| statusCode := 500;
          headers := [("Content-Type", "application/json")]%string;
          body := FailureBody e |},
       {| world := tt; calls := [SymbolList "binance"] |}).
Proof.
  apply (malformed_ticker_is_500 (T:=float) (num:=float_number)
           unit (json float) banned_get synthetic_status
           synthetic_decode synthetic_float decimal_int keep_digits
           synthetic_clock synthetic_symbols
           None fresh_state 9 26 14
           synthetic_ban [JStr "code"; JStr "msg"] (JStr "code") tt);
    try reflexivity; [now left | intros s Hs; discriminate].
Defined.

(** ** The instruments of Bybit *)

(** A comprehension with a condition, on items the condition and the
    element expression accept: it returns, and what it returns are the
    values of the items that meet the condition. *)
Lemma list_comp_if_selects {A B : Type} (cond : A -> result bool)
      (f : A -> result B) (xs : list A) :
  (forall x, In x xs ->
             exists c, cond x = Normal c
                       /\ (c = true -> exists y, f x = Normal y)) ->
  exists ys,
    list_comp_if cond f xs = Normal ys
    /\ (length ys <= length xs)%nat
    /\ forall y, In y ys
                 <-> exists x, In x xs /\ cond x = Normal true
                               /\ f x = Normal y.
Proof.
  induction xs as [|x xs IH]; intros Hok; simpl.
  - exists []. split; [reflexivity|]. split; [simpl; lia|].
    intros y. split; [contradiction|]. intros (x & [] & _).
  - destruct IH as (ys & Hrun & Hlen & Hmem).
    { intros x0 Hx0. apply Hok. now right. }
    destruct (Hok x (or_introl eq_refl)) as (c & Hc & Hf).
    rewrite Hc. simpl bind. destruct c.
    + destruct (Hf eq_refl) as (y & Hy). rewrite Hy, Hrun. simpl bind.
      exists (y :: ys). split; [reflexivity|]. split; [simpl; lia|].
      intros y0. split.
      * intros [<-|Hin]; [exists x; auto|].
        apply Hmem in Hin as (x0 & Hx0 & Hrest). exists x0. auto.
      * intros (x0 & [<-|Hx0] & Hc0 & Hf0).
        -- left. congruence.
        -- right. apply Hmem. now exists x0.
    + exists ys. split; [exact Hrun|]. split; [simpl; lia|].
      intros y0. split.
      * intros Hin. apply Hmem in Hin as (x0 & Hx0 & Hrest).
        exists x0. auto.
      * intros (x0 & [<-|Hx0] & Hc0 & Hf0); [congruence|].
        apply Hmem. now exists x0.
Qed.

Lemma eq_str_true {T : Type} (v : json T) (s : string) :
  eq_str v s = true <-> v = JStr s.
Proof.
  destruct v; simpl; try (split; [discriminate | intros H; discriminate]).
  rewrite String.eqb_eq. split; [now intros -> | now intros [= ->]].
Qed.

Section BybitInstruments.

Context {T : Type} {num : Number T}.
Variable World : Type.
Variable Response : Type.
Variable requests_get : string -> Z -> World -> result Response * World.
Variable raise_for_status : Response -> result unit.
Variable response_json : Response -> result (json T).

Local Abbreviation get_json :=
  (http_json World Response requests_get raise_for_status response_json).
Local Abbreviation bybit_symbols :=
  (get_bybit_symbols World Response requests_get raise_for_status
                     response_json).

(** X17. [get_bybit_symbols] on a body with ['retCode'] equal to 0
    whose ['result']['list'] holds dicts with a ['status'], those with
    the status 'Trading' a ['quoteCoin'] as well, and those quoted in
    'USDT' a ['symbol']: it returns, and what it returns are the
    ['symbol'] of exactly the items whose status is 'Trading' and whose
    quote coin is 'USDT'.  An item with another status is passed over
    without a look at its other fields. *)
Theorem get_bybit_symbols_selects (w w' : World) data code result rows items :
  get_json "https://api.bybit.com/derivatives/v3/public/instruments-info?category=linear"
           5 w = (Normal data, w') ->
  subscript_str data "retCode" = Normal code ->
  ne_zero code = false ->
  subscript_str data "result" = Normal result ->
  subscript_str result "list" = Normal rows ->
  py_iter rows = Normal items ->
  (forall item, In item items ->
     exists status,
       subscript_str item "status" = Normal status
       /\ (status = JStr "Trading" ->
           exists quote,
             subscript_str item "quoteCoin" = Normal quote
             /\ (quote = JStr "USDT" ->
                 exists symbol, subscript_str item "symbol" = Normal symbol))) ->
  exists symbols,
    bybit_symbols w = (Normal symbols, w')
    /\ (length symbols <= length items)%nat
    /\ forall v,
         In v symbols
         <-> exists item,
               In item items
               /\ subscript_str item "status" = Normal (JStr "Trading")
               /\ subscript_str item "quoteCoin" = Normal (JStr "USDT")
               /\ subscript_str item "symbol" = Normal v.
Proof.
  intros Hget Hcode Hzero Hresult Hrows Hiter Hok.
  destruct (list_comp_if_selects (@is_trading_usdt T)
              (fun item => subscript_str item "symbol") items)
    as (symbols & Hrun & Hlen & Hmem).
  { intros item Hin. destruct (Hok item Hin) as (status & Hs & Hq).
    unfold is_trading_usdt. rewrite Hs. simpl bind.
    destruct (eq_str status "Trading") eqn:Htr.
    - apply eq_str_true in Htr. destruct (Hq Htr) as (quote & Hquote & Hsym).
      rewrite Hquote. simpl bind. eexists. split; [reflexivity|].
      intros Husdt. apply eq_str_true in Husdt. now apply Hsym.
    - exists false. split; [reflexivity | discriminate]. }
  exists symbols. split; [|split; [exact Hlen|]].
  - rewrite get_bybit_symbols_eq. cbv zeta. rewrite Hget. cbn [fst snd].
    simpl bind. rewrite Hcode. simpl bind. rewrite Hzero, Hresult.
    simpl bind. rewrite Hrows. simpl bind. rewrite Hiter. simpl bind.
    now rewrite Hrun.
  - intros v. rewrite Hmem. split.
    + intros (item & Hin & Hcond & Hsym). exists item.
      split; [exact Hin|]. revert Hcond. unfold is_trading_usdt.
      destruct (subscript_str item "status") as [status|e]; simpl bind;
        [|discriminate].
      destruct (eq_str status "Trading") eqn:Htr; [|discriminate].
      apply eq_str_true in Htr. subst status.
      destruct (subscript_str item "quoteCoin") as [quote|e]; simpl bind;
        [|discriminate].
      intros Husdt. injection Husdt as Husdt.
      apply eq_str_true in Husdt. subst quote. auto.
    + intros (item & Hin & Hs & Hq & Hsym). exists item.
      split; [exact Hin|]. split; [|exact Hsym].
      unfold is_trading_usdt. rewrite Hs. simpl bind. rewrite Hq.
      reflexivity.
Qed.

End BybitInstruments.

Lemma get_bybit_symbols_selects_witness :
  exists symbols,
    get_bybit_symbols unit (json float) listing_get
                      synthetic_status synthetic_decode tt
    = (Normal symbols, tt)
    /\ (length symbols <= 3)%nat
    /\ In (JStr "BTCUSDT") symbols.
Proof.
  destruct (get_bybit_symbols_selects (T:=float) (num:=float_number)
              unit (json float) listing_get synthetic_status
              synthetic_decode tt tt synthetic_instruments (JInt 0)
              (JDict [("list",
                  JList [JDict [("symbol", JStr "BTCUSDT");
                                ("status", JStr "Trading");
                                ("quoteCoin", JStr "USDT")]%string;
                         JDict [("status", JStr "Settling")]%string;
                         JDict [("symbol", JStr "BTCPERP");
                                ("status", JStr "Trading");
                                ("quoteCoin", JStr "USDC")]%string])]%string)
              (JList [JDict [("symbol", JStr "BTCUSDT");
                             ("status", JStr "Trading");
                             ("quoteCoin", JStr "USDT")]%string;
                      JDict [("status", JStr "Settling")]%string;
                      JDict [("symbol", JStr "BTCPERP");
                             ("status", JStr "Trading");
                             ("quoteCoin", JStr "USDC")]%string])
              [JDict [("symbol", JStr "BTCUSDT");
                      ("status", JStr "Trading");
                      ("quoteCoin", JStr "USDT")]%string;
               JDict [("status", JStr "Settling")]%string;
               JDict [("symbol", JStr "BTCPERP");
                      ("status", JStr "Trading");
                      ("quoteCoin", JStr "USDC")]%string]
              eq_refl eq_refl eq_refl eq_refl eq_refl eq_refl)
    as (symbols & Hrun & Hlen & Hmem).
  - intros item [<-|[<-|[<-|[]]]].
    + exists (JStr "Trading"). split; [reflexivity|]. intros _.
      exists (JStr "USDT"). split; [reflexivity|]. intros _.
      now exists (JStr "BTCUSDT").
    + exists (JStr "Settling"). split; [reflexivity|]. discriminate.
    + exists (JStr "Trading"). split; [reflexivity|]. intros _.
      exists (JStr "USDC"). split; [reflexivity|]. discriminate.
  - exists symbols. split; [exact Hrun|]. split; [exact Hlen|].
    apply Hmem. eexists. split; [now left|]. repeat split.
Defined.

(** ** What a signal reports *)

Section ScanSignals.

Context {T : Type} {num : Number T}.
Variable World : Type.
Variable round : T -> Z -> T.
Variable binance_klines :
  string -> string -> Z -> World -> result (list T) * World.
Variable bybit_klines :
  string -> string -> Z -> World -> result (list T) * World.

Local Abbreviation fetch := (fetch_klines World binance_klines bybit_klines).
Local Abbreviation process :=
  (process_symbol World round binance_klines bybit_klines).

(** X18. When an iteration of the scan changes the signals, it has added
    one entry for the symbol and the timeframe at hand: its price is the
    last of the closes the fetch returned, and its two EMA values are
    the last entries of the EMA series of these closes, rounded to 4
    places, the short one above the long one where one bar earlier it
    was not. *)
Theorem signal_reports_last_bar exchange timeframe es el rp symbol
        (signals signals' : list Signal) (st : state World) :
  fst (process exchange timeframe es el rp symbol signals st)
  = Normal signals' ->
  signals' <> signals ->
  exists closes ema_s ema_l price s1 l1 s2 l2 signal,
    fst (fetch exchange symbol timeframe 100 st) = Normal closes
    /\ calculate_ema closes es = Normal ema_s
    /\ calculate_ema closes el = Normal ema_l
    /\ nth_error closes (length closes - 1) = Some price
    /\ nth_error ema_s (length closes - 1) = Some s1
    /\ nth_error ema_l (length closes - 1) = Some l1
    /\ nth_error ema_s (length closes - 2) = Some s2
    /\ nth_error ema_l (length closes - 2) = Some l2
    /\ ngtb s1 l1 = true
    /\ nleb s2 l2 = true
    /\ signals' = signals ++ [signal]
    /\ s_symbol signal = symbol
    /\ s_timeframe signal = timeframe
    /\ s_price signal = price
    /\ s_emaShort signal = round s1 4
    /\ s_emaLong signal = round l1 4.
Proof.
  rewrite process_symbol_eq. cbn [fst]. intros Hrun Hnew.
  injection Hrun as Hrun.
  destruct (fst (fetch exchange symbol timeframe 100 st)) as [closes|e];
    [|congruence].
  destruct (analyse_closes round timeframe es el rp symbol signals closes)
    as [sg|e] eqn:Ha; [|congruence].
  subst sg.
  apply analyse_closes_appends in Ha
    as [->|(signal & -> & Hsym & Htf & _ & Hlen & Hcalc)];
    [contradiction|].
  destruct Hcalc
    as (ema_s & ema_l & rsi_vals & Hes & Hel & _ & Hls & Hll & Hcross & Hmake).
  destruct (fresh_crossover_ok ema_s ema_l)
    as (s1 & l1 & s2 & l2 & H1 & H2 & H3 & H4 & Hc); try lia.
  rewrite Hcross in Hc. injection Hc as Hc. symmetry in Hc.
  apply andb_true_iff in Hc as [Hgt Hle].
  destruct (make_signal_ok round symbol timeframe closes ema_s ema_l rsi_vals)
    as (price & s1' & l1' & r & Hp & H1' & H2' & _ & _ & Hmake'); try lia.
  rewrite Hmake in Hmake'. injection Hmake' as ->.
  rewrite H1 in H1'. injection H1' as <-.
  rewrite H2 in H2'. injection H2' as <-.
  rewrite Hls in H1, H3. rewrite Hll in H2, H4.
  exists closes, ema_s, ema_l, price, s1, l1, s2, l2. eexists.
  repeat (split; [first [reflexivity | eassumption]|]). reflexivity.
Qed.

End ScanSignals.

Lemma signal_reports_last_bar_witness :
  exists signal,
    fst (process_symbol unit keep_digits synthetic_klines synthetic_klines
                        "binance" "1m" 1 2 1 "ABCUSDT" [] fresh_state)
    = Normal ([] ++ [signal])
    /\ s_symbol signal = "ABCUSDT"%string
    /\ nth_error synthetic_closes 11 = Some (s_price signal).
Proof.
  destruct (signal_reports_last_bar (T:=float) (num:=float_number)
              unit keep_digits synthetic_klines synthetic_klines
              "binance" "1m" 1 2 1 "ABCUSDT" []
              match fst (process_symbol unit keep_digits synthetic_klines
                                        synthetic_klines "binance" "1m"
                                        1 2 1 "ABCUSDT" [] fresh_state) with
              | Normal found => found
              | Raise _ => []
              end
              fresh_state)
    as (closes & ema_s & ema_l & price & s1 & l1 & s2 & l2 & signal
        & Hfetch & _ & _ & Hprice & _ & _ & _ & _ & _ & _ & Hnew & Hsym
        & _ & Hp & _).
  - vm_compute. reflexivity.
  - vm_compute. discriminate.
  - exists signal. vm_compute in Hfetch. injection Hfetch as <-.
    rewrite Hp. split; [|split; [exact Hsym | exact Hprice]].
    rewrite <- Hnew. vm_compute. reflexivity.
Defined.
